(** * Team Roster: the derivation layer and the mutation actions

    A shallow embedding of the roster front-end's logic: the Users cache
    and its sort ([useUsers]), the role buckets of the roster view, the
    view router ([App.renderView]), session resolution
    ([FirebaseContext]), service-request assignment ([SRAssignment]) and
    the vacation mutators of the engineer, manager and admin dashboards.

    Conventions of the embedding.
    - A field of a JavaScript object that may be missing is an [option];
      [None] is JavaScript's [undefined].
    - [null] and [undefined] are not told apart where the sources test
      a field for truthiness ([x || 0], [!x]); the two places that treat
      them differently, the object spread of [FirebaseContext] and the
      raw comparison of index.js, say so at the definition.
    - Counters are JavaScript numbers holding integers; they are [Z].  A
      threshold typed into the admin form is stored as the numeric string
      the input holds; [>=] converts it to the number it denotes, and
      that number is what the [Z] stands for.
    - Strings are [string]; the relational operators on strings and the
      default [Array.prototype.sort] compare them code unit by code unit,
      which is [String.compare].
    - A React component is its state record, and each handler is a
      function from the state to the next state and the calls it issued
      to the document store, in order.  What the store answers to a call
      is not decided by this program: every handler that awaits a store
      call takes the answer as an argument.
    - A closure kept in a state slot ([modalAction]) is the constructor of
      an inductive type carrying the values the closure captured.
    - Status texts are the constructors of a message type carrying the
      values interpolated into the text.  The timer that clears a status
      text after three seconds is not modelled. *)

From Stdlib Require Import ZArith List String Ascii Bool Lia.
From Stdlib Require Import Sorting.Sorted Sorting.Permutation.
From stdpp Require Import base gmap strings list sorting.

Local Open Scope string_scope.
Local Open Scope list_scope.
Local Open Scope Z_scope.

(* ===================================================================== *)
(** * Part I: definitions                                                 *)
(* ===================================================================== *)

(** ** JavaScript primitives used by the sources *)

Module Js.

(** [x || 0] on a numeric field: [undefined] and [0] are falsy. *)
Definition orZero (x : option Z) : Z :=
  match x with
  | Some n => if n =? 0 then 0 else n
  | None => 0
  end.

(** [x || ''] on a string field: [undefined] and [''] are falsy. *)
Definition orEmpty (x : option string) : string :=
  match x with
  | Some s => if String.eqb s "" then "" else s
  | None => ""
  end.

(** [x || []] on an array field: only [undefined] is falsy. *)
Definition orNil {A} (x : option (list A)) : list A :=
  match x with
  | Some l => l
  | None => []
  end.

(** [!s] on a string: true for [undefined], [null] and ['']. *)
Definition falsyStr (x : option string) : bool :=
  match x with
  | Some s => String.eqb s ""
  | None => true
  end.

(** [a === b] on strings. *)
Definition strictEq (a b : option string) : bool :=
  match a, b with
  | Some x, Some y => String.eqb x y
  | None, None => true
  | _, _ => false
  end.

(** [arr.includes(x)] on an array of strings. *)
Fixpoint includes (arr : list string) (x : string) : bool :=
  match arr with
  | [] => false
  | y :: rest => String.eqb y x || includes rest x
  end.

(** [arr.find(p)] and [arr.filter(p)] are [List.find] and
    [List.filter]; [[...arr, x]] is [arr ++ [x]]. *)

(** The value a comparison function hands back to [sort]. *)
Inductive number : Type :=
| Num (z : Z)
| NaN.

(** [Array.prototype.sort]: the comparator's answer [v] is read as
    [+0] when it is [NaN], and the sort is stable.  For a consistent
    comparator the stable sorted arrangement is unique, so the engine's
    algorithm does not matter; it is written here as an insertion sort
    that puts an element in front of the first one it does not exceed. *)
Definition sortCompare {A} (comparefn : A -> A -> number) (x y : A) : Z :=
  match comparefn x y with
  | Num v => v
  | NaN => 0
  end.

Fixpoint insert {A} (comparefn : A -> A -> number) (x : A) (sorted : list A)
  : list A :=
  match sorted with
  | [] => [x]
  | y :: rest =>
      if sortCompare comparefn x y >? 0
      then y :: insert comparefn x rest
      else x :: y :: rest
  end.

Fixpoint sort {A} (comparefn : A -> A -> number) (arr : list A) : list A :=
  match arr with
  | [] => []
  | x :: rest => insert comparefn x (sort comparefn rest)
  end.

(** The comparison [sort()] uses when no comparator is given, on
    strings: [-1] when [x < y], [1] when [y < x], [0] otherwise. *)
Definition defaultCompare (x y : string) : number :=
  match String.compare x y with
  | Lt => Num (-1)
  | Gt => Num 1
  | Eq => Num 0
  end.

Definition sortDefault (arr : list string) : list string :=
  sort defaultCompare arr.

(** [x] may stand in front of [y]: the comparator does not put [x]
    after [y]. *)
Definition before {A} (comparefn : A -> A -> number) (x y : A) : Prop :=
  sortCompare comparefn x y <= 0.

(** [x] and [y] are equal under the comparator. *)
Definition tied {A} (comparefn : A -> A -> number) (x y : A) : bool :=
  sortCompare comparefn x y =? 0.

(** A consistent comparison function on the values satisfying [P]
    (ECMAScript, Array.prototype.sort): swapping the arguments swaps the
    sign, and standing in front is transitive. *)
Definition consistentOn {A} (P : A -> Prop) (comparefn : A -> A -> number) : Prop :=
  (forall x y, P x -> P y ->
     (sortCompare comparefn x y > 0 <-> sortCompare comparefn y x < 0))
  /\ (forall x y z, P x -> P y -> P z ->
       before comparefn x y -> before comparefn y z -> before comparefn x z).

(** [x <= y] on strings. *)
Definition strLe (x y : string) : Prop := String.leb x y = true.

End Js.

(** ** The User record (spec section 3) *)

Module User.

Record t : Type := mk {
  id : string;
  name : option string;
  email : option string;
  role : option string;
  managerId : option string;
  workingHours : option string;
  shiftPattern : option string;
  vacationDates : option (list string);
  skills : option (list string);
  srThreshold : option Z;
  currentSrCount : option Z
}.

(** The role is one of the enumeration. *)
Definition roleInEnumeration (u : t) : Prop :=
  role u = Some "Admin" \/ role u = Some "Manager"
  \/ role u = Some "Engineer" \/ role u = Some "Viewer".

(** The invariant of [vacationDates]: each date at most once, in
    ascending lexicographic order. *)
Definition datesInvariant (dates : list string) : Prop :=
  List.NoDup dates /\ StronglySorted Js.strLe dates.

End User.

(** ** The document store interface (spec section 6) *)

Module Store.

(** The field sets the dashboards write with [updateDoc]. *)
Inductive fields : Type :=
| CurrentSrCount (n : Z)
| VacationDates (dates : list string).

(** A call issued to the store. *)
Inductive call : Type :=
| GetDoc (docId : string)
| SetDoc (docId : string) (data : User.t)
| UpdateDoc (docId : string) (data : fields).

(** What the store answers to an awaited call. *)
Inductive answer : Type :=
| Resolved
| Rejected (errorMessage : string).

(** The users collection, keyed by document id.  A document is held
    as the record a reader gets back, [{ id: doc.id, ...doc.data() }]. *)
Abbreviation collection := (gmap string User.t).

(** The record after [updateDoc] replaced one of its fields. *)
Definition setField (data : fields) (u : User.t) : User.t :=
  match data with
  | CurrentSrCount n =>
      User.mk (User.id u) (User.name u) (User.email u) (User.role u)
              (User.managerId u) (User.workingHours u) (User.shiftPattern u)
              (User.vacationDates u) (User.skills u) (User.srThreshold u) (Some n)
  | VacationDates dates =>
      User.mk (User.id u) (User.name u) (User.email u) (User.role u)
              (User.managerId u) (User.workingHours u) (User.shiftPattern u)
              (Some dates) (User.skills u) (User.srThreshold u) (User.currentSrCount u)
  end.

(** The collection after a call the store accepted: [setDoc] creates
    or replaces the document, [updateDoc] changes the named fields of
    an existing document, [getDoc] changes nothing. *)
Definition apply (c : call) (db : collection) : collection :=
  match c with
  | GetDoc _ => db
  | SetDoc docId data => <[docId := data]> db
  | UpdateDoc docId data => alter (setField data) docId db
  end.

Definition applyAll (calls : list call) (db : collection) : collection :=
  fold_left (fun acc c => apply c acc) calls db.

(** Every [vacationDates] written by the calls satisfies the invariant. *)
Definition keepsDatesInvariant (calls : list call) : Prop :=
  List.Forall
    (fun c =>
       match c with
       | UpdateDoc _ (VacationDates dates) => User.datesInvariant dates
       | _ => True
       end)
    calls.

End Store.

(** ** src/components/manager/SRAssignment.js *)

Module SRAssignment.

Inductive action : Type :=
| ConfirmAssignSR (engineer : User.t) (force : bool)
| ConfirmResetSR (engineer : User.t).

Inductive text : Type :=
| NoText
| PleaseSelect
| NotFound
| Assigned (engineerName : option string) (newSrCount : Z)
| ResetDone (engineerName : option string)
| ErrorAssigning (errorMessage : string)
| ErrorResetting (errorMessage : string)
| ReachedThreshold (engineerName : option string) (threshold : Z)
| AskReset (engineerName : option string).

Record state : Type := mkState {
  selectedEngineerId : string;
  isForceAssign : bool;
  message : text;
  isModalOpen : bool;
  modalMessage : text;
  modalAction : option action
}.

Definition initial : state :=
  mkState "" false NoText false NoText None.

Definition setMessage (m : text) (st : state) : state :=
  mkState (selectedEngineerId st) (isForceAssign st) m
          (isModalOpen st) (modalMessage st) (modalAction st).

Definition setIsModalOpen (b : bool) (st : state) : state :=
  mkState (selectedEngineerId st) (isForceAssign st) (message st)
          b (modalMessage st) (modalAction st).

Definition setModalMessage (m : text) (st : state) : state :=
  mkState (selectedEngineerId st) (isForceAssign st) (message st)
          (isModalOpen st) m (modalAction st).

Definition setModalAction (a : option action) (st : state) : state :=
  mkState (selectedEngineerId st) (isForceAssign st) (message st)
          (isModalOpen st) (modalMessage st) a.

Definition setSelectedEngineerId (i : string) (st : state) : state :=
  mkState i (isForceAssign st) (message st)
          (isModalOpen st) (modalMessage st) (modalAction st).

Definition setIsForceAssign (b : bool) (st : state) : state :=
  mkState (selectedEngineerId st) b (message st)
          (isModalOpen st) (modalMessage st) (modalAction st).

(** The threshold test of [handleAssignSR]:
    [(engineer.currentSrCount || 0) >= (engineer.srThreshold || 0)]. *)
Definition reachedThreshold (engineer : User.t) : bool :=
  Js.orZero (User.currentSrCount engineer) >=? Js.orZero (User.srThreshold engineer).

Definition confirmAssignSR (answer : Store.answer)
    (engineer : User.t) (force : bool) (st : state)
  : state * list Store.call :=
  let newSrCount := Js.orZero (User.currentSrCount engineer) + 1 in
  let issued := [Store.UpdateDoc (User.id engineer) (Store.CurrentSrCount newSrCount)] in
  match answer with
  | Store.Resolved =>
      (setIsModalOpen false
         (setIsForceAssign false
            (setSelectedEngineerId ""
               (setMessage (Assigned (User.name engineer) newSrCount) st))),
       issued)
  | Store.Rejected err =>
      (setIsModalOpen false (setMessage (ErrorAssigning err) st), issued)
  end.

Definition handleAssignSR (answer : Store.answer)
    (myTeam : list User.t) (st : state)
  : state * list Store.call :=
  if String.eqb (selectedEngineerId st) ""
  then (setMessage PleaseSelect st, [])
  else
    match List.find (fun e => String.eqb (User.id e) (selectedEngineerId st)) myTeam with
    | None => (setMessage NotFound st, [])
    | Some engineer =>
        if negb (isForceAssign st) && reachedThreshold engineer
        then
          (setIsModalOpen true
             (setModalAction (Some (ConfirmAssignSR engineer true))
                (setModalMessage
                   (ReachedThreshold (User.name engineer)
                                     (Js.orZero (User.srThreshold engineer)))
                   st)),
           [])
        else confirmAssignSR answer engineer (isForceAssign st) st
    end.

Definition handleResetSR (engineer : User.t) (st : state) : state :=
  setIsModalOpen true
    (setModalAction (Some (ConfirmResetSR engineer))
       (setModalMessage (AskReset (User.name engineer)) st)).

Definition confirmResetSR (answer : Store.answer) (engineer : User.t) (st : state)
  : state * list Store.call :=
  let issued := [Store.UpdateDoc (User.id engineer) (Store.CurrentSrCount 0)] in
  match answer with
  | Store.Resolved =>
      (setIsModalOpen false (setMessage (ResetDone (User.name engineer)) st), issued)
  | Store.Rejected err =>
      (setIsModalOpen false (setMessage (ErrorResetting err) st), issued)
  end.

(** The modal's Confirm button: [if (modalAction) modalAction()]. *)
Definition clickConfirm (answer : Store.answer) (st : state)
  : state * list Store.call :=
  match modalAction st with
  | Some (ConfirmAssignSR engineer force) => confirmAssignSR answer engineer force st
  | Some (ConfirmResetSR engineer) => confirmResetSR answer engineer st
  | None => (st, [])
  end.

(** The modal's Cancel button and [onClose]. *)
Definition clickCancel (st : state) : state := setIsModalOpen false st.

(** The over-threshold status as the specification words it
    ([srStatus]): [current >= threshold] when the threshold is nonzero,
    never over when it is zero.  Kept apart from [reachedThreshold],
    which is the program's test. *)
Definition srStatus_over_as_specified (engineer : User.t) : bool :=
  let current := Js.orZero (User.currentSrCount engineer) in
  let threshold := Js.orZero (User.srThreshold engineer) in
  if threshold =? 0 then false else current >=? threshold.

(** A counter as a property read gives it: [undefined] when the
    document has no such field, [null] when it stores null, or a
    number.  [x || 0] reads the first two alike, a comparison does not. *)
Inductive field : Type :=
| Missing
| Null
| Number (n : Z).

(** [ToNumber]: [undefined] converts to [NaN], [null] to 0. *)
Definition toNumber (v : field) : Js.number :=
  match v with
  | Missing => Js.NaN
  | Null => Js.Num 0
  | Number n => Js.Num n
  end.

(** [x >= y] on numbers: false when either is [NaN]. *)
Definition ge (x y : Js.number) : bool :=
  match x, y with
  | Js.Num a, Js.Num b => a >=? b
  | _, _ => false
  end.

(** [v || 0] on a counter. *)
Definition orZero (v : field) : Z :=
  match v with
  | Number n => n
  | _ => 0
  end.

(** The copy of the threshold test in the single-file version,
    index.js: [engineer.currentSrCount >= engineer.srThreshold], on the
    fields as they are. *)
Definition reachedThreshold_index_js (currentSrCount srThreshold : field) : bool :=
  ge (toNumber currentSrCount) (toNumber srThreshold).

End SRAssignment.

(** ** src/hooks/useUsers.js *)

Module UseUsers.

Record state : Type := mkState {
  users : list User.t;
  loading : bool;
  error : option string
}.

Definition initial : state := mkState [] true None.

(** What a lookup in the object literal [roleOrder] gives: the rank
    of an own key, the member of [Object.prototype] under an inherited
    key (a function, or the prototype itself under [__proto__]), or
    [undefined]. *)
Inductive member : Type :=
| Rank (rank : Z)
| Inherited (key : string)
| Undefined.

(** The keys an object literal inherits from [Object.prototype]. *)
Definition objectPrototypeKeys : list string :=
  ["constructor"; "hasOwnProperty"; "isPrototypeOf"; "propertyIsEnumerable";
   "toLocaleString"; "toString"; "valueOf"; "__proto__";
   "__defineGetter__"; "__defineSetter__"; "__lookupGetter__"; "__lookupSetter__"].

(** [roleOrder[key]] for
    [roleOrder = { 'Admin': 0, 'Manager': 1, 'Engineer': 2, 'Viewer': 3 }].
    A missing role reads the key ["undefined"], which the object does
    not have. *)
Definition roleOrder (key : option string) : member :=
  match key with
  | Some r =>
      if String.eqb r "Admin" then Rank 0
      else if String.eqb r "Manager" then Rank 1
      else if String.eqb r "Engineer" then Rank 2
      else if String.eqb r "Viewer" then Rank 3
      else if Js.includes objectPrototypeKeys r then Inherited r
      else Undefined
  | None => Undefined
  end.

(** [x !== y] on two results of the lookup.  The members of
    [Object.prototype] are pairwise different objects. *)
Definition strictNe (x y : member) : bool :=
  match x, y with
  | Rank a, Rank b => negb (a =? b)
  | Inherited j, Inherited k => negb (String.eqb j k)
  | Undefined, Undefined => false
  | _, _ => true
  end.

(** [x - y] on two results of the lookup: [undefined], a function and
    [Object.prototype] all convert to [NaN]. *)
Definition minus (x y : member) : Js.number :=
  match x, y with
  | Rank a, Rank b => Js.Num (a - b)
  | _, _ => Js.NaN
  end.

Section Comparator.

(** [String.prototype.localeCompare]: negative, zero or positive.
    Its result depends on the host's locale data. *)
Variable localeCompare : string -> string -> Z.

(** The comparison function handed to [usersList.sort]. *)
Definition compareUsers (a b : User.t) : Js.number :=
  if strictNe (roleOrder (User.role a)) (roleOrder (User.role b))
  then minus (roleOrder (User.role a)) (roleOrder (User.role b))
  else Js.Num (localeCompare (Js.orEmpty (User.name a)) (Js.orEmpty (User.name b))).

(** The snapshot callback: the whole cached list is replaced by the
    sorted snapshot. *)
Definition onSnapshot (snapshot : list User.t) (st : state) : state :=
  let usersList := Js.sort compareUsers snapshot in
  mkState usersList false (error st).

(** The error callback. *)
Definition onError (st : state) : state :=
  mkState (users st) false (Some "Failed to load users.").

(** [localeCompare] is a consistent comparison of strings. *)
Definition consistentLocaleCompare : Prop :=
  Js.consistentOn (fun _ : string => True) (fun a b => Js.Num (localeCompare a b)).

(** The order of the cache as the specification words it: the lower
    role rank first; for equal ranks, names ascending under
    [localeCompare]. *)
Definition inOrder_as_specified (a b : User.t) : Prop :=
  match roleOrder (User.role a), roleOrder (User.role b) with
  | Rank ra, Rank rb =>
      ra < rb
      \/ (ra = rb
          /\ localeCompare (Js.orEmpty (User.name a)) (Js.orEmpty (User.name b)) <= 0)
  | _, _ => False
  end.

(** [b] is equal to [a] under both keys. *)
Definition sameKeys (a b : User.t) : bool :=
  match roleOrder (User.role a), roleOrder (User.role b) with
  | Rank ra, Rank rb =>
      (rb =? ra)
      && (localeCompare (Js.orEmpty (User.name b)) (Js.orEmpty (User.name a)) =? 0)
  | _, _ => false
  end.

End Comparator.

End UseUsers.

(** ** The roster view: [OverallRosterView] *)

Module OverallRosterView.

Definition roleIs (r : string) (u : User.t) : bool :=
  Js.strictEq (User.role u) (Some r).

Definition managers (users : list User.t) : list User.t :=
  List.filter (roleIs "Manager") users.

Definition engineersAndViewers (users : list User.t) : list User.t :=
  List.filter (fun u => roleIs "Engineer" u || roleIs "Viewer" u) users.

(** The rows under one manager's heading. *)
Definition teamMembers (manager : User.t) (users : list User.t) : list User.t :=
  List.filter (fun u => Js.strictEq (User.managerId u) (Some (User.id manager)))
              (engineersAndViewers users).

(** The rows under "Other Users (Admins, Unassigned)". *)
Definition otherUsers (users : list User.t) : list User.t :=
  List.filter
    (fun u => roleIs "Admin" u
              || (negb (roleIs "Manager" u) && Js.falsyStr (User.managerId u)))
    users.

(** The four role buckets as the specification words them
    ([partitionByRole]): one bucket per role of the enumeration. *)
Definition partitionByRole_as_specified (users : list User.t)
  : list User.t * list User.t * list User.t * list User.t :=
  (List.filter (roleIs "Admin") users,
   List.filter (roleIs "Manager") users,
   List.filter (roleIs "Engineer") users,
   List.filter (roleIs "Viewer") users).

End OverallRosterView.

(** ** src/App.js *)

Module App.

Record Skill : Type := mkSkill { skillId : string; skillName : option string }.

(** What [App] puts on the screen.  A dashboard carries the props it is
    rendered with. *)
Inductive view : Type :=
| LoadingSpinner
| ErrorLoading (text : string)
| NoSession
| AdminView (currentUser : User.t) (users : list User.t) (skills : list Skill)
| ManagerView (currentUser : User.t) (users : list User.t) (skills : list Skill)
| EngineerView (currentUser : User.t) (users : list User.t) (skills : list Skill)
| ViewerView (currentUser : User.t) (users : list User.t) (skills : list Skill)
| AccessDenied.

(** [renderView]: the [switch] compares [currentUser.role] with [===]. *)
Definition renderView (currentUser : option User.t)
    (users : list User.t) (skills : list Skill) : view :=
  match currentUser with
  | None => NoSession
  | Some cu =>
      if Js.strictEq (User.role cu) (Some "Admin") then AdminView cu users skills
      else if Js.strictEq (User.role cu) (Some "Manager") then ManagerView cu users skills
      else if Js.strictEq (User.role cu) (Some "Engineer") then EngineerView cu users skills
      else if Js.strictEq (User.role cu) (Some "Viewer") then ViewerView cu users skills
      else AccessDenied
  end.

(** [usersError || skillsError]. *)
Definition firstError (usersError skillsError : option string) : option string :=
  match usersError with
  | Some e => Some e
  | None => skillsError
  end.

(** The body of [App]: spinner, error page, or the routed view. *)
Definition app (isAuthReady : bool) (currentUser : option User.t)
    (usersState : UseUsers.state)
    (skills : list Skill) (skillsLoading : bool) (skillsError : option string)
  : view :=
  if negb isAuthReady || UseUsers.loading usersState || skillsLoading
  then LoadingSpinner
  else
    match firstError (UseUsers.error usersState) skillsError with
    | Some e => ErrorLoading e
    | None => renderView currentUser (UseUsers.users usersState) skills
    end.

(** The six states of the router as the specification names them. *)
Inductive routerState : Type :=
| SNoSession | SAdmin | SManager | SEngineer | SViewer | SUnknownRole.

Definition stateOf (v : view) : option routerState :=
  match v with
  | NoSession => Some SNoSession
  | AdminView _ _ _ => Some SAdmin
  | ManagerView _ _ _ => Some SManager
  | EngineerView _ _ _ => Some SEngineer
  | ViewerView _ _ _ => Some SViewer
  | AccessDenied => Some SUnknownRole
  | LoadingSpinner | ErrorLoading _ => None
  end.

End App.

(** ** src/contexts/FirebaseContext.js *)

Module FirebaseContext.

(** The identity provider's user: the fields this program reads. *)
Record authUser : Type := mkAuthUser { uid : string; authEmail : option string }.

Record state : Type := mkState {
  currentUser : option User.t;
  isAuthReady : bool
}.

Definition initial : state := mkState None false.

(** [user.email || fallback]. *)
Definition emailOr (user : authUser) (fallback : string) : string :=
  match authEmail user with
  | Some e => if String.eqb e "" then fallback else e
  | None => fallback
  end.

Definition defaultUser (user : authUser) : User.t :=
  User.mk (uid user)
    (Some (emailOr user ("Anonymous User " ++ String.substring 0 5 (uid user))%string))
    (Some (emailOr user (uid user ++ "@example.com")%string))
    (Some "Viewer")
    None
    (Some "9 AM - 5 PM")
    (Some "Day Shift")
    (Some [])
    (Some [])
    (Some 0)
    (Some 0).

(** [{ ...user, ...data, id: user.uid }]: of the fields of [User.t] the
    identity provider's user has [email] only, which the document's
    own [email] overrides.  Here [None] as the document's [email] is a
    field the document does not have, so the identity's e-mail stays; a
    document that stores [email: null] overrides it with null, which
    [User.t] does not tell apart from a missing field.  The profile
    this program writes, [defaultUser], always has an e-mail. *)
Definition mergeUser (user : authUser) (data : User.t) : User.t :=
  User.mk (uid user) (User.name data)
    (match User.email data with Some e => Some e | None => authEmail user end)
    (User.role data) (User.managerId data) (User.workingHours data)
    (User.shiftPattern data) (User.vacationDates data) (User.skills data)
    (User.srThreshold data) (User.currentSrCount data).

(** The observer registered with [onAuthStateChanged].  It awaits
    [getDoc] and, when there is no document, [setDoc]; when either is
    rejected the observer's promise is rejected and nothing more is set. *)
Definition onAuthStateChanged
    (getAnswer setAnswer : Store.answer)
    (user : option authUser) (db : Store.collection) (st : state)
  : state * list Store.call :=
  match user with
  | Some u =>
      match getAnswer with
      | Store.Rejected _ => (st, [Store.GetDoc (uid u)])
      | Store.Resolved =>
          match db !! uid u with
          | Some data =>
              (mkState (Some (mergeUser u data)) true, [Store.GetDoc (uid u)])
          | None =>
              match setAnswer with
              | Store.Rejected _ =>
                  (st, [Store.GetDoc (uid u); Store.SetDoc (uid u) (defaultUser u)])
              | Store.Resolved =>
                  (mkState (Some (mergeUser u (defaultUser u))) true,
                   [Store.GetDoc (uid u); Store.SetDoc (uid u) (defaultUser u)])
              end
          end
      end
  | None => (mkState None true, [])
  end.

End FirebaseContext.

(** ** src/views/EngineerView.js *)

Module EngineerView.

(** The closures put in [modalAction].  Each captures the
    [currentUser] of the render that created it. *)
Inductive action : Type :=
| ConfirmAddVacationRequest (currentUser : User.t) (dateToAdd : string)
| ConfirmRemoveVacationRequest (currentUser : User.t) (dateToRemove : string).

Inductive text : Type :=
| NoText
| PleaseSelectDate
| AlreadyHaveVacation (date : string)
| AskRequest (date : string)
| AskRemove (date : string)
| Submitted
| Removed
| ErrorSubmitting (errorMessage : string)
| ErrorRemoving (errorMessage : string).

Record state : Type := mkState {
  newVacationDate : string;
  message : text;
  isModalOpen : bool;
  modalMessage : text;
  modalAction : option action
}.

Definition initial : state := mkState "" NoText false NoText None.

Definition setNewVacationDate (d : string) (st : state) : state :=
  mkState d (message st) (isModalOpen st) (modalMessage st) (modalAction st).

Definition setMessage (m : text) (st : state) : state :=
  mkState (newVacationDate st) m (isModalOpen st) (modalMessage st) (modalAction st).

Definition setIsModalOpen (b : bool) (st : state) : state :=
  mkState (newVacationDate st) (message st) b (modalMessage st) (modalAction st).

Definition setModalMessage (m : text) (st : state) : state :=
  mkState (newVacationDate st) (message st) (isModalOpen st) m (modalAction st).

Definition setModalAction (a : option action) (st : state) : state :=
  mkState (newVacationDate st) (message st) (isModalOpen st) (modalMessage st) a.

Definition handleAddVacationRequest (currentUser : User.t) (st : state) : state :=
  if String.eqb (newVacationDate st) ""
  then setMessage PleaseSelectDate st
  else if Js.includes (Js.orNil (User.vacationDates currentUser)) (newVacationDate st)
  then
    setIsModalOpen true
      (setModalAction None
         (setModalMessage (AlreadyHaveVacation (newVacationDate st)) st))
  else
    setIsModalOpen true
      (setModalAction
         (Some (ConfirmAddVacationRequest currentUser (newVacationDate st)))
         (setModalMessage (AskRequest (newVacationDate st)) st)).

Definition confirmAddVacationRequest (answer : Store.answer)
    (currentUser : User.t) (dateToAdd : string) (st : state)
  : state * list Store.call :=
  let updatedVacations :=
    Js.sortDefault (Js.orNil (User.vacationDates currentUser) ++ [dateToAdd]) in
  let issued :=
    [Store.UpdateDoc (User.id currentUser) (Store.VacationDates updatedVacations)] in
  match answer with
  | Store.Resolved =>
      (setIsModalOpen false (setMessage Submitted (setNewVacationDate "" st)), issued)
  | Store.Rejected err =>
      (setIsModalOpen false (setMessage (ErrorSubmitting err) st), issued)
  end.

Definition handleRemoveVacationRequest (currentUser : User.t)
    (dateToRemove : string) (st : state) : state :=
  setIsModalOpen true
    (setModalAction (Some (ConfirmRemoveVacationRequest currentUser dateToRemove))
       (setModalMessage (AskRemove dateToRemove) st)).

Definition confirmRemoveVacationRequest (answer : Store.answer)
    (currentUser : User.t) (dateToRemove : string) (st : state)
  : state * list Store.call :=
  let updatedVacations :=
    List.filter (fun date => negb (String.eqb date dateToRemove))
                (Js.orNil (User.vacationDates currentUser)) in
  let issued :=
    [Store.UpdateDoc (User.id currentUser) (Store.VacationDates updatedVacations)] in
  match answer with
  | Store.Resolved => (setIsModalOpen false (setMessage Removed st), issued)
  | Store.Rejected err =>
      (setIsModalOpen false (setMessage (ErrorRemoving err) st), issued)
  end.

(** The modal's Confirm / OK button:
    [if (modalAction) modalAction(); setIsModalOpen(false)]. *)
Definition clickConfirm (answer : Store.answer) (st : state)
  : state * list Store.call :=
  match modalAction st with
  | Some (ConfirmAddVacationRequest cu d) =>
      let (st', issued) := confirmAddVacationRequest answer cu d st in
      (setIsModalOpen false st', issued)
  | Some (ConfirmRemoveVacationRequest cu d) =>
      let (st', issued) := confirmRemoveVacationRequest answer cu d st in
      (setIsModalOpen false st', issued)
  | None => (setIsModalOpen false st, [])
  end.

(** What the user can do on this dashboard.  The modal's buttons
    exist only while the modal is open. *)
Inductive event : Type :=
| PickDate (d : string)
| ClickRequest
| ClickRemove (idx : nat)
| ClickConfirm (answer : Store.answer)
| ClickCancel.

(** [ClickRemove idx] is the button next to the date listed at
    position [idx] of [currentUser.vacationDates]. *)
Definition step (currentUser : User.t) (ev : event) (st : state)
  : state * list Store.call :=
  match ev with
  | PickDate d => (setNewVacationDate d st, [])
  | ClickRequest => (handleAddVacationRequest currentUser st, [])
  | ClickRemove idx =>
      match nth_error (Js.orNil (User.vacationDates currentUser)) idx with
      | Some date => (handleRemoveVacationRequest currentUser date st, [])
      | None => (st, [])
      end
  | ClickConfirm answer =>
      if isModalOpen st then clickConfirm answer st else (st, [])
  | ClickCancel => (setIsModalOpen false st, [])
  end.

(** A session: at each event the dashboard is rendered with the
    [currentUser] of that moment.  Returns the final state and all the
    calls issued, in order. *)
Fixpoint run (session : list (User.t * event)) (st : state)
  : state * list Store.call :=
  match session with
  | [] => (st, [])
  | (cu, ev) :: rest =>
      let (st1, issued1) := step cu ev st in
      let (st2, issued2) := run rest st1 in
      (st2, issued1 ++ issued2)
  end.

(** A pending action is safe when the record it captured satisfies the
    invariant and, for an addition, does not hold the date yet. *)
Definition safeAction (a : action) : Prop :=
  match a with
  | ConfirmAddVacationRequest cu d =>
      User.datesInvariant (Js.orNil (User.vacationDates cu))
      /\ ~ In d (Js.orNil (User.vacationDates cu))
  | ConfirmRemoveVacationRequest cu _ =>
      User.datesInvariant (Js.orNil (User.vacationDates cu))
  end.

Definition safe (st : state) : Prop :=
  forall a, modalAction st = Some a -> safeAction a.

End EngineerView.

(** ** The manager's vacation management component *)

Module ManagerVacationManagement.

Inductive action : Type :=
| ConfirmAddVacation (engineer : User.t) (dateToAdd : string)
| ConfirmRemoveVacation (engineer : User.t) (dateToRemove : string).

Inductive text : Type :=
| NoText
| PleaseSelectEngineerAndDate
| AlreadyHasVacation (engineerName : option string) (date : string)
| AskAdd (engineerName : option string) (date : string)
| AskRemove (engineerName : option string) (date : string)
| ErrorAdding (errorMessage : string)
| ErrorRemoving (errorMessage : string).

Record state : Type := mkState {
  selectedEngineerId : string;
  newVacationDate : string;
  isModalOpen : bool;
  modalMessage : text;
  modalAction : option action
}.

Definition initial : state := mkState "" "" false NoText None.

Definition setSelectedEngineerId (i : string) (st : state) : state :=
  mkState i (newVacationDate st) (isModalOpen st) (modalMessage st) (modalAction st).

Definition setNewVacationDate (d : string) (st : state) : state :=
  mkState (selectedEngineerId st) d (isModalOpen st) (modalMessage st) (modalAction st).

Definition setIsModalOpen (b : bool) (st : state) : state :=
  mkState (selectedEngineerId st) (newVacationDate st) b (modalMessage st) (modalAction st).

Definition setModalMessage (m : text) (st : state) : state :=
  mkState (selectedEngineerId st) (newVacationDate st) (isModalOpen st) m (modalAction st).

Definition setModalAction (a : option action) (st : state) : state :=
  mkState (selectedEngineerId st) (newVacationDate st) (isModalOpen st) (modalMessage st) a.

Definition handleAddVacation (myTeam : list User.t) (st : state) : state :=
  if String.eqb (selectedEngineerId st) "" || String.eqb (newVacationDate st) ""
  then
    setIsModalOpen true
      (setModalAction None (setModalMessage PleaseSelectEngineerAndDate st))
  else
    match List.find (fun e => String.eqb (User.id e) (selectedEngineerId st)) myTeam with
    | None => st
    | Some engineer =>
        if Js.includes (Js.orNil (User.vacationDates engineer)) (newVacationDate st)
        then
          setIsModalOpen true
            (setModalAction None
               (setModalMessage
                  (AlreadyHasVacation (User.name engineer) (newVacationDate st)) st))
        else
          setIsModalOpen true
            (setModalAction
               (Some (ConfirmAddVacation engineer (newVacationDate st)))
               (setModalMessage (AskAdd (User.name engineer) (newVacationDate st)) st))
    end.

Definition confirmAddVacation (answer : Store.answer)
    (engineer : User.t) (dateToAdd : string) (st : state)
  : state * list Store.call :=
  let updatedVacations :=
    Js.sortDefault (Js.orNil (User.vacationDates engineer) ++ [dateToAdd]) in
  let issued :=
    [Store.UpdateDoc (User.id engineer) (Store.VacationDates updatedVacations)] in
  match answer with
  | Store.Resolved => (setIsModalOpen false (setNewVacationDate "" st), issued)
  | Store.Rejected err =>
      (setIsModalOpen true
         (setModalAction None (setModalMessage (ErrorAdding err) st)),
       issued)
  end.

Definition handleRemoveVacation (engineer : User.t) (dateToRemove : string)
    (st : state) : state :=
  setIsModalOpen true
    (setModalAction (Some (ConfirmRemoveVacation engineer dateToRemove))
       (setModalMessage (AskRemove (User.name engineer) dateToRemove) st)).

Definition confirmRemoveVacation (answer : Store.answer)
    (engineer : User.t) (dateToRemove : string) (st : state)
  : state * list Store.call :=
  let updatedVacations :=
    List.filter (fun date => negb (String.eqb date dateToRemove))
                (Js.orNil (User.vacationDates engineer)) in
  let issued :=
    [Store.UpdateDoc (User.id engineer) (Store.VacationDates updatedVacations)] in
  match answer with
  | Store.Resolved => (setIsModalOpen false st, issued)
  | Store.Rejected err =>
      (setIsModalOpen true
         (setModalAction None (setModalMessage (ErrorRemoving err) st)),
       issued)
  end.

(** The modal's Confirm button, rendered only when [modalAction] is set:
    [if (modalAction) modalAction()]. *)
Definition clickConfirm (answer : Store.answer) (st : state)
  : state * list Store.call :=
  match modalAction st with
  | Some (ConfirmAddVacation engineer d) => confirmAddVacation answer engineer d st
  | Some (ConfirmRemoveVacation engineer d) => confirmRemoveVacation answer engineer d st
  | None => (st, [])
  end.

Inductive event : Type :=
| SelectEngineer (i : string)
| PickDate (d : string)
| ClickAdd
| ClickRemove (row idx : nat)
| ClickConfirm (answer : Store.answer)
| ClickClose.

(** [ClickRemove row idx] is the button next to the date listed at
    position [idx] in the table row of the engineer at position [row]
    of [myTeam]. *)
Definition step (myTeam : list User.t) (ev : event) (st : state)
  : state * list Store.call :=
  match ev with
  | SelectEngineer i => (setNewVacationDate "" (setSelectedEngineerId i st), [])
  | PickDate d => (setNewVacationDate d st, [])
  | ClickAdd => (handleAddVacation myTeam st, [])
  | ClickRemove row idx =>
      match nth_error myTeam row with
      | Some engineer =>
          match nth_error (Js.orNil (User.vacationDates engineer)) idx with
          | Some date => (handleRemoveVacation engineer date st, [])
          | None => (st, [])
          end
      | None => (st, [])
      end
  | ClickConfirm answer =>
      if isModalOpen st then clickConfirm answer st else (st, [])
  | ClickClose => (setIsModalOpen false st, [])
  end.

(** A session: at each event the component is rendered with the
    [myTeam] of that moment. *)
Fixpoint run (session : list (list User.t * event)) (st : state)
  : state * list Store.call :=
  match session with
  | [] => (st, [])
  | (myTeam, ev) :: rest =>
      let (st1, issued1) := step myTeam ev st in
      let (st2, issued2) := run rest st1 in
      (st2, issued1 ++ issued2)
  end.

Definition safeAction (a : action) : Prop :=
  match a with
  | ConfirmAddVacation engineer d =>
      User.datesInvariant (Js.orNil (User.vacationDates engineer))
      /\ ~ In d (Js.orNil (User.vacationDates engineer))
  | ConfirmRemoveVacation engineer _ =>
      User.datesInvariant (Js.orNil (User.vacationDates engineer))
  end.

Definition safe (st : state) : Prop :=
  forall a, modalAction st = Some a -> safeAction a.

End ManagerVacationManagement.

(** ** src/components/admin/AddEditUserModal.js *)

Module AddEditUserModal.

Record formData : Type := mkFormData {
  name : string;
  email : string;
  role : string;
  managerId : string;
  workingHours : string;
  shiftPattern : string;
  vacationDates : list string;
  skills : list string;
  srThreshold : Z;
  currentSrCount : Z
}.

(** The form of a new user. *)
Definition blank : formData :=
  mkFormData "" "" "Engineer" "" "" "" [] [] 0 0.

(** [x || 'Engineer'] on the role. *)
Definition roleOrEngineer (x : option string) : string :=
  match x with
  | Some s => if String.eqb s "" then "Engineer" else s
  | None => "Engineer"
  end.

(** The effect that loads the edited user into the form. *)
Definition load (user : option User.t) : formData :=
  match user with
  | Some u =>
      mkFormData (Js.orEmpty (User.name u)) (Js.orEmpty (User.email u))
                 (roleOrEngineer (User.role u)) (Js.orEmpty (User.managerId u))
                 (Js.orEmpty (User.workingHours u)) (Js.orEmpty (User.shiftPattern u))
                 (Js.orNil (User.vacationDates u)) (Js.orNil (User.skills u))
                 (Js.orZero (User.srThreshold u)) (Js.orZero (User.currentSrCount u))
  | None => blank
  end.

Definition setVacationDates (dates : list string) (prev : formData) : formData :=
  mkFormData (name prev) (email prev) (role prev) (managerId prev)
             (workingHours prev) (shiftPattern prev) dates (skills prev)
             (srThreshold prev) (currentSrCount prev).

(** [handleAddVacationDate], reading [newDate] from the date input.
    Returns the form and what the input holds afterwards. *)
Definition handleAddVacationDate (newDate : string) (fd : formData)
  : formData * string :=
  if negb (String.eqb newDate "") && negb (Js.includes (vacationDates fd) newDate)
  then (setVacationDates (Js.sortDefault (vacationDates fd ++ [newDate])) fd, "")
  else (fd, newDate).

Definition handleRemoveVacationDate (dateToRemove : string) (fd : formData)
  : formData :=
  setVacationDates
    (List.filter (fun date => negb (String.eqb date dateToRemove)) (vacationDates fd))
    fd.

End AddEditUserModal.

(** ** Sample records *)

Module Sample.

(** An engineer with the given counters and vacation dates. *)
Definition engineer (i : string) (threshold count : option Z)
    (dates : option (list string)) : User.t :=
  User.mk i (Some "Ada") (Some "ada@example.com") (Some "Engineer") (Some "m1")
          (Some "9 AM - 5 PM") (Some "Day Shift") dates (Some [])
          threshold count.

(** A user with the given name and role. *)
Definition user (i : string) (n : string) (r : option string) : User.t :=
  User.mk i (Some n) None r None None None None None None None.

(** A comparison of strings by code units, standing in for
    [localeCompare] in the examples. *)
Definition codeUnitCompare (a b : string) : Z :=
  Js.sortCompare Js.defaultCompare a b.

(** The engineer picks date [d], presses Request and confirms. *)
Definition requestVacation (cu : User.t) (d : string) (answer : Store.answer)
  : list (User.t * EngineerView.event) :=
  [(cu, EngineerView.PickDate d); (cu, EngineerView.ClickRequest);
   (cu, EngineerView.ClickConfirm answer)].

(** The engineer presses the remove button of row [idx] and confirms. *)
Definition removeVacation (cu : User.t) (idx : nat) (answer : Store.answer)
  : list (User.t * EngineerView.event) :=
  [(cu, EngineerView.ClickRemove idx); (cu, EngineerView.ClickConfirm answer)].

(** The manager selects engineer [i], picks date [d], presses Add
    Vacation and confirms. *)
Definition addVacation (myTeam : list User.t) (i d : string) (answer : Store.answer)
  : list (list User.t * ManagerVacationManagement.event) :=
  [(myTeam, ManagerVacationManagement.SelectEngineer i);
   (myTeam, ManagerVacationManagement.PickDate d);
   (myTeam, ManagerVacationManagement.ClickAdd);
   (myTeam, ManagerVacationManagement.ClickConfirm answer)].

(** The SR dashboard with engineer [i] selected. *)
Definition selecting (i : string) (force : bool) : SRAssignment.state :=
  SRAssignment.setIsForceAssign force
    (SRAssignment.setSelectedEngineerId i SRAssignment.initial).

End Sample.

(** ** The events of the SR dashboard (SRAssignment.js) *)

Module SRAssignmentEvents.

(** What the manager can do on the SR dashboard.  [ClickReset row] is
    the Reset SR button in the table row of the engineer at position
    [row] of [myTeam]. *)
Inductive event : Type :=
| SelectEngineer (i : string)
| SetForce (checked : bool)
| ClickAssign (answer : Store.answer)
| ClickReset (row : nat)
| ClickConfirm (answer : Store.answer)
| ClickCancel.

(** With an empty team the component returns a paragraph of text:
    there is no control and no modal to act on. *)
Definition step (myTeam : list User.t) (ev : event) (st : SRAssignment.state)
  : SRAssignment.state * list Store.call :=
  match myTeam with
  | [] => (st, [])
  | _ :: _ =>
      match ev with
      | SelectEngineer i => (SRAssignment.setSelectedEngineerId i st, [])
      | SetForce checked => (SRAssignment.setIsForceAssign checked st, [])
      | ClickAssign answer => SRAssignment.handleAssignSR answer myTeam st
      | ClickReset row =>
          match nth_error myTeam row with
          | Some engineer => (SRAssignment.handleResetSR engineer st, [])
          | None => (st, [])
          end
      | ClickConfirm answer =>
          if SRAssignment.isModalOpen st
          then SRAssignment.clickConfirm answer st
          else (st, [])
      | ClickCancel => (SRAssignment.clickCancel st, [])
      end
  end.

(** A session: at each event the component is rendered with the
    [myTeam] of that moment. *)
Fixpoint run (session : list (list User.t * event)) (st : SRAssignment.state)
  : SRAssignment.state * list Store.call :=
  match session with
  | [] => (st, [])
  | (myTeam, ev) :: rest =>
      let (st1, issued1) := step myTeam ev st in
      let (st2, issued2) := run rest st1 in
      (st2, issued1 ++ issued2)
  end.

(** The engineer a pending action captured. *)
Definition engineerOf (a : SRAssignment.action) : User.t :=
  match a with
  | SRAssignment.ConfirmAssignSR engineer _ => engineer
  | SRAssignment.ConfirmResetSR engineer => engineer
  end.

(** [e] was a member of one of the teams. *)
Definition memberOf (teams : list (list User.t)) (e : User.t) : Prop :=
  exists team, In team teams /\ In e team.

(** The call writes the SR counter of a member of one of the teams:
    either 0 or the member's count plus one. *)
Definition writesCounterOf (teams : list (list User.t)) (c : Store.call) : Prop :=
  match c with
  | Store.UpdateDoc docId (Store.CurrentSrCount n) =>
      exists e, memberOf teams e /\ User.id e = docId
                /\ (n = 0 \/ n = Js.orZero (User.currentSrCount e) + 1)
  | _ => False
  end.

End SRAssignmentEvents.

(** ** The manager's dashboard (ManagerView) *)

Module ManagerView.

(** [users.filter(u => u.managerId === currentUser.id && u.role === 'Engineer')]. *)
Definition myTeam (currentUser : User.t) (users : list User.t) : list User.t :=
  List.filter
    (fun u => Js.strictEq (User.managerId u) (Some (User.id currentUser))
              && Js.strictEq (User.role u) (Some "Engineer"))
    users.

End ManagerView.

(** ** What the roster view renders (OverallRosterView) *)

Module RosterPage.

(** Either the notice "No users configured yet", or one section per
    manager with the rows of its team members, followed by the rows of
    "Other Users (Admins, Unassigned)". *)
Inductive page : Type :=
| NoUsersConfigured
| Sections (teams : list (User.t * list User.t)) (others : list User.t).

Definition render (users : list User.t) : page :=
  if (length (OverallRosterView.managers users) =? 0)%nat
     && (length (OverallRosterView.engineersAndViewers users) =? 0)%nat
  then NoUsersConfigured
  else
    Sections
      (map (fun manager => (manager, OverallRosterView.teamMembers manager users))
           (OverallRosterView.managers users))
      (OverallRosterView.otherUsers users).

(** [u] is one of the rows of the page. *)
Definition shownAsRow (u : User.t) (p : page) : Prop :=
  match p with
  | NoUsersConfigured => False
  | Sections teams others =>
      In u others \/ exists section, In section teams /\ In u (snd section)
  end.

End RosterPage.

(** ** Table cells that resolve references *)

Module Cells.






(** The manager cell of the user table:
    [user.managerId ? users.find(m => m.id === user.managerId)?.name || 'N/A' : 'None']. *)
Definition managerCell (user : User.t) (users : list User.t) : string :=
  match User.managerId user with
  | Some i =>
      if String.eqb i "" then "None"
      else
        match List.find (fun m => String.eqb (User.id m) i) users with
        | Some m => if Js.falsyStr (User.name m) then "N/A" else Js.orEmpty (User.name m)
        | None => "N/A"
        end
  | None => "None"
  end.

(** [myManager] of the engineer's dashboard:
    [currentUser.managerId ? users.find(u => u.id === currentUser.managerId) : null]. *)
Definition myManager (currentUser : User.t) (users : list User.t) : option User.t :=
  match User.managerId currentUser with
  | Some i =>
      if String.eqb i "" then None
      else List.find (fun u => String.eqb (User.id u) i) users
  | None => None
  end.

(** The manager line of the engineer's dashboard: [myManager?.name || 'None']. *)
Definition myManagerLine (currentUser : User.t) (users : list User.t) : string :=
  match myManager currentUser users with
  | Some m => if Js.falsyStr (User.name m) then "None" else Js.orEmpty (User.name m)
  | None => "None"
  end.

End Cells.

(** ** The dates of the admin form, click by click *)

Module AddEditUserModalEvents.

Inductive event : Type :=
| AddDate (newDate : string)
| RemoveDate (dateToRemove : string).

Definition step (ev : event) (fd : AddEditUserModal.formData)
  : AddEditUserModal.formData :=
  match ev with
  | AddDate newDate => fst (AddEditUserModal.handleAddVacationDate newDate fd)
  | RemoveDate d => AddEditUserModal.handleRemoveVacationDate d fd
  end.

Definition run (events : list event) (fd : AddEditUserModal.formData)
  : AddEditUserModal.formData :=
  fold_left (fun acc ev => step ev acc) events fd.

End AddEditUserModalEvents.

(** ** src/components/admin/UserManagement.js *)

Module UserManagement.

(** The calls this component issues: [updateDoc(ref, userData)],
    [addDoc(col, dataWithoutId)] and [deleteDoc(ref)].  The form's data
    has no [id] field, so [dataWithoutId] is the form's data. *)
Inductive call : Type :=
| UpdateUser (docId : string) (userData : AddEditUserModal.formData)
| AddUser (userData : AddEditUserModal.formData)
| DeleteUser (docId : string).

Inductive text : Type :=
| NoText
| UserUpdated
| UserAdded
| UserDeleted
| ErrorSaving (errorMessage : string)
| ErrorDeleting (errorMessage : string).

Record state : Type := mkState {
  showAddEditModal : bool;
  editingUser : option User.t;
  isDeleteModalOpen : bool;
  userToDelete : option User.t;
  message : text
}.

Definition initial : state := mkState false None false None NoText.

Definition handleSaveUser (answer : Store.answer)
    (userData : AddEditUserModal.formData) (st : state)
  : state * list call :=
  match editingUser st with
  | Some u =>
      match answer with
      | Store.Resolved =>
          (mkState false None (isDeleteModalOpen st) (userToDelete st) UserUpdated,
           [UpdateUser (User.id u) userData])
      | Store.Rejected err =>
          (mkState (showAddEditModal st) (editingUser st) (isDeleteModalOpen st)
                   (userToDelete st) (ErrorSaving err),
           [UpdateUser (User.id u) userData])
      end
  | None =>
      match answer with
      | Store.Resolved =>
          (mkState false None (isDeleteModalOpen st) (userToDelete st) UserAdded,
           [AddUser userData])
      | Store.Rejected err =>
          (mkState (showAddEditModal st) (editingUser st) (isDeleteModalOpen st)
                   (userToDelete st) (ErrorSaving err),
           [AddUser userData])
      end
  end.

(** The "Add New User" button. *)
Definition clickAddNew (st : state) : state :=
  mkState true None (isDeleteModalOpen st) (userToDelete st) (message st).

Definition handleEditClick (user : User.t) (st : state) : state :=
  mkState true (Some user) (isDeleteModalOpen st) (userToDelete st) (message st).

Definition handleDeleteClick (user : User.t) (st : state) : state :=
  mkState (showAddEditModal st) (editingUser st) true (Some user) (message st).

Definition confirmDeleteUser (answer : Store.answer) (st : state)
  : state * list call :=
  match userToDelete st with
  | Some u =>
      match answer with
      | Store.Resolved =>
          (mkState (showAddEditModal st) (editingUser st) false None UserDeleted,
           [DeleteUser (User.id u)])
      | Store.Rejected err =>
          (mkState (showAddEditModal st) (editingUser st) (isDeleteModalOpen st)
                   (userToDelete st) (ErrorDeleting err),
           [DeleteUser (User.id u)])
      end
  | None => (st, [])
  end.

(** Cancel and [onClose] of the delete modal. *)
Definition cancelDelete (st : state) : state :=
  mkState (showAddEditModal st) (editingUser st) false None (message st).

(** The form the modal shows: the effect loads [editingUser] into it. *)
Definition formOf (st : state) : AddEditUserModal.formData :=
  AddEditUserModal.load (editingUser st).

End UserManagement.

(** ** The skill management component *)

Module SkillManagement.

Inductive call : Type :=
| AddSkill (name : string)
| UpdateSkill (docId : string) (name : string)
| DeleteSkill (docId : string).

Inductive text : Type :=
| NoText
| NameCannotBeEmpty
| SkillAdded
| SkillUpdated
| SkillDeleted
| ErrorAdding (errorMessage : string)
| ErrorUpdating (errorMessage : string)
| ErrorDeleting (errorMessage : string).

Record state : Type := mkState {
  newSkillName : string;
  editingSkill : option App.Skill;
  isDeleteModalOpen : bool;
  skillToDelete : option App.Skill;
  message : text
}.

Definition initial : state := mkState "" None false None NoText.

Section Trim.

(** [String.prototype.trim]. *)
Variable trim : string -> string.

Definition handleAddSkill (answer : Store.answer) (st : state) : state * list call :=
  if String.eqb (trim (newSkillName st)) ""
  then (mkState (newSkillName st) (editingSkill st) (isDeleteModalOpen st)
                (skillToDelete st) NameCannotBeEmpty,
        [])
  else
    match answer with
    | Store.Resolved =>
        (mkState "" (editingSkill st) (isDeleteModalOpen st) (skillToDelete st) SkillAdded,
         [AddSkill (trim (newSkillName st))])
    | Store.Rejected err =>
        (mkState (newSkillName st) (editingSkill st) (isDeleteModalOpen st)
                 (skillToDelete st) (ErrorAdding err),
         [AddSkill (trim (newSkillName st))])
    end.

Definition handleUpdateSkill (answer : Store.answer) (st : state) : state * list call :=
  match editingSkill st with
  | None =>
      (mkState (newSkillName st) (editingSkill st) (isDeleteModalOpen st)
               (skillToDelete st) NameCannotBeEmpty,
       [])
  | Some skill =>
      if String.eqb (trim (newSkillName st)) ""
      then (mkState (newSkillName st) (editingSkill st) (isDeleteModalOpen st)
                    (skillToDelete st) NameCannotBeEmpty,
            [])
      else
        match answer with
        | Store.Resolved =>
            (mkState "" None (isDeleteModalOpen st) (skillToDelete st) SkillUpdated,
             [UpdateSkill (App.skillId skill) (trim (newSkillName st))])
        | Store.Rejected err =>
            (mkState (newSkillName st) (editingSkill st) (isDeleteModalOpen st)
                     (skillToDelete st) (ErrorUpdating err),
             [UpdateSkill (App.skillId skill) (trim (newSkillName st))])
        end
  end.

(** The form's [onSubmit]: [editingSkill ? handleUpdateSkill : handleAddSkill]. *)
Definition submit (answer : Store.answer) (st : state) : state * list call :=
  match editingSkill st with
  | Some _ => handleUpdateSkill answer st
  | None => handleAddSkill answer st
  end.

End Trim.

(** The text input's [onChange]. *)
Definition typeName (value : string) (st : state) : state :=
  mkState value (editingSkill st) (isDeleteModalOpen st) (skillToDelete st) (message st).

(** [handleEditClick]: [setEditingSkill(skill); setNewSkillName(skill.name)].
    For a skill without a name the program stores [undefined] in the
    input, and a submit before the next [onChange] throws on [trim]
    without issuing a call; here the input then holds the empty string
    until [typeName] overwrites it. *)
Definition handleEditClick (skill : App.Skill) (st : state) : state :=
  mkState (Js.orEmpty (App.skillName skill)) (Some skill) (isDeleteModalOpen st)
          (skillToDelete st) (message st).

(** The "Cancel Edit" button. *)
Definition cancelEdit (st : state) : state :=
  mkState "" None (isDeleteModalOpen st) (skillToDelete st) (message st).

Definition handleDeleteClick (skill : App.Skill) (st : state) : state :=
  mkState (newSkillName st) (editingSkill st) true (Some skill) (message st).

Definition confirmDeleteSkill (answer : Store.answer) (st : state)
  : state * list call :=
  match skillToDelete st with
  | Some skill =>
      match answer with
      | Store.Resolved =>
          (mkState (newSkillName st) (editingSkill st) false None SkillDeleted,
           [DeleteSkill (App.skillId skill)])
      | Store.Rejected err =>
          (mkState (newSkillName st) (editingSkill st) false (skillToDelete st)
                   (ErrorDeleting err),
           [DeleteSkill (App.skillId skill)])
      end
  | None => (st, [])
  end.

End SkillManagement.

(** ** Whose vacation dates a call writes *)

Module DatesTargets.

(** The call is an [updateDoc] of [vacationDates] on the document of one
    of the records. *)
Definition writesDatesOf (records : list User.t) (c : Store.call) : Prop :=
  match c with
  | Store.UpdateDoc docId (Store.VacationDates _) =>
      exists u, In u records /\ User.id u = docId
  | _ => False
  end.

(** The record a pending action of the engineer's dashboard captured. *)
Definition engineerRecord (a : EngineerView.action) : User.t :=
  match a with
  | EngineerView.ConfirmAddVacationRequest cu _ => cu
  | EngineerView.ConfirmRemoveVacationRequest cu _ => cu
  end.

(** The record a pending action of the manager's component captured. *)
Definition managerRecord (a : ManagerVacationManagement.action) : User.t :=
  match a with
  | ManagerVacationManagement.ConfirmAddVacation e _ => e
  | ManagerVacationManagement.ConfirmRemoveVacation e _ => e
  end.

End DatesTargets.

(** ** More sample records *)

Module Scenario.

(** A user with the given role and manager. *)
Definition member (i n : string) (r : option string) (m : option string) : User.t :=
  User.mk i (Some n) None r m None None None None None None.

(** Trimming of leading and trailing spaces, standing in for
    [String.prototype.trim] in the examples. *)
Fixpoint dropSpaces (s : string) : string :=
  match s with
  | String " "%char rest => dropSpaces rest
  | _ => s
  end.

Fixpoint reverse (s acc : string) : string :=
  match s with
  | EmptyString => acc
  | String c rest => reverse rest (String c acc)
  end.

Definition trimSpaces (s : string) : string :=
  reverse (dropSpaces (reverse (dropSpaces s) "")) "".

End Scenario.

(* ===================================================================== *)
(** * Part II: properties                                                 *)
(* ===================================================================== *)

(** ** Strings in code-unit order *)

Section StringOrder.

Lemma ascii_compare_refl (a : ascii) : Ascii.compare a a = Eq.
Proof. unfold Ascii.compare. apply N.compare_refl. Qed.

Lemma ascii_compare_lt_trans (a b c : ascii) :
  Ascii.compare a b = Lt -> Ascii.compare b c = Lt -> Ascii.compare a c = Lt.
Proof.
  unfold Ascii.compare. rewrite !N.compare_lt_iff. lia.
Qed.

Lemma string_compare_refl (x : string) : String.compare x x = Eq.
Proof.
  induction x as [| a x IH]; simpl; [reflexivity |].
  now rewrite ascii_compare_refl.
Qed.

Lemma string_compare_lt_trans (x y z : string) :
  String.compare x y = Lt -> String.compare y z = Lt -> String.compare x z = Lt.
Proof.
  revert y z. induction x as [| a x IH]; intros [| b y] [| c z]; simpl;
    try congruence.
  destruct (Ascii.compare a b) eqn:Hab; try discriminate;
    destruct (Ascii.compare b c) eqn:Hbc; try discriminate; intros Hxy Hyz.
  - apply Ascii.compare_eq_iff in Hab, Hbc. subst.
    rewrite ascii_compare_refl. eauto.
  - apply Ascii.compare_eq_iff in Hab. subst. now rewrite Hbc.
  - apply Ascii.compare_eq_iff in Hbc. subst. now rewrite Hab.
  - now rewrite (ascii_compare_lt_trans a b c Hab Hbc).
Qed.

Lemma strLe_compare (x y : string) : Js.strLe x y <-> String.compare x y <> Gt.
Proof.
  unfold Js.strLe, String.leb. destruct (String.compare x y); split; congruence.
Qed.

Lemma strLe_refl (x : string) : Js.strLe x x.
Proof. apply strLe_compare. rewrite string_compare_refl. discriminate. Qed.

Lemma strLe_trans (x y z : string) : Js.strLe x y -> Js.strLe y z -> Js.strLe x z.
Proof.
  rewrite !strLe_compare. intros Hxy Hyz.
  destruct (String.compare x y) eqn:Exy; try congruence.
  - apply String.compare_eq_iff in Exy. now subst.
  - destruct (String.compare y z) eqn:Eyz; try congruence.
    + apply String.compare_eq_iff in Eyz. subst. now rewrite Exy.
    + now rewrite (string_compare_lt_trans x y z Exy Eyz).
Qed.

Lemma strLe_antisym (x y : string) : Js.strLe x y -> Js.strLe y x -> x = y.
Proof. apply String.leb_antisym. Qed.

Lemma includes_In (arr : list string) (x : string) :
  Js.includes arr x = true <-> In x arr.
Proof.
  induction arr as [| y rest IH]; simpl.
  - split; [discriminate | tauto].
  - rewrite orb_true_iff, IH, String.eqb_eq. tauto.
Qed.

Lemma includes_not_In (arr : list string) (x : string) :
  Js.includes arr x = false <-> ~ In x arr.
Proof.
  rewrite <- includes_In. destruct (Js.includes arr x); split; congruence.
Qed.

End StringOrder.

(** ** [Array.prototype.sort] with a consistent comparator *)

Section SortTheory.

Context {A : Type} (P : A -> Prop) (comparefn : A -> A -> Js.number).
Hypothesis consistent : Js.consistentOn P comparefn.

Lemma insert_Permutation (x : A) (s : list A) :
  Permutation (Js.insert comparefn x s) (x :: s).
Proof.
  induction s as [| y rest IH]; simpl; [reflexivity |].
  destruct (Js.sortCompare comparefn x y >? 0).
  - rewrite IH. apply perm_swap.
  - reflexivity.
Qed.

Lemma sort_Permutation (l : list A) : Permutation (Js.sort comparefn l) l.
Proof.
  induction l as [| x rest IH]; simpl; [reflexivity |].
  rewrite insert_Permutation. now constructor.
Qed.

Lemma sort_Forall (Q : A -> Prop) (l : list A) :
  List.Forall Q l -> List.Forall Q (Js.sort comparefn l).
Proof.
  intros H. eapply Permutation_Forall; [| exact H].
  symmetry. apply sort_Permutation.
Qed.

Lemma insert_StronglySorted (x : A) (s : list A) :
  P x -> List.Forall P s ->
  StronglySorted (Js.before comparefn) s ->
  StronglySorted (Js.before comparefn) (Js.insert comparefn x s).
Proof.
  destruct consistent as [Hflip Htrans].
  intros Px. induction s as [| y rest IH]; intros HP Hs; simpl.
  - repeat constructor.
  - apply Forall_cons_iff in HP as [Py HP].
    apply StronglySorted_inv in Hs as [Hrest Hy].
    destruct (Z.gtb_spec (Js.sortCompare comparefn x y) 0) as [Hgt | Hle].
    + constructor; [now apply IH |].
      eapply Permutation_Forall; [symmetry; apply insert_Permutation |].
      constructor; [| exact Hy].
      unfold Js.before.
      assert (Js.sortCompare comparefn y x < 0) by (apply Hflip; trivial; lia).
      lia.
    + constructor; [now constructor |].
      constructor; [exact Hle |].
      rewrite List.Forall_forall in Hy, HP |- *. intros z Hz.
      apply (Htrans x y z); auto.
Qed.

Lemma sort_StronglySorted (l : list A) :
  List.Forall P l -> StronglySorted (Js.before comparefn) (Js.sort comparefn l).
Proof.
  induction l as [| x rest IH]; intros HP; simpl; [constructor |].
  apply Forall_cons_iff in HP as [Px HP].
  apply insert_StronglySorted; auto. now apply sort_Forall.
Qed.

(** Two values tied with a third are tied with each other. *)
Lemma tied_before (a x y : A) :
  P a -> P x -> P y ->
  Js.tied comparefn x a = true -> Js.tied comparefn y a = true ->
  Js.before comparefn x y.
Proof.
  destruct consistent as [Hflip Htrans].
  unfold Js.tied. rewrite !Z.eqb_eq. intros Pa Px Py Hx Hy.
  apply (Htrans x a y); trivial; unfold Js.before; [lia |].
  destruct (Z.gtb_spec (Js.sortCompare comparefn a y) 0) as [Hgt | Hle]; [| exact Hle].
  assert (Js.sortCompare comparefn y a < 0) by (apply Hflip; trivial; lia).
  lia.
Qed.

Lemma insert_stable (a x : A) (s : list A) :
  P a -> P x -> List.Forall P s ->
  List.filter (fun y => Js.tied comparefn y a) (Js.insert comparefn x s)
  = List.filter (fun y => Js.tied comparefn y a) (x :: s).
Proof.
  intros Pa Px. induction s as [| y rest IH]; intros HP; [reflexivity |].
  apply Forall_cons_iff in HP as [Py HP]. simpl.
  destruct (Z.gtb_spec (Js.sortCompare comparefn x y) 0) as [Hgt | Hle];
    [| reflexivity].
  simpl. rewrite (IH HP). simpl.
  destruct (Js.tied comparefn y a) eqn:Ey, (Js.tied comparefn x a) eqn:Ex;
    try reflexivity.
  pose proof (tied_before a x y Pa Px Py Ex Ey) as Hb. unfold Js.before in Hb. lia.
Qed.

(** The sort is stable: the values tied with [a] come out in the order
    they went in. *)
Lemma sort_stable (a : A) (l : list A) :
  P a -> List.Forall P l ->
  List.filter (fun y => Js.tied comparefn y a) (Js.sort comparefn l)
  = List.filter (fun y => Js.tied comparefn y a) l.
Proof.
  intros Pa. induction l as [| x rest IH]; intros HP; [reflexivity |].
  apply Forall_cons_iff in HP as [Px HP].
  cbn [Js.sort]. rewrite insert_stable; auto using sort_Forall.
  simpl. now rewrite (IH HP).
Qed.

End SortTheory.

(** ** Service-request assignment *)

Section SRAssignmentProperties.

Import SRAssignment.

Variable answer : Store.answer.
Variable myTeam : list User.t.
Variable st : state.
Variable engineer : User.t.

Hypothesis selected : selectedEngineerId st <> "".
Hypothesis found :
  List.find (fun e => String.eqb (User.id e) (selectedEngineerId st)) myTeam
  = Some engineer.

Lemma handleAssignSR_found :
  handleAssignSR answer myTeam st =
  if negb (isForceAssign st) && reachedThreshold engineer
  then
    (setIsModalOpen true
       (setModalAction (Some (ConfirmAssignSR engineer true))
          (setModalMessage
             (ReachedThreshold (User.name engineer)
                               (Js.orZero (User.srThreshold engineer)))
             st)),
     [])
  else confirmAssignSR answer engineer (isForceAssign st) st.
Proof.
  unfold handleAssignSR.
  destruct (String.eqb_spec (selectedEngineerId st) "") as [E | _].
  - contradiction.
  - now rewrite found.
Qed.

Lemma confirmAssignSR_calls (force : bool) (s : state) :
  snd (confirmAssignSR answer engineer force s) =
  [Store.UpdateDoc (User.id engineer)
     (Store.CurrentSrCount (Js.orZero (User.currentSrCount engineer) + 1))].
Proof. unfold confirmAssignSR. now destruct answer. Qed.

End SRAssignmentProperties.

(** **** C1 *)

(** C1. An engineer whose [currentSrCount] equals [srThreshold] (both
    [n]): a non-forced Assign SR issues no write and opens the
    confirmation with the forced assignment as its action, and confirming
    issues exactly one write, [currentSrCount = n + 1]; a forced Assign SR
    issues exactly that one write at once. *)
Theorem assign_at_threshold :
  forall (answer : Store.answer) (myTeam : list User.t)
         (st : SRAssignment.state) (engineer : User.t) (n : Z),
    SRAssignment.selectedEngineerId st <> "" ->
    List.find (fun e => String.eqb (User.id e) (SRAssignment.selectedEngineerId st)) myTeam
      = Some engineer ->
    User.currentSrCount engineer = Some n ->
    User.srThreshold engineer = Some n ->
    let increment := [Store.UpdateDoc (User.id engineer) (Store.CurrentSrCount (n + 1))] in
    (SRAssignment.isForceAssign st = false ->
       let blocked := SRAssignment.handleAssignSR answer myTeam st in
       snd blocked = []
       /\ SRAssignment.isModalOpen (fst blocked) = true
       /\ SRAssignment.modalAction (fst blocked)
          = Some (SRAssignment.ConfirmAssignSR engineer true)
       /\ forall answer', snd (SRAssignment.clickConfirm answer' (fst blocked)) = increment)
    /\ (SRAssignment.isForceAssign st = true ->
          snd (SRAssignment.handleAssignSR answer myTeam st) = increment).
Proof.
  intros answer myTeam st engineer n Hsel Hfound Hc Ht increment.
  assert (Hz : Js.orZero (Some n) = n).
  { unfold Js.orZero. destruct (Z.eqb_spec n 0); congruence. }
  assert (Hinc : forall a f s, snd (SRAssignment.confirmAssignSR a engineer f s) = increment).
  { intros a f s. rewrite (confirmAssignSR_calls a engineer f s).
    unfold increment. now rewrite Hc, Hz. }
  rewrite (handleAssignSR_found answer myTeam st engineer Hsel Hfound).
  split; intros Hforce; rewrite Hforce; simpl.
  - unfold SRAssignment.reachedThreshold. rewrite Hc, Ht.
    replace (Js.orZero (Some n) >=? Js.orZero (Some n)) with true
      by (symmetry; apply Z.geb_le; lia).
    simpl. repeat split; try reflexivity.
    intros answer'. unfold SRAssignment.clickConfirm. simpl. apply Hinc.
  - apply Hinc.
Qed.

(** The scenario of the specification: threshold 2, count 2. *)
Lemma assign_at_threshold_witness :
  let e := Sample.engineer "e1" (Some 2) (Some 2) None in
  snd (SRAssignment.handleAssignSR Store.Resolved [e] (Sample.selecting "e1" false)) = []
  /\ snd (SRAssignment.handleAssignSR Store.Resolved [e] (Sample.selecting "e1" true))
     = [Store.UpdateDoc "e1" (Store.CurrentSrCount 3)].
Proof.
  pose proof (assign_at_threshold Store.Resolved
                [Sample.engineer "e1" (Some 2) (Some 2) None] (Sample.selecting "e1" false)
                (Sample.engineer "e1" (Some 2) (Some 2) None) 2
                ltac:(discriminate) eq_refl eq_refl eq_refl) as [Hno _].
  pose proof (assign_at_threshold Store.Resolved
                [Sample.engineer "e1" (Some 2) (Some 2) None] (Sample.selecting "e1" true)
                (Sample.engineer "e1" (Some 2) (Some 2) None) 2
                ltac:(discriminate) eq_refl eq_refl eq_refl) as [_ Hyes].
  split.
  - exact (proj1 (Hno eq_refl)).
  - exact (Hyes eq_refl).
Defined.

(** **** C2 *)

(** C2, as stated, fails: an engineer with threshold 0 and count 0 is
    not over threshold in the specification's wording, yet the program's
    test holds and the non-forced Assign SR blocks. *)
Lemma threshold_zero_blocks :
  let e := Sample.engineer "e1" (Some 0) (Some 0) None in
  let blocked := SRAssignment.handleAssignSR Store.Resolved [e] (Sample.selecting "e1" false) in
  SRAssignment.srStatus_over_as_specified e = false
  /\ SRAssignment.reachedThreshold e = true
  /\ snd blocked = []
  /\ SRAssignment.isModalOpen (fst blocked) = true
  /\ SRAssignment.modalAction (fst blocked) = Some (SRAssignment.ConfirmAssignSR e true).
Proof. vm_compute. repeat split; reflexivity. Qed.

(** C2, amended. The over-threshold test is
    [(currentSrCount || 0) >= (srThreshold || 0)] for every threshold,
    zero included: a non-forced Assign SR blocks (no write, confirmation
    opened) when it holds and issues the increment when it does not. *)
Theorem non_forced_assign_test :
  forall (answer : Store.answer) (myTeam : list User.t)
         (st : SRAssignment.state) (engineer : User.t),
    SRAssignment.selectedEngineerId st <> "" ->
    List.find (fun e => String.eqb (User.id e) (SRAssignment.selectedEngineerId st)) myTeam
      = Some engineer ->
    SRAssignment.isForceAssign st = false ->
    let current := Js.orZero (User.currentSrCount engineer) in
    let threshold := Js.orZero (User.srThreshold engineer) in
    let outcome := SRAssignment.handleAssignSR answer myTeam st in
    (threshold <= current ->
       snd outcome = []
       /\ SRAssignment.isModalOpen (fst outcome) = true
       /\ SRAssignment.modalAction (fst outcome)
          = Some (SRAssignment.ConfirmAssignSR engineer true))
    /\ (current < threshold ->
          snd outcome
          = [Store.UpdateDoc (User.id engineer) (Store.CurrentSrCount (current + 1))]).
Proof.
  intros answer myTeam st engineer Hsel Hfound Hforce current threshold outcome.
  unfold outcome.
  rewrite (handleAssignSR_found answer myTeam st engineer Hsel Hfound), Hforce.
  unfold SRAssignment.reachedThreshold. fold current threshold. simpl.
  destruct (Z.geb_spec current threshold) as [Hge | Hlt]; split; intros H; try lia.
  - repeat split; reflexivity.
  - apply confirmAssignSR_calls.
Qed.

Lemma non_forced_assign_test_witness :
  snd (SRAssignment.handleAssignSR Store.Resolved
         [Sample.engineer "e1" (Some 5) (Some 2) None] (Sample.selecting "e1" false))
  = [Store.UpdateDoc "e1" (Store.CurrentSrCount 3)].
Proof.
  refine (proj2 (non_forced_assign_test Store.Resolved
                   [Sample.engineer "e1" (Some 5) (Some 2) None]
                   (Sample.selecting "e1" false)
                   (Sample.engineer "e1" (Some 5) (Some 2) None)
                   _ eq_refl eq_refl) _).
  - discriminate.
  - vm_compute. reflexivity.
Defined.

(** **** C10 *)

(** C10. An absent [currentSrCount] or [srThreshold] counts as 0 in the
    threshold test; with both absent a non-forced Assign SR blocks and
    opens the confirmation, and the confirmed assignment writes
    [currentSrCount = 1]. *)
Theorem assign_absent_fields :
  forall (answer : Store.answer) (myTeam : list User.t)
         (st : SRAssignment.state) (engineer : User.t),
    SRAssignment.selectedEngineerId st <> "" ->
    List.find (fun e => String.eqb (User.id e) (SRAssignment.selectedEngineerId st)) myTeam
      = Some engineer ->
    (User.currentSrCount engineer = None ->
       SRAssignment.reachedThreshold engineer
       = (0 >=? Js.orZero (User.srThreshold engineer))
       /\ forall a force s,
            snd (SRAssignment.confirmAssignSR a engineer force s)
            = [Store.UpdateDoc (User.id engineer) (Store.CurrentSrCount 1)])
    /\ (User.srThreshold engineer = None ->
          SRAssignment.reachedThreshold engineer
          = (Js.orZero (User.currentSrCount engineer) >=? 0))
    /\ (User.currentSrCount engineer = None ->
        User.srThreshold engineer = None ->
        SRAssignment.isForceAssign st = false ->
        let blocked := SRAssignment.handleAssignSR answer myTeam st in
        snd blocked = []
        /\ SRAssignment.isModalOpen (fst blocked) = true
        /\ SRAssignment.modalAction (fst blocked)
           = Some (SRAssignment.ConfirmAssignSR engineer true)
        /\ forall answer',
             snd (SRAssignment.clickConfirm answer' (fst blocked))
             = [Store.UpdateDoc (User.id engineer) (Store.CurrentSrCount 1)]).
Proof.
  intros answer myTeam st engineer Hsel Hfound.
  assert (Hone : User.currentSrCount engineer = None ->
                 forall a force s,
                   snd (SRAssignment.confirmAssignSR a engineer force s)
                   = [Store.UpdateDoc (User.id engineer) (Store.CurrentSrCount 1)]).
  { intros Hc a force s. rewrite (confirmAssignSR_calls a engineer force s).
    now rewrite Hc. }
  split; [| split].
  - intros Hc. split; [| now apply Hone].
    unfold SRAssignment.reachedThreshold. now rewrite Hc.
  - intros Ht. unfold SRAssignment.reachedThreshold. now rewrite Ht.
  - intros Hc Ht Hforce.
    rewrite (handleAssignSR_found answer myTeam st engineer Hsel Hfound), Hforce.
    unfold SRAssignment.reachedThreshold. rewrite Hc, Ht. simpl.
    repeat split; try reflexivity.
    intros answer'. unfold SRAssignment.clickConfirm. simpl. now apply Hone.
Qed.

Lemma assign_absent_fields_witness :
  let e := Sample.engineer "e1" None None None in
  let blocked := SRAssignment.handleAssignSR Store.Resolved [e] (Sample.selecting "e1" false) in
  snd blocked = []
  /\ snd (SRAssignment.clickConfirm Store.Resolved (fst blocked))
     = [Store.UpdateDoc "e1" (Store.CurrentSrCount 1)].
Proof.
  pose proof (assign_absent_fields Store.Resolved
                [Sample.engineer "e1" None None None] (Sample.selecting "e1" false)
                (Sample.engineer "e1" None None None)
                ltac:(discriminate) eq_refl) as (_ & _ & H).
  destruct (H eq_refl eq_refl eq_refl) as (H1 & _ & _ & H4).
  split; [exact H1 | exact (H4 Store.Resolved)].
Defined.

(** The older copy of the test in index.js agrees with
    [reachedThreshold] on records that have both counters as numbers,
    and whenever neither counter is missing from the document. *)
Remark reachedThreshold_index_js_agrees (engineer : User.t) (current threshold : Z) :
  User.currentSrCount engineer = Some current ->
  User.srThreshold engineer = Some threshold ->
  SRAssignment.reachedThreshold_index_js
    (SRAssignment.Number current) (SRAssignment.Number threshold)
  = SRAssignment.reachedThreshold engineer
  /\ (forall c t,
        c <> SRAssignment.Missing -> t <> SRAssignment.Missing ->
        SRAssignment.reachedThreshold_index_js c t
        = (SRAssignment.orZero c >=? SRAssignment.orZero t)).
Proof.
  intros Hc Ht. split.
  - unfold SRAssignment.reachedThreshold_index_js, SRAssignment.reachedThreshold,
      Js.orZero.
    rewrite Hc, Ht.
    destruct (Z.eqb_spec current 0), (Z.eqb_spec threshold 0); subst; reflexivity.
  - intros [| | c] [| | t] Hcm Htm; try contradiction; reflexivity.
Qed.

(** It differs when a counter is missing from the document: there the
    older copy never blocks, whatever the other counter is, while
    [reachedThreshold] reads the missing counter as 0. *)
Remark reachedThreshold_index_js_absent :
  (forall v, SRAssignment.reachedThreshold_index_js SRAssignment.Missing v = false)
  /\ (forall v, SRAssignment.reachedThreshold_index_js v SRAssignment.Missing = false)
  /\ SRAssignment.reachedThreshold_index_js SRAssignment.Null SRAssignment.Null = true
  /\ SRAssignment.reachedThreshold (Sample.engineer "e1" None None None) = true.
Proof.
  repeat apply conj; try reflexivity.
  intros [| | n]; reflexivity.
Qed.

(** ** The Users cache *)

Section DefaultCompare.

Lemma sortCompare_defaultCompare (x y : string) :
  Js.sortCompare Js.defaultCompare x y
  = match String.compare x y with Lt => -1 | Eq => 0 | Gt => 1 end.
Proof.
  unfold Js.sortCompare, Js.defaultCompare. now destruct (String.compare x y).
Qed.

Lemma before_defaultCompare (x y : string) :
  Js.before Js.defaultCompare x y <-> Js.strLe x y.
Proof.
  unfold Js.before. rewrite sortCompare_defaultCompare, strLe_compare.
  destruct (String.compare x y); split; intros; try lia; congruence.
Qed.

Lemma defaultCompare_consistent :
  Js.consistentOn (fun _ : string => True) Js.defaultCompare.
Proof.
  split.
  - intros x y _ _. rewrite !sortCompare_defaultCompare.
    rewrite (String.compare_antisym x y).
    destruct (String.compare y x); simpl; lia.
  - intros x y z _ _ _. rewrite !before_defaultCompare. apply strLe_trans.
Qed.

Lemma codeUnitCompare_consistent :
  UseUsers.consistentLocaleCompare Sample.codeUnitCompare.
Proof. exact defaultCompare_consistent. Qed.

End DefaultCompare.

Section UsersCache.

Variable localeCompare : string -> string -> Z.
Hypothesis consistent : UseUsers.consistentLocaleCompare localeCompare.

Lemma roleOrder_enumeration (u : User.t) :
  User.roleInEnumeration u
  <-> exists rank, UseUsers.roleOrder (User.role u) = UseUsers.Rank rank.
Proof.
  unfold User.roleInEnumeration, UseUsers.roleOrder.
  destruct (User.role u) as [r |].
  - destruct (String.eqb_spec r "Admin"); [subst; split; [now exists 0 | tauto] |].
    destruct (String.eqb_spec r "Manager"); [subst; split; [now exists 1 | tauto] |].
    destruct (String.eqb_spec r "Engineer"); [subst; split; [now exists 2 | tauto] |].
    destruct (String.eqb_spec r "Viewer"); [subst; split; [now exists 3 | tauto] |].
    split.
    + intros [H | [H | [H | H]]]; congruence.
    + destruct (Js.includes UseUsers.objectPrototypeKeys r); intros [rank H]; discriminate.
  - split.
    + intros [H | [H | [H | H]]]; discriminate.
    + intros [rank H]; discriminate.
Qed.

Lemma sortCompare_compareUsers (a b : User.t) (ra rb : Z) :
  UseUsers.roleOrder (User.role a) = UseUsers.Rank ra ->
  UseUsers.roleOrder (User.role b) = UseUsers.Rank rb ->
  Js.sortCompare (UseUsers.compareUsers localeCompare) a b
  = if ra =? rb
    then localeCompare (Js.orEmpty (User.name a)) (Js.orEmpty (User.name b))
    else ra - rb.
Proof.
  intros Ha Hb. unfold Js.sortCompare, UseUsers.compareUsers.
  rewrite Ha, Hb. simpl. now destruct (ra =? rb).
Qed.

Lemma before_compareUsers (a b : User.t) :
  User.roleInEnumeration a -> User.roleInEnumeration b ->
  (Js.before (UseUsers.compareUsers localeCompare) a b
   <-> UseUsers.inOrder_as_specified localeCompare a b).
Proof.
  rewrite !roleOrder_enumeration. intros [ra Ea] [rb Eb].
  unfold Js.before, UseUsers.inOrder_as_specified.
  rewrite (sortCompare_compareUsers a b ra rb Ea Eb), Ea, Eb.
  destruct (Z.eqb_spec ra rb); split; intros; lia.
Qed.

Lemma tied_compareUsers (a b : User.t) :
  User.roleInEnumeration a -> User.roleInEnumeration b ->
  Js.tied (UseUsers.compareUsers localeCompare) b a
  = UseUsers.sameKeys localeCompare a b.
Proof.
  rewrite !roleOrder_enumeration. intros [ra Ea] [rb Eb].
  unfold Js.tied, UseUsers.sameKeys.
  rewrite (sortCompare_compareUsers b a rb ra Eb Ea), Ea, Eb.
  destruct (Z.eqb_spec rb ra); simpl; [reflexivity |].
  apply Z.eqb_neq. lia.
Qed.

Lemma compareUsers_consistent :
  Js.consistentOn User.roleInEnumeration (UseUsers.compareUsers localeCompare).
Proof.
  destruct consistent as [Hflip Htrans]. unfold Js.before in Htrans.
  cbn [Js.sortCompare] in Hflip, Htrans.
  split.
  - intros a b Ha Hb.
    apply roleOrder_enumeration in Ha as [ra Ea], Hb as [rb Eb].
    rewrite (sortCompare_compareUsers a b ra rb Ea Eb),
            (sortCompare_compareUsers b a rb ra Eb Ea).
    rewrite (Z.eqb_sym rb ra).
    destruct (Z.eqb_spec ra rb); [now apply Hflip | lia].
  - intros a b c Ha Hb Hc.
    rewrite !before_compareUsers by assumption.
    apply roleOrder_enumeration in Ha as [ra Ea], Hb as [rb Eb], Hc as [rc Ec].
    unfold UseUsers.inOrder_as_specified. rewrite Ea, Eb, Ec.
    intros [Hab | [Hab Hnab]] [Hbc | [Hbc Hnbc]]; try (left; lia).
    right. split; [lia |].
    eapply Htrans; eauto.
Qed.

Lemma inOrder_total (a b : User.t) :
  User.roleInEnumeration a -> User.roleInEnumeration b ->
  UseUsers.inOrder_as_specified localeCompare a b
  \/ UseUsers.inOrder_as_specified localeCompare b a.
Proof.
  destruct consistent as [Hflip _]. cbn [Js.sortCompare] in Hflip.
  rewrite !roleOrder_enumeration. intros [ra Ea] [rb Eb].
  unfold UseUsers.inOrder_as_specified. rewrite Ea, Eb.
  destruct (Z.lt_trichotomy ra rb) as [H | [H | H]]; [left; lia | | right; lia].
  destruct (Z.le_gt_cases
              (localeCompare (Js.orEmpty (User.name a)) (Js.orEmpty (User.name b))) 0)
    as [Hle | Hgt]; [left; right; lia |].
  right. right. split; [lia |].
  assert (localeCompare (Js.orEmpty (User.name b)) (Js.orEmpty (User.name a)) < 0)
    by (apply Hflip; trivial; lia).
  lia.
Qed.

Lemma StronglySorted_weaken {A} (R R' : A -> A -> Prop) (Q : A -> Prop) (l : list A) :
  (forall x y, Q x -> Q y -> R x y -> R' x y) ->
  List.Forall Q l -> StronglySorted R l -> StronglySorted R' l.
Proof.
  intros Himp HQ Hs. induction Hs as [| x l Hs IH Hx]; [constructor |].
  apply Forall_cons_iff in HQ as [Qx HQ].
  constructor; [now apply IH |].
  rewrite List.Forall_forall in Hx, HQ |- *. auto.
Qed.

End UsersCache.

(** **** The cache on records with a role of the enumeration *)

(** X30. After a snapshot whose records all carry a role of the
    enumeration, and for a consistent [localeCompare], the cached list is
    the snapshot rearranged and sorted by a total order: the lower role
    rank first, for equal ranks the name ascending; records equal under
    both keys keep the order they had in the snapshot. *)
Theorem users_cache_sorted :
  forall (localeCompare : string -> string -> Z),
    UseUsers.consistentLocaleCompare localeCompare ->
    forall (snapshot : list User.t) (st : UseUsers.state),
      List.Forall User.roleInEnumeration snapshot ->
      let cache := UseUsers.users (UseUsers.onSnapshot localeCompare snapshot st) in
      Permutation cache snapshot
      /\ StronglySorted (UseUsers.inOrder_as_specified localeCompare) cache
      /\ (forall a b, In a cache -> In b cache ->
            UseUsers.inOrder_as_specified localeCompare a b
            \/ UseUsers.inOrder_as_specified localeCompare b a)
      /\ (forall u,
            List.filter (UseUsers.sameKeys localeCompare u) cache
            = List.filter (UseUsers.sameKeys localeCompare u) snapshot).
Proof.
  intros localeCompare Hlc snapshot st Hroles cache.
  pose proof (compareUsers_consistent localeCompare Hlc) as Hcons.
  assert (Hperm : Permutation cache snapshot) by apply sort_Permutation.
  assert (Hcache : List.Forall User.roleInEnumeration cache)
    by (apply sort_Forall; exact Hroles).
  split; [exact Hperm |]. split; [| split].
  - apply (StronglySorted_weaken
             (Js.before (UseUsers.compareUsers localeCompare)) _
             User.roleInEnumeration); trivial.
    + intros x y Hx Hy. now apply before_compareUsers.
    + now apply (sort_StronglySorted User.roleInEnumeration).
  - rewrite List.Forall_forall in Hcache. intros a b Ha Hb.
    apply inOrder_total; auto.
  - intros u.
    assert (Hnone : forall l,
               (forall rank, UseUsers.roleOrder (User.role u) <> UseUsers.Rank rank) ->
               List.filter (UseUsers.sameKeys localeCompare u) l = []).
    { intros l Hu.
      rewrite (List.filter_ext (UseUsers.sameKeys localeCompare u) (fun _ => false)).
      - apply List.filter_false.
      - intros y. unfold UseUsers.sameKeys.
        destruct (UseUsers.roleOrder (User.role u)) as [ru | k |];
          [now destruct (Hu ru) | reflexivity | reflexivity]. }
    destruct (UseUsers.roleOrder (User.role u)) as [ru | k |] eqn:Eu.
    + assert (Hu : User.roleInEnumeration u)
        by (apply roleOrder_enumeration; now exists ru).
      rewrite <- (List.filter_ext_in
                    (fun y => Js.tied (UseUsers.compareUsers localeCompare) y u)
                    (UseUsers.sameKeys localeCompare u) cache).
      2:{ intros y Hy. rewrite List.Forall_forall in Hcache.
          apply tied_compareUsers; auto. }
      rewrite <- (List.filter_ext_in
                    (fun y => Js.tied (UseUsers.compareUsers localeCompare) y u)
                    (UseUsers.sameKeys localeCompare u) snapshot).
      2:{ intros y Hy. rewrite List.Forall_forall in Hroles.
          apply tied_compareUsers; auto. }
      now apply (sort_stable User.roleInEnumeration).
    + rewrite !Hnone; [reflexivity | |]; intros rank; discriminate.
    + rewrite !Hnone; [reflexivity | |]; intros rank; discriminate.
Qed.

Lemma users_cache_sorted_witness :
  let snapshot :=
    [Sample.user "u1" "zed" (Some "Viewer"); Sample.user "u2" "bob" (Some "Admin");
     Sample.user "u3" "al" (Some "Engineer"); Sample.user "u4" "amy" (Some "Admin");
     Sample.user "u5" "max" (Some "Manager")] in
  let cache :=
    UseUsers.users (UseUsers.onSnapshot Sample.codeUnitCompare snapshot UseUsers.initial) in
  Permutation cache snapshot
  /\ StronglySorted (UseUsers.inOrder_as_specified Sample.codeUnitCompare) cache.
Proof.
  intros snapshot cache.
  destruct (users_cache_sorted Sample.codeUnitCompare codeUnitCompare_consistent
              snapshot UseUsers.initial) as (Hperm & Hsorted & _).
  - unfold snapshot, User.roleInEnumeration. repeat constructor; simpl; tauto.
  - split; assumption.
Defined.

(** The sample snapshot comes out as admins, manager, engineer, viewer. *)
Example users_cache_sample :
  map User.id
    (UseUsers.users
       (UseUsers.onSnapshot Sample.codeUnitCompare
          [Sample.user "u1" "zed" (Some "Viewer"); Sample.user "u2" "bob" (Some "Admin");
           Sample.user "u3" "al" (Some "Engineer"); Sample.user "u4" "amy" (Some "Admin");
           Sample.user "u5" "max" (Some "Manager")]
          UseUsers.initial))
  = ["u4"; "u2"; "u5"; "u3"; "u1"].
Proof. vm_compute. reflexivity. Qed.

(** A role that is the key of a member of [Object.prototype] makes the
    lookup give that member: against any other role the comparator
    answers [NaN]; two records with the same such role are compared by
    name. *)
Remark compareUsers_inherited_member :
  let a := Sample.user "u1" "zed" (Some "toString") in
  let b := Sample.user "u2" "amy" (Some "toString") in
  let c := Sample.user "u3" "kim" (Some "Contractor") in
  let d := Sample.user "u4" "bob" (Some "valueOf") in
  UseUsers.compareUsers Sample.codeUnitCompare a c = Js.NaN
  /\ UseUsers.compareUsers Sample.codeUnitCompare a d = Js.NaN
  /\ UseUsers.compareUsers Sample.codeUnitCompare a b
     = Js.Num (Sample.codeUnitCompare "zed" "amy").
Proof. repeat apply conj; reflexivity. Qed.

(** **** C3 *)

(** C3. The claim does not hold of the code on a snapshot that holds a
    record whose role is outside the enumeration.  For such a record the
    lookup in [roleOrder] gives [undefined] and the comparator answers
    [NaN], which [sort] reads as a tie: the record is tied with an Admin
    and with a Viewer, while the Viewer is after the Admin, so the
    comparator is not consistent.  On [Viewer; Contractor; Admin] the
    sort only sees ties between neighbours and moves nothing: the cache
    keeps the Viewer in front of the Admin, against the claim and against
    the comment above the sort (admins first, then managers, ...). *)
Lemma unknown_role_leaves_viewer_before_admin :
  let viewer := Sample.user "u1" "zed" (Some "Viewer") in
  let other := Sample.user "u2" "kim" (Some "Contractor") in
  let admin := Sample.user "u3" "amy" (Some "Admin") in
  let cache :=
    UseUsers.users
      (UseUsers.onSnapshot Sample.codeUnitCompare [viewer; other; admin]
                           UseUsers.initial) in
  UseUsers.compareUsers Sample.codeUnitCompare viewer other = Js.NaN
  /\ UseUsers.compareUsers Sample.codeUnitCompare other admin = Js.NaN
  /\ UseUsers.compareUsers Sample.codeUnitCompare viewer admin = Js.Num 3
  /\ cache = [viewer; other; admin]
  /\ UseUsers.roleOrder (User.role admin) = UseUsers.Rank 0
  /\ UseUsers.roleOrder (User.role viewer) = UseUsers.Rank 3
  /\ UseUsers.roleOrder (User.role other) = UseUsers.Undefined
  /\ ~ UseUsers.inOrder_as_specified Sample.codeUnitCompare viewer admin
  /\ ~ StronglySorted (UseUsers.inOrder_as_specified Sample.codeUnitCompare) cache.
Proof.
  repeat apply conj; try (vm_compute; reflexivity).
  - vm_compute. intros [H | [H _]]; discriminate.
  - intros Hsorted. apply StronglySorted_inv in Hsorted as [_ Hhead].
    apply Forall_cons_iff in Hhead as [_ Hrest].
    apply Forall_cons_iff in Hrest as [Hadmin _].
    revert Hadmin. vm_compute. intros [H | [H _]]; discriminate.
Qed.

(** ** Vacation dates *)

Section VacationDates.

#[local] Instance strLe_Transitive : Transitive Js.strLe.
Proof. intros x y z. apply strLe_trans. Qed.

#[local] Instance strLe_AntiSymm : AntiSymm (=) Js.strLe.
Proof. intros x y. apply strLe_antisym. Qed.

Lemma sortDefault_Permutation (l : list string) :
  Permutation (Js.sortDefault l) l.
Proof. apply sort_Permutation. Qed.

Lemma sortDefault_StronglySorted (l : list string) :
  StronglySorted Js.strLe (Js.sortDefault l).
Proof.
  apply (StronglySorted_weaken (Js.before Js.defaultCompare) _ (fun _ => True)).
  - intros x y _ _. apply before_defaultCompare.
  - apply List.Forall_forall. trivial.
  - apply (sort_StronglySorted (fun _ => True)).
    + exact defaultCompare_consistent.
    + apply List.Forall_forall. trivial.
Qed.

Lemma StronglySorted_filter {A} (R : A -> A -> Prop) (f : A -> bool) (l : list A) :
  StronglySorted R l -> StronglySorted R (List.filter f l).
Proof.
  induction 1 as [| x l Hs IH Hx]; simpl; [constructor |].
  destruct (f x); [| exact IH].
  constructor; [exact IH |].
  rewrite List.Forall_forall in Hx |- *. intros y Hy.
  apply List.filter_In in Hy. now apply Hx.
Qed.

(** Adding a date that is not there yet keeps the invariant. *)
Lemma add_keeps_invariant (l : list string) (d : string) :
  User.datesInvariant l -> ~ In d l ->
  User.datesInvariant (Js.sortDefault (l ++ [d])).
Proof.
  intros [Hnd _] Hd. split.
  - apply (Permutation_NoDup (l := d :: l)).
    + rewrite sortDefault_Permutation. apply Permutation_cons_append.
    + now constructor.
  - apply sortDefault_StronglySorted.
Qed.

(** Filtering a date out keeps the invariant. *)
Lemma remove_keeps_invariant (l : list string) (d : string) :
  User.datesInvariant l ->
  User.datesInvariant (List.filter (fun date => negb (String.eqb date d)) l).
Proof.
  intros [Hnd Hs]. split.
  - now apply List.NoDup_filter.
  - now apply StronglySorted_filter.
Qed.

Lemma filter_out_absent (l : list string) (d : string) :
  ~ In d l -> List.filter (fun date => negb (String.eqb date d)) l = l.
Proof.
  intros Hd. induction l as [| x l IH]; [reflexivity |]. simpl.
  destruct (String.eqb_spec x d) as [-> | _]; simpl.
  - exfalso. apply Hd. now left.
  - f_equal. apply IH. intros H. apply Hd. now right.
Qed.

(** On a sorted list, adding a new date and filtering it out again gives
    the list back. *)
Lemma add_then_remove (l : list string) (d : string) :
  StronglySorted Js.strLe l -> ~ In d l ->
  List.filter (fun date => negb (String.eqb date d)) (Js.sortDefault (l ++ [d])) = l.
Proof.
  intros Hs Hd.
  apply (StronglySorted_unique Js.strLe).
  - apply StronglySorted_filter, sortDefault_StronglySorted.
  - exact Hs.
  - transitivity (List.filter (fun date => negb (String.eqb date d)) (l ++ [d])).
    + generalize (sortDefault_Permutation (l ++ [d])).
      generalize (Js.sortDefault (l ++ [d])) (l ++ [d]).
      intros s1 s2 Hp.
      induction Hp as [| x l1 l2 _ IH | x y l1 | l1 l2 l3 _ IH1 _ IH2]; simpl.
      * reflexivity.
      * destruct (negb (String.eqb x d)); [now constructor | exact IH].
      * destruct (negb (String.eqb x d)), (negb (String.eqb y d));
          try reflexivity. apply perm_swap.
      * now transitivity (List.filter (fun date => negb (String.eqb date d)) l2).
    + rewrite List.filter_app, (filter_out_absent l d Hd). simpl.
      rewrite String.eqb_refl. simpl. now rewrite app_nil_r.
Qed.

End VacationDates.

(** *** The engineer's dashboard *)

Section EngineerViewInvariant.

Import EngineerView.

Lemma engineer_confirm_add_calls (answer : Store.answer) (cu : User.t)
    (d : string) (st : state) :
  snd (confirmAddVacationRequest answer cu d st)
  = [Store.UpdateDoc (User.id cu)
       (Store.VacationDates (Js.sortDefault (Js.orNil (User.vacationDates cu) ++ [d])))].
Proof. unfold confirmAddVacationRequest. now destruct answer. Qed.

Lemma engineer_confirm_remove_calls (answer : Store.answer) (cu : User.t)
    (d : string) (st : state) :
  snd (confirmRemoveVacationRequest answer cu d st)
  = [Store.UpdateDoc (User.id cu)
       (Store.VacationDates
          (List.filter (fun date => negb (String.eqb date d))
                       (Js.orNil (User.vacationDates cu))))].
Proof. unfold confirmRemoveVacationRequest. now destruct answer. Qed.

Lemma engineer_confirm_keeps_action (answer : Store.answer) (st : state) :
  modalAction (fst (clickConfirm answer st)) = modalAction st.
Proof.
  destruct st as [nv m o mm [[cu d | cu d] |]]; destruct answer; reflexivity.
Qed.

Lemma engineer_step_safe (cu : User.t) (ev : event) (st : state) :
  User.datesInvariant (Js.orNil (User.vacationDates cu)) ->
  safe st ->
  safe (fst (step cu ev st))
  /\ Store.keepsDatesInvariant (snd (step cu ev st)).
Proof.
  intros Hcu Hst. destruct ev as [d | | idx | answer |]; simpl.
  - split; [exact Hst | constructor].
  - split; [| constructor].
    unfold handleAddVacationRequest.
    destruct (String.eqb (newVacationDate st) ""); [exact Hst |].
    destruct (Js.includes _ _) eqn:Hinc; intros a; simpl; [discriminate |].
    intros [= <-]. simpl. split; [exact Hcu |]. now apply includes_not_In.
  - destruct (nth_error _ idx) as [date |]; simpl; [| split; [exact Hst | constructor]].
    split; [| constructor]. intros a. simpl. now intros [= <-].
  - destruct (isModalOpen st); [| split; [exact Hst | constructor]].
    split.
    + intros a. rewrite engineer_confirm_keeps_action. apply Hst.
    + unfold clickConfirm.
      destruct (modalAction st) as [[u d | u d] |] eqn:Ha; [| | constructor].
      * destruct (Hst _ Ha) as [Hu Hd].
        pose proof (engineer_confirm_add_calls answer u d st) as Hcalls.
        destruct (confirmAddVacationRequest answer u d st) as [st' issued].
        simpl in *. subst issued. constructor; [| constructor].
        now apply add_keeps_invariant.
      * pose proof (Hst _ Ha) as Hu.
        pose proof (engineer_confirm_remove_calls answer u d st) as Hcalls.
        destruct (confirmRemoveVacationRequest answer u d st) as [st' issued].
        simpl in *. subst issued. constructor; [| constructor].
        now apply remove_keeps_invariant.
  - split; [exact Hst | constructor].
Qed.

Lemma engineer_run_safe (session : list (User.t * event)) (st : state) :
  List.Forall (fun p => User.datesInvariant (Js.orNil (User.vacationDates (fst p))))
              session ->
  safe st ->
  Store.keepsDatesInvariant (snd (run session st)).
Proof.
  revert st. induction session as [| [cu ev] rest IH]; intros st Hs Hst; simpl.
  - constructor.
  - apply Forall_cons_iff in Hs as [Hcu Hs]. simpl in Hcu.
    destruct (engineer_step_safe cu ev st Hcu Hst) as [Hst1 Hc1].
    destruct (step cu ev st) as [st1 issued1]. simpl in *.
    specialize (IH st1 Hs Hst1).
    destruct (run rest st1) as [st2 issued2]. simpl in *.
    apply Forall_app. now split.
Qed.

End EngineerViewInvariant.

(** *** The manager's vacation management *)

Section ManagerInvariant.

Import ManagerVacationManagement.

Lemma manager_confirm_add_calls (answer : Store.answer) (engineer : User.t)
    (d : string) (st : state) :
  snd (confirmAddVacation answer engineer d st)
  = [Store.UpdateDoc (User.id engineer)
       (Store.VacationDates
          (Js.sortDefault (Js.orNil (User.vacationDates engineer) ++ [d])))].
Proof. unfold confirmAddVacation. now destruct answer. Qed.

Lemma manager_confirm_remove_calls (answer : Store.answer) (engineer : User.t)
    (d : string) (st : state) :
  snd (confirmRemoveVacation answer engineer d st)
  = [Store.UpdateDoc (User.id engineer)
       (Store.VacationDates
          (List.filter (fun date => negb (String.eqb date d))
                       (Js.orNil (User.vacationDates engineer))))].
Proof. unfold confirmRemoveVacation. now destruct answer. Qed.

(** After Confirm the pending action is the one that ran, or none. *)
Lemma manager_confirm_action (answer : Store.answer) (st : state) :
  modalAction (fst (clickConfirm answer st)) = modalAction st
  \/ modalAction (fst (clickConfirm answer st)) = None.
Proof.
  destruct st as [sel nv o mm [[e d | e d] |]]; destruct answer; simpl; auto.
Qed.

Lemma manager_step_safe (myTeam : list User.t) (ev : event) (st : state) :
  List.Forall (fun e => User.datesInvariant (Js.orNil (User.vacationDates e))) myTeam ->
  safe st ->
  safe (fst (step myTeam ev st))
  /\ Store.keepsDatesInvariant (snd (step myTeam ev st)).
Proof.
  intros Hteam Hst. rewrite List.Forall_forall in Hteam.
  destruct ev as [i | d | | row idx | answer |]; simpl.
  - split; [exact Hst | constructor].
  - split; [exact Hst | constructor].
  - split; [| constructor].
    unfold handleAddVacation.
    destruct (String.eqb (selectedEngineerId st) "" || String.eqb (newVacationDate st) "");
      [intros a; discriminate |].
    destruct (List.find _ myTeam) as [engineer |] eqn:Hfind; [| exact Hst].
    apply List.find_some in Hfind as [Hin _].
    destruct (Js.includes _ _) eqn:Hinc; intros a; simpl; [discriminate |].
    intros [= <-]. simpl. split; [now apply Hteam |]. now apply includes_not_In.
  - destruct (nth_error myTeam row) as [engineer |] eqn:Hrow;
      [| split; [exact Hst | constructor]].
    destruct (nth_error _ idx) as [date |]; simpl; [| split; [exact Hst | constructor]].
    split; [| constructor]. intros a. simpl. intros [= <-]. simpl.
    apply Hteam. eapply List.nth_error_In; eauto.
  - destruct (isModalOpen st); [| split; [exact Hst | constructor]].
    split.
    + intros a. destruct (manager_confirm_action answer st) as [-> | ->];
        [apply Hst | discriminate].
    + unfold clickConfirm.
      destruct (modalAction st) as [[u d | u d] |] eqn:Ha; [| | constructor].
      * destruct (Hst _ Ha) as [Hu Hd].
        rewrite manager_confirm_add_calls. constructor; [| constructor].
        now apply add_keeps_invariant.
      * pose proof (Hst _ Ha) as Hu.
        rewrite manager_confirm_remove_calls. constructor; [| constructor].
        now apply remove_keeps_invariant.
  - split; [exact Hst | constructor].
Qed.

Lemma manager_run_safe (session : list (list User.t * event)) (st : state) :
  List.Forall
    (fun p => List.Forall
                (fun e => User.datesInvariant (Js.orNil (User.vacationDates e)))
                (fst p))
    session ->
  safe st ->
  Store.keepsDatesInvariant (snd (run session st)).
Proof.
  revert st. induction session as [| [team ev] rest IH]; intros st Hs Hst; simpl.
  - constructor.
  - apply Forall_cons_iff in Hs as [Hteam Hs]. simpl in Hteam.
    destruct (manager_step_safe team ev st Hteam Hst) as [Hst1 Hc1].
    destruct (step team ev st) as [st1 issued1]. simpl in *.
    specialize (IH st1 Hs Hst1).
    destruct (run rest st1) as [st2 issued2]. simpl in *.
    apply Forall_app. now split.
Qed.

End ManagerInvariant.

(** **** C4 *)

(** C4. Every vacation mutator keeps the invariant of [vacationDates]
    (each date at most once, ascending), provided the sequence it reads
    satisfies it: whatever the engineer does on the dashboard and
    whatever the manager does on the team's vacations, every
    [vacationDates] written to the store satisfies the invariant, and the
    admin form's add and remove keep it on the form. *)
Theorem vacation_mutators_keep_invariant :
  (forall (session : list (User.t * EngineerView.event)),
      List.Forall
        (fun p => User.datesInvariant (Js.orNil (User.vacationDates (fst p))))
        session ->
      Store.keepsDatesInvariant
        (snd (EngineerView.run session EngineerView.initial)))
  /\ (forall (session : list (list User.t * ManagerVacationManagement.event)),
        List.Forall
          (fun p => List.Forall
                      (fun e => User.datesInvariant (Js.orNil (User.vacationDates e)))
                      (fst p))
          session ->
        Store.keepsDatesInvariant
          (snd (ManagerVacationManagement.run session ManagerVacationManagement.initial)))
  /\ (forall (fd : AddEditUserModal.formData) (newDate : string),
        User.datesInvariant (AddEditUserModal.vacationDates fd) ->
        User.datesInvariant
          (AddEditUserModal.vacationDates
             (fst (AddEditUserModal.handleAddVacationDate newDate fd))))
  /\ (forall (fd : AddEditUserModal.formData) (dateToRemove : string),
        User.datesInvariant (AddEditUserModal.vacationDates fd) ->
        User.datesInvariant
          (AddEditUserModal.vacationDates
             (AddEditUserModal.handleRemoveVacationDate dateToRemove fd))).
Proof.
  split; [| split; [| split]].
  - intros session Hs. apply engineer_run_safe; [exact Hs |].
    intros a. discriminate.
  - intros session Hs. apply manager_run_safe; [exact Hs |].
    intros a. discriminate.
  - intros fd newDate Hfd. unfold AddEditUserModal.handleAddVacationDate.
    destruct (String.eqb newDate ""); simpl; [exact Hfd |].
    destruct (Js.includes _ _) eqn:Hinc; simpl; [exact Hfd |].
    apply add_keeps_invariant; [exact Hfd |]. now apply includes_not_In.
  - intros fd dateToRemove Hfd. simpl. now apply remove_keeps_invariant.
Qed.

Ltac solve_dates_invariant :=
  split;
  [ repeat (constructor; [simpl; intuition discriminate |]); constructor
  | repeat (constructor; [| repeat (constructor; [reflexivity |]); constructor]);
    constructor ].

Lemma sample_dates_invariant :
  User.datesInvariant ["2024-03-01"; "2024-05-10"].
Proof. solve_dates_invariant. Qed.

Lemma vacation_mutators_keep_invariant_witness :
  let cu := Sample.engineer "e1" None None (Some ["2024-03-01"; "2024-05-10"]) in
  Store.keepsDatesInvariant
    (snd (EngineerView.run (Sample.requestVacation cu "2024-01-01" Store.Resolved)
                           EngineerView.initial))
  /\ Store.keepsDatesInvariant
       (snd (ManagerVacationManagement.run
               (Sample.addVacation [cu] "e1" "2024-04-01" Store.Resolved)
               ManagerVacationManagement.initial))
  /\ User.datesInvariant
       (AddEditUserModal.vacationDates
          (fst (AddEditUserModal.handleAddVacationDate "2024-01-01"
                  (AddEditUserModal.load (Some cu)))))
  /\ User.datesInvariant
       (AddEditUserModal.vacationDates
          (AddEditUserModal.handleRemoveVacationDate "2024-03-01"
             (AddEditUserModal.load (Some cu)))).
Proof.
  intros cu.
  destruct vacation_mutators_keep_invariant as (Hengineer & Hmanager & Hadd & Hremove).
  split; [| split; [| split]].
  - apply Hengineer.
    repeat (apply List.Forall_cons; [exact sample_dates_invariant |]).
    apply List.Forall_nil.
  - apply Hmanager.
    repeat (apply List.Forall_cons;
            [apply List.Forall_cons;
             [exact sample_dates_invariant | apply List.Forall_nil] |]).
    apply List.Forall_nil.
  - apply Hadd. exact sample_dates_invariant.
  - apply Hremove. exact sample_dates_invariant.
Defined.

(** The scenario of the specification: adding 2024-01-01 to
    2024-03-01, 2024-05-10. *)
Example request_vacation_sample :
  snd (EngineerView.run
         (Sample.requestVacation
            (Sample.engineer "e1" None None (Some ["2024-03-01"; "2024-05-10"]))
            "2024-01-01" Store.Resolved)
         EngineerView.initial)
  = [Store.UpdateDoc "e1"
       (Store.VacationDates ["2024-01-01"; "2024-03-01"; "2024-05-10"])].
Proof. vm_compute. reflexivity. Qed.

Example add_vacation_sample :
  snd (ManagerVacationManagement.run
         (Sample.addVacation
            [Sample.engineer "e1" None None (Some ["2024-03-01"; "2024-05-10"])]
            "e1" "2024-04-01" Store.Resolved)
         ManagerVacationManagement.initial)
  = [Store.UpdateDoc "e1"
       (Store.VacationDates ["2024-03-01"; "2024-04-01"; "2024-05-10"])].
Proof. vm_compute. reflexivity. Qed.

(** **** C5 *)

(** C5. Pressing the add button with a date the record already holds
    issues no write.  On the engineer's dashboard a picked date opens the
    modal with no action (information only) and its button issues no
    write; on the manager's component the modal opens with no action and
    its button issues no write; the collection is left as it was.  The
    admin form leaves its sequence as it is. *)
Theorem add_present_date_is_informational :
  (forall (cu : User.t) (st : EngineerView.state),
      In (EngineerView.newVacationDate st) (Js.orNil (User.vacationDates cu)) ->
      let informed := EngineerView.step cu EngineerView.ClickRequest st in
      snd informed = []
      /\ (EngineerView.newVacationDate st = "" ->
            fst informed = EngineerView.setMessage EngineerView.PleaseSelectDate st)
      /\ (EngineerView.newVacationDate st <> "" ->
            EngineerView.isModalOpen (fst informed) = true
            /\ EngineerView.modalAction (fst informed) = None
            /\ EngineerView.modalMessage (fst informed)
               = EngineerView.AlreadyHaveVacation (EngineerView.newVacationDate st)
            /\ forall cu' answer (db : Store.collection),
                 let issued :=
                   snd (EngineerView.run
                          [(cu, EngineerView.ClickRequest);
                           (cu', EngineerView.ClickConfirm answer)] st) in
                 issued = [] /\ Store.applyAll issued db = db))
  /\ (forall (myTeam : list User.t) (engineer : User.t)
             (st : ManagerVacationManagement.state),
        ManagerVacationManagement.selectedEngineerId st <> "" ->
        List.find
          (fun e => String.eqb (User.id e)
                      (ManagerVacationManagement.selectedEngineerId st)) myTeam
        = Some engineer ->
        In (ManagerVacationManagement.newVacationDate st)
           (Js.orNil (User.vacationDates engineer)) ->
        let informed :=
          ManagerVacationManagement.step myTeam ManagerVacationManagement.ClickAdd st in
        snd informed = []
        /\ ManagerVacationManagement.isModalOpen (fst informed) = true
        /\ ManagerVacationManagement.modalAction (fst informed) = None
        /\ (ManagerVacationManagement.newVacationDate st <> "" ->
              ManagerVacationManagement.modalMessage (fst informed)
              = ManagerVacationManagement.AlreadyHasVacation
                  (User.name engineer) (ManagerVacationManagement.newVacationDate st))
        /\ forall myTeam' answer (db : Store.collection),
             let issued :=
               snd (ManagerVacationManagement.run
                      [(myTeam, ManagerVacationManagement.ClickAdd);
                       (myTeam', ManagerVacationManagement.ClickConfirm answer)] st) in
             issued = [] /\ Store.applyAll issued db = db)
  /\ (forall (fd : AddEditUserModal.formData) (newDate : string),
        In newDate (AddEditUserModal.vacationDates fd) ->
        fst (AddEditUserModal.handleAddVacationDate newDate fd) = fd).
Proof.
  split; [| split].
  - intros cu st Hin informed.
    split; [reflexivity |]. split.
    + intros Hempty. unfold informed. simpl.
      unfold EngineerView.handleAddVacationRequest. now rewrite Hempty.
    + intros Hpicked.
      assert (Hst : informed
                    = (EngineerView.setIsModalOpen true
                         (EngineerView.setModalAction None
                            (EngineerView.setModalMessage
                               (EngineerView.AlreadyHaveVacation
                                  (EngineerView.newVacationDate st)) st)),
                       [])).
      { unfold informed. simpl. unfold EngineerView.handleAddVacationRequest.
        destruct (String.eqb_spec (EngineerView.newVacationDate st) "");
          [contradiction |].
        apply includes_In in Hin. now rewrite Hin. }
      rewrite Hst. repeat apply conj; try reflexivity.
      intros cu' answer db issued. unfold issued. cbn [EngineerView.run].
      fold informed. rewrite Hst. simpl. split; reflexivity.
  - intros myTeam engineer st Hsel Hfind Hin informed.
    assert (Hst : exists text,
               informed
               = (ManagerVacationManagement.setIsModalOpen true
                    (ManagerVacationManagement.setModalAction None
                       (ManagerVacationManagement.setModalMessage text st)),
                  [])
               /\ (ManagerVacationManagement.newVacationDate st <> "" ->
                   text = ManagerVacationManagement.AlreadyHasVacation
                            (User.name engineer)
                            (ManagerVacationManagement.newVacationDate st))).
    { unfold informed. simpl. unfold ManagerVacationManagement.handleAddVacation.
      destruct (String.eqb_spec (ManagerVacationManagement.selectedEngineerId st) "");
        [contradiction |].
      destruct (String.eqb_spec (ManagerVacationManagement.newVacationDate st) "");
        simpl.
      - eexists. split; [reflexivity | intros; contradiction].
      - rewrite Hfind. apply includes_In in Hin. rewrite Hin.
        eexists. split; reflexivity. }
    destruct Hst as (text & Hst & Htext).
    rewrite Hst. repeat apply conj; try reflexivity.
    + exact Htext.
    + intros myTeam' answer db issued. unfold issued.
      cbn [ManagerVacationManagement.run].
      fold informed. rewrite Hst. simpl. split; reflexivity.
  - intros fd newDate Hin. unfold AddEditUserModal.handleAddVacationDate.
    apply includes_In in Hin. rewrite Hin.
    now destruct (String.eqb newDate "").
Qed.

Lemma add_present_date_is_informational_witness :
  let cu := Sample.engineer "e1" None None (Some ["2024-03-01"; "2024-05-10"]) in
  snd (EngineerView.run
         [(cu, EngineerView.ClickRequest);
          (cu, EngineerView.ClickConfirm Store.Resolved)]
         (EngineerView.setNewVacationDate "2024-05-10" EngineerView.initial))
  = []
  /\ fst (AddEditUserModal.handleAddVacationDate "2024-05-10"
            (AddEditUserModal.load (Some cu)))
     = AddEditUserModal.load (Some cu).
Proof.
  intros cu.
  destruct add_present_date_is_informational as (Hengineer & _ & Hform).
  split.
  - destruct (Hengineer cu
                (EngineerView.setNewVacationDate "2024-05-10" EngineerView.initial))
      as (_ & _ & Hpicked).
    + simpl. tauto.
    + destruct Hpicked as (_ & _ & _ & Hok); [discriminate |].
      exact (proj1 (Hok cu Store.Resolved ∅)).
  - apply Hform. simpl. tauto.
Defined.

(** **** C6 *)

(** C6, as stated, fails: 2024-05-10, 2024-03-01 has no duplicate and
    does not hold 2024-01-01; adding that date writes the three dates in
    ascending order, and removing it again writes 2024-03-01, 2024-05-10,
    which is not the sequence the record started with. *)
Lemma add_then_remove_reorders_unsorted :
  let before := ["2024-05-10"; "2024-03-01"] in
  let cu := Sample.engineer "e1" None None (Some before) in
  let added := ["2024-01-01"; "2024-03-01"; "2024-05-10"] in
  let cu1 := Store.setField (Store.VacationDates added) cu in
  let after := ["2024-03-01"; "2024-05-10"] in
  List.NoDup before
  /\ ~ In "2024-01-01" before
  /\ snd (EngineerView.run (Sample.requestVacation cu "2024-01-01" Store.Resolved)
                           EngineerView.initial)
     = [Store.UpdateDoc "e1" (Store.VacationDates added)]
  /\ snd (EngineerView.run (Sample.removeVacation cu1 0 Store.Resolved)
                           EngineerView.initial)
     = [Store.UpdateDoc "e1" (Store.VacationDates after)]
  /\ after <> before.
Proof.
  repeat apply conj.
  - repeat (constructor; [simpl; intuition discriminate |]); constructor.
  - simpl. intuition discriminate.
  - vm_compute. reflexivity.
  - vm_compute. reflexivity.
  - discriminate.
Qed.

(** C6, amended. For a sequence in ascending order with no duplicate
    and a date not in it: the engineer's add writes the sequence with the
    date, and removing that date from the record so written writes the
    sequence the record started with; the admin form's add followed by
    its remove gives the form's sequence back. *)
Theorem add_then_remove_round_trip :
  (forall (cu : User.t) (d : string) (answer1 answer2 : Store.answer)
          (st st' : EngineerView.state) (idx : nat),
      let dates := Js.orNil (User.vacationDates cu) in
      let added := Js.sortDefault (dates ++ [d]) in
      let cu1 := Store.setField (Store.VacationDates added) cu in
      d <> "" ->
      List.NoDup dates -> StronglySorted Js.strLe dates -> ~ In d dates ->
      nth_error added idx = Some d ->
      snd (EngineerView.run (Sample.requestVacation cu d answer1) st)
      = [Store.UpdateDoc (User.id cu) (Store.VacationDates added)]
      /\ In d added
      /\ snd (EngineerView.run (Sample.removeVacation cu1 idx answer2) st')
         = [Store.UpdateDoc (User.id cu) (Store.VacationDates dates)])
  /\ (forall (fd : AddEditUserModal.formData) (d : string),
        d <> "" ->
        List.NoDup (AddEditUserModal.vacationDates fd) ->
        StronglySorted Js.strLe (AddEditUserModal.vacationDates fd) ->
        ~ In d (AddEditUserModal.vacationDates fd) ->
        AddEditUserModal.handleRemoveVacationDate d
          (fst (AddEditUserModal.handleAddVacationDate d fd))
        = fd).
Proof.
  split.
  - intros cu d answer1 answer2 st st' idx dates added cu1
           Hd Hnd Hsorted Hfresh Hidx.
    repeat apply conj.
    + unfold Sample.requestVacation. cbn [EngineerView.run EngineerView.step].
      unfold EngineerView.handleAddVacationRequest. simpl.
      destruct (String.eqb_spec d ""); [contradiction |].
      apply includes_not_In in Hfresh. fold dates. rewrite Hfresh. simpl.
      unfold EngineerView.clickConfirm. simpl.
      pose proof (engineer_confirm_add_calls answer1 cu d) as Hcalls.
      fold dates added in Hcalls.
      match goal with
      | |- context [EngineerView.confirmAddVacationRequest answer1 cu d ?s] =>
          specialize (Hcalls s);
          destruct (EngineerView.confirmAddVacationRequest answer1 cu d s)
            as [s1 issued]
      end.
      simpl in *. now subst issued.
    + apply (Permutation_in (l := dates ++ [d])).
      * symmetry. apply sortDefault_Permutation.
      * apply List.in_or_app. right. now left.
    + unfold Sample.removeVacation. cbn [EngineerView.run EngineerView.step].
      assert (Hcu1 : Js.orNil (User.vacationDates cu1) = added) by reflexivity.
      rewrite Hcu1, Hidx. simpl.
      unfold EngineerView.clickConfirm. simpl.
      pose proof (engineer_confirm_remove_calls answer2 cu1 d) as Hcalls.
      rewrite Hcu1 in Hcalls.
      match goal with
      | |- context [EngineerView.confirmRemoveVacationRequest answer2 cu1 d ?s] =>
          specialize (Hcalls s);
          destruct (EngineerView.confirmRemoveVacationRequest answer2 cu1 d s)
            as [s1 issued]
      end.
      simpl in *. subst issued. unfold added.
      now rewrite (add_then_remove dates d Hsorted Hfresh).
  - intros fd d Hd Hfnd Hfsorted Hffresh.
    unfold AddEditUserModal.handleAddVacationDate.
    destruct (String.eqb_spec d ""); [contradiction |].
    pose proof Hffresh as Hinc. apply includes_not_In in Hinc. rewrite Hinc. simpl.
    unfold AddEditUserModal.handleRemoveVacationDate. simpl.
    rewrite (add_then_remove _ d Hfsorted Hffresh).
    now destruct fd.
Qed.

Lemma add_then_remove_round_trip_witness :
  let cu := Sample.engineer "e1" None None (Some ["2024-03-01"; "2024-05-10"]) in
  let cu1 :=
    Store.setField
      (Store.VacationDates ["2024-01-01"; "2024-03-01"; "2024-05-10"]) cu in
  snd (EngineerView.run (Sample.removeVacation cu1 0 Store.Resolved)
                        EngineerView.initial)
  = [Store.UpdateDoc "e1" (Store.VacationDates ["2024-03-01"; "2024-05-10"])]
  /\ AddEditUserModal.handleRemoveVacationDate "2024-01-01"
       (fst (AddEditUserModal.handleAddVacationDate "2024-01-01"
               (AddEditUserModal.load (Some cu))))
     = AddEditUserModal.load (Some cu).
Proof.
  intros cu cu1.
  destruct add_then_remove_round_trip as [Hengineer Hform].
  split.
  - refine (proj2 (proj2
              (Hengineer cu "2024-01-01" Store.Resolved Store.Resolved
                 EngineerView.initial EngineerView.initial 0%nat _ _ _ _ _))).
    + discriminate.
    + exact (proj1 sample_dates_invariant).
    + exact (proj2 sample_dates_invariant).
    + simpl. intuition discriminate.
    + vm_compute. reflexivity.
  - apply Hform.
    + discriminate.
    + exact (proj1 sample_dates_invariant).
    + exact (proj2 sample_dates_invariant).
    + simpl. intuition discriminate.
Defined.

(** ** The role buckets of the roster view *)

Section RoleBuckets.

Import OverallRosterView.

Lemma roleIs_spec (r : string) (u : User.t) :
  roleIs r u = true <-> User.role u = Some r.
Proof.
  unfold roleIs, Js.strictEq. destruct (User.role u) as [x |].
  - rewrite String.eqb_eq. split; congruence.
  - split; discriminate.
Qed.

Lemma filter_sublist {A} (p : A -> bool) (l : list A) :
  sublist (List.filter p l) l.
Proof.
  induction l as [| x l IH]; simpl; [constructor |].
  destruct (p x); now constructor.
Qed.

(** Two filters that never both hold split what either keeps. *)
Lemma filter_split {A} (p q : A -> bool) (l : list A) :
  (forall x, p x = true -> q x = false) ->
  Permutation (List.filter p l ++ List.filter q l)
              (List.filter (fun x => p x || q x) l).
Proof.
  intros Hpq. induction l as [| x l IH]; simpl; [reflexivity |].
  destruct (p x) eqn:Hp; simpl.
  - rewrite (Hpq x Hp). now constructor.
  - destruct (q x); simpl; [| exact IH].
    rewrite <- Permutation_middle. now constructor.
Qed.

End RoleBuckets.

(** **** C7 *)

(** C7, as stated, fails: the roster view has no bucket for admins, so
    an Admin record is in neither [managers] nor [engineersAndViewers],
    and an Engineer and a Viewer are in the same bucket, where the four
    buckets of the specification would take one each. *)
Lemma admin_in_no_bucket :
  let admin := Sample.user "u1" "root" (Some "Admin") in
  let engineer := Sample.user "u2" "al" (Some "Engineer") in
  let viewer := Sample.user "u3" "zed" (Some "Viewer") in
  let users := [admin; engineer; viewer] in
  In admin users
  /\ ~ In admin (OverallRosterView.managers users)
  /\ ~ In admin (OverallRosterView.engineersAndViewers users)
  /\ OverallRosterView.engineersAndViewers users = [engineer; viewer]
  /\ OverallRosterView.partitionByRole_as_specified users
     = ([admin], [], [engineer], [viewer]).
Proof.
  repeat apply conj.
  - now left.
  - vm_compute. tauto.
  - vm_compute. intuition discriminate.
  - reflexivity.
  - reflexivity.
Qed.

(** C7, amended. The roster view groups the users by role into two
    buckets, [managers] (role Manager) and [engineersAndViewers] (role
    Engineer or Viewer).  A record is in a bucket exactly when it is in
    the input with that bucket's role; no record is in both; the two
    buckets together hold the input's Manager, Engineer and Viewer
    records, each as often as the input does and in the input's order;
    a record with any other role is in neither. *)
Theorem role_buckets :
  forall (users : list User.t),
    let managers := OverallRosterView.managers users in
    let engineersAndViewers := OverallRosterView.engineersAndViewers users in
    (forall u, In u managers <-> In u users /\ User.role u = Some "Manager")
    /\ (forall u, In u engineersAndViewers <->
                  In u users
                  /\ (User.role u = Some "Engineer" \/ User.role u = Some "Viewer"))
    /\ (forall u, ~ (In u managers /\ In u engineersAndViewers))
    /\ Permutation
         (managers ++ engineersAndViewers)
         (List.filter
            (fun u => OverallRosterView.roleIs "Manager" u
                      || (OverallRosterView.roleIs "Engineer" u
                          || OverallRosterView.roleIs "Viewer" u))
            users)
    /\ sublist managers users
    /\ sublist engineersAndViewers users
    /\ (forall u, User.role u <> Some "Manager" ->
                  User.role u <> Some "Engineer" ->
                  User.role u <> Some "Viewer" ->
                  ~ In u managers /\ ~ In u engineersAndViewers).
Proof.
  intros users managers engineersAndViewers.
  assert (Hm : forall u, In u managers <-> In u users /\ User.role u = Some "Manager").
  { intros u. unfold managers, OverallRosterView.managers.
    now rewrite List.filter_In, roleIs_spec. }
  assert (He : forall u, In u engineersAndViewers <->
                         In u users
                         /\ (User.role u = Some "Engineer" \/ User.role u = Some "Viewer")).
  { intros u. unfold engineersAndViewers, OverallRosterView.engineersAndViewers.
    now rewrite List.filter_In, orb_true_iff, !roleIs_spec. }
  split; [exact Hm |]. split; [exact He |].
  split; [| split; [| split; [| split]]].
  - intros u [H1 H2]. apply Hm in H1 as [_ H1]. apply He in H2 as [_ [H2 | H2]];
      congruence.
  - apply filter_split. intros u Hu. apply roleIs_spec in Hu.
    apply orb_false_iff. split.
    + destruct (OverallRosterView.roleIs "Engineer" u) eqn:E; [| reflexivity].
      apply roleIs_spec in E. congruence.
    + destruct (OverallRosterView.roleIs "Viewer" u) eqn:E; [| reflexivity].
      apply roleIs_spec in E. congruence.
  - apply filter_sublist.
  - apply filter_sublist.
  - intros u H1 H2 H3. split; intros H.
    + apply Hm in H. tauto.
    + apply He in H. tauto.
Qed.

Lemma role_buckets_witness :
  let users :=
    [Sample.user "u1" "root" (Some "Admin"); Sample.user "u2" "al" (Some "Engineer");
     Sample.user "u3" "max" (Some "Manager"); Sample.user "u4" "zed" (Some "Viewer")] in
  sublist (OverallRosterView.managers users) users
  /\ ~ In (Sample.user "u1" "root" (Some "Admin")) (OverallRosterView.managers users)
  /\ ~ In (Sample.user "u1" "root" (Some "Admin"))
          (OverallRosterView.engineersAndViewers users).
Proof.
  intros users.
  destruct (role_buckets users) as (_ & _ & _ & _ & Hsub & _ & Hother).
  split; [exact Hsub |].
  apply Hother; discriminate.
Defined.

(** ** The view router *)

(** **** C8 *)

(** C8. [renderView] is decided by the current user alone: with no
    current user it renders the no-session page whatever the caches hold;
    with role Admin, Manager, Engineer or Viewer it renders that role's
    dashboard, handing it the current user and the caches; with any other
    role, or none, it renders the access-denied page. *)
Theorem view_router :
  forall (users : list User.t) (skills : list App.Skill),
    App.renderView None users skills = App.NoSession
    /\ (forall cu,
          (User.role cu = Some "Admin" ->
             App.renderView (Some cu) users skills = App.AdminView cu users skills)
          /\ (User.role cu = Some "Manager" ->
                App.renderView (Some cu) users skills = App.ManagerView cu users skills)
          /\ (User.role cu = Some "Engineer" ->
                App.renderView (Some cu) users skills = App.EngineerView cu users skills)
          /\ (User.role cu = Some "Viewer" ->
                App.renderView (Some cu) users skills = App.ViewerView cu users skills)
          /\ (~ User.roleInEnumeration cu ->
                App.renderView (Some cu) users skills = App.AccessDenied))
    /\ (forall currentUser users' skills',
          App.stateOf (App.renderView currentUser users skills)
          = App.stateOf (App.renderView currentUser users' skills')).
Proof.
  intros users skills. split; [reflexivity |]. split.
  - intros cu. unfold App.renderView, User.roleInEnumeration.
    repeat apply conj; intros H.
    + now rewrite H.
    + now rewrite H.
    + now rewrite H.
    + now rewrite H.
    + destruct (User.role cu) as [r |]; simpl; [| reflexivity].
      destruct (String.eqb_spec r "Admin"); [subst; tauto |].
      destruct (String.eqb_spec r "Manager"); [subst; tauto |].
      destruct (String.eqb_spec r "Engineer"); [subst; tauto |].
      destruct (String.eqb_spec r "Viewer"); [subst; tauto |].
      reflexivity.
  - intros [cu |] users' skills'; [| reflexivity].
    unfold App.renderView.
    destruct (Js.strictEq (User.role cu) (Some "Admin")); [reflexivity |].
    destruct (Js.strictEq (User.role cu) (Some "Manager")); [reflexivity |].
    destruct (Js.strictEq (User.role cu) (Some "Engineer")); [reflexivity |].
    destruct (Js.strictEq (User.role cu) (Some "Viewer")); reflexivity.
Qed.

(** The scenario of the specification: the role "Contractor". *)
Lemma view_router_witness :
  App.renderView (Some (Sample.user "u9" "kim" (Some "Contractor"))) [] []
  = App.AccessDenied
  /\ App.renderView (Some (Sample.user "u1" "root" (Some "Admin"))) [] []
     = App.AdminView (Sample.user "u1" "root" (Some "Admin")) [] [].
Proof.
  destruct (view_router [] []) as (_ & Hrole & _).
  split.
  - apply (Hrole (Sample.user "u9" "kim" (Some "Contractor"))).
    unfold User.roleInEnumeration. simpl. intuition discriminate.
  - now apply (Hrole (Sample.user "u1" "root" (Some "Admin"))).
Defined.

(** ** Session resolution *)

(** **** C9 *)

(** C9. When a session is established for an identity that has no User
    document, and the store answers both calls, the provider reads the
    document, writes the default profile under the identity's id, and
    takes it as the current user; the profile has role Viewer, no skills,
    no vacation dates, threshold 0, count 0, and the placeholder working
    hours and shift pattern. *)
Theorem default_profile_on_first_sign_in :
  forall (user : FirebaseContext.authUser) (db : Store.collection)
         (st : FirebaseContext.state),
    db !! FirebaseContext.uid user = None ->
    let outcome :=
      FirebaseContext.onAuthStateChanged Store.Resolved Store.Resolved (Some user) db st in
    let profile := FirebaseContext.defaultUser user in
    snd outcome
    = [Store.GetDoc (FirebaseContext.uid user);
       Store.SetDoc (FirebaseContext.uid user) profile]
    /\ Store.applyAll (snd outcome) db = <[FirebaseContext.uid user := profile]> db
    /\ Store.applyAll (snd outcome) db !! FirebaseContext.uid user = Some profile
    /\ FirebaseContext.currentUser (fst outcome) = Some profile
    /\ FirebaseContext.isAuthReady (fst outcome) = true
    /\ User.id profile = FirebaseContext.uid user
    /\ User.role profile = Some "Viewer"
    /\ User.skills profile = Some []
    /\ User.vacationDates profile = Some []
    /\ User.srThreshold profile = Some 0
    /\ User.currentSrCount profile = Some 0
    /\ User.workingHours profile = Some "9 AM - 5 PM"
    /\ User.shiftPattern profile = Some "Day Shift".
Proof.
  intros user db st Hnone outcome profile.
  unfold outcome, FirebaseContext.onAuthStateChanged. rewrite Hnone. simpl.
  repeat apply conj; try reflexivity.
  apply lookup_insert_eq.
Qed.

Lemma default_profile_on_first_sign_in_witness :
  let user := FirebaseContext.mkAuthUser "abcdefgh" None in
  FirebaseContext.currentUser
    (fst (FirebaseContext.onAuthStateChanged Store.Resolved Store.Resolved
            (Some user) ∅ FirebaseContext.initial))
  = Some (User.mk "abcdefgh" (Some "Anonymous User abcde")
            (Some "abcdefgh@example.com") (Some "Viewer") None
            (Some "9 AM - 5 PM") (Some "Day Shift") (Some []) (Some [])
            (Some 0) (Some 0)).
Proof.
  intros user.
  exact (proj1 (proj2 (proj2 (proj2
           (default_profile_on_first_sign_in user ∅ FirebaseContext.initial
              (lookup_empty _)))))).
Defined.

(* ===================================================================== *)
(** * Part III: further properties of the code                            *)
(* ===================================================================== *)

(** ** The SR dashboard, event by event *)

Section SRDashboard.

Import SRAssignment.

Lemma confirmAssignSR_keeps_action (answer : Store.answer) (e : User.t)
    (force : bool) (st : state) :
  modalAction (fst (confirmAssignSR answer e force st)) = modalAction st.
Proof. unfold confirmAssignSR. now destruct answer. Qed.

Lemma confirmResetSR_keeps_action (answer : Store.answer) (e : User.t) (st : state) :
  modalAction (fst (confirmResetSR answer e st)) = modalAction st.
Proof. unfold confirmResetSR. now destruct answer. Qed.

Lemma confirmResetSR_calls (answer : Store.answer) (e : User.t) (st : state) :
  snd (confirmResetSR answer e st)
  = [Store.UpdateDoc (User.id e) (Store.CurrentSrCount 0)].
Proof. unfold confirmResetSR. now destruct answer. Qed.

Lemma confirmAssignSR_issues (answer : Store.answer) (e : User.t)
    (force : bool) (st : state) :
  snd (confirmAssignSR answer e force st)
  = [Store.UpdateDoc (User.id e)
       (Store.CurrentSrCount (Js.orZero (User.currentSrCount e) + 1))].
Proof. unfold confirmAssignSR. now destruct answer. Qed.

(** The pending action, if any, captured a member of one of the teams. *)
Let pendingFrom (teams : list (list User.t)) (st : state) : Prop :=
  forall a, modalAction st = Some a ->
            SRAssignmentEvents.memberOf teams (SRAssignmentEvents.engineerOf a).

Lemma sr_step_targets (teams : list (list User.t)) (myTeam : list User.t)
    (ev : SRAssignmentEvents.event) (st : state) :
  In myTeam teams ->
  pendingFrom teams st ->
  pendingFrom teams (fst (SRAssignmentEvents.step myTeam ev st))
  /\ List.Forall (SRAssignmentEvents.writesCounterOf teams)
                 (snd (SRAssignmentEvents.step myTeam ev st)).
Proof.
  intros Hteam Hst. unfold SRAssignmentEvents.step.
  destruct myTeam as [| e0 team0] eqn:Eteam; [split; [exact Hst | constructor] |].
  rewrite <- Eteam in *. clear Eteam e0 team0.
  destruct ev as [i | checked | answer | row | answer |].
  - split; [exact Hst | constructor].
  - split; [exact Hst | constructor].
  - unfold handleAssignSR.
    destruct (String.eqb (selectedEngineerId st) ""); [split; [exact Hst | constructor] |].
    destruct (List.find _ myTeam) as [engineer |] eqn:Hfind;
      [| split; [exact Hst | constructor]].
    apply List.find_some in Hfind as [Hin _].
    assert (Hmember : SRAssignmentEvents.memberOf teams engineer)
      by (exists myTeam; now split).
    destruct (negb (isForceAssign st) && reachedThreshold engineer).
    + split; [| constructor]. intros a. simpl. now intros [= <-].
    + split.
      * intros a. rewrite confirmAssignSR_keeps_action. apply Hst.
      * rewrite confirmAssignSR_issues. constructor; [| constructor].
        exists engineer. repeat split; auto.
  - destruct (nth_error myTeam row) as [engineer |] eqn:Hrow;
      [| split; [exact Hst | constructor]].
    split; [| constructor]. intros a. simpl. intros [= <-]. simpl.
    exists myTeam. split; [exact Hteam |]. eapply List.nth_error_In; eauto.
  - destruct (isModalOpen st); [| split; [exact Hst | constructor]].
    unfold clickConfirm.
    destruct (modalAction st) as [[engineer force | engineer] |] eqn:Ha;
      [| | split; [exact Hst | constructor]].
    + pose proof (Hst _ Ha) as Hmember. simpl in Hmember. split.
      * intros a. rewrite confirmAssignSR_keeps_action. apply Hst.
      * rewrite confirmAssignSR_issues. constructor; [| constructor].
        exists engineer. repeat split; auto.
    + pose proof (Hst _ Ha) as Hmember. simpl in Hmember. split.
      * intros a. rewrite confirmResetSR_keeps_action. apply Hst.
      * rewrite confirmResetSR_calls. constructor; [| constructor].
        exists engineer. repeat split; auto.
  - split; [exact Hst | constructor].
Qed.

Lemma sr_run_targets (teams : list (list User.t))
    (session : list (list User.t * SRAssignmentEvents.event)) (st : state) :
  (forall p, In p session -> In (fst p) teams) ->
  pendingFrom teams st ->
  List.Forall (SRAssignmentEvents.writesCounterOf teams)
              (snd (SRAssignmentEvents.run session st)).
Proof.
  revert st. induction session as [| [team ev] rest IH]; intros st Hs Hst; simpl.
  - constructor.
  - destruct (sr_step_targets teams team ev st) as [Hst1 Hc1];
      [apply (Hs (team, ev)); now left | exact Hst |].
    destruct (SRAssignmentEvents.step team ev st) as [st1 issued1]. simpl in *.
    assert (IH' : List.Forall (SRAssignmentEvents.writesCounterOf teams)
                    (snd (SRAssignmentEvents.run rest st1)))
      by (apply IH; [intros p Hp; apply Hs; now right | exact Hst1]).
    destruct (SRAssignmentEvents.run rest st1) as [st2 issued2]. simpl in *.
    apply Forall_app. now split.
Qed.

End SRDashboard.

(** X1. Reset SR: pressing the button of any row issues no write and
    opens the confirmation with the reset of that row's engineer
    pending; Confirm issues exactly one write, [currentSrCount = 0] on
    that engineer's document, whatever the count was and whatever the
    team has become, and closes the modal, so a second Confirm issues
    nothing; after Cancel the Confirm button is gone and nothing is
    issued. *)
Theorem reset_sr_needs_confirmation :
  forall (myTeam later : list User.t) (row : nat) (engineer : User.t)
         (st : SRAssignment.state) (answer answer' : Store.answer),
    nth_error myTeam row = Some engineer ->
    later <> [] ->
    let asked := SRAssignmentEvents.step myTeam (SRAssignmentEvents.ClickReset row) st in
    let confirmed :=
      SRAssignmentEvents.step later (SRAssignmentEvents.ClickConfirm answer) (fst asked) in
    snd asked = []
    /\ SRAssignment.isModalOpen (fst asked) = true
    /\ SRAssignment.modalAction (fst asked) = Some (SRAssignment.ConfirmResetSR engineer)
    /\ SRAssignment.modalMessage (fst asked) = SRAssignment.AskReset (User.name engineer)
    /\ snd confirmed = [Store.UpdateDoc (User.id engineer) (Store.CurrentSrCount 0)]
    /\ SRAssignment.isModalOpen (fst confirmed) = false
    /\ snd (SRAssignmentEvents.run
              [(myTeam, SRAssignmentEvents.ClickReset row);
               (later, SRAssignmentEvents.ClickConfirm answer);
               (later, SRAssignmentEvents.ClickConfirm answer')] st)
       = [Store.UpdateDoc (User.id engineer) (Store.CurrentSrCount 0)]
    /\ snd (SRAssignmentEvents.run
              [(myTeam, SRAssignmentEvents.ClickReset row);
               (later, SRAssignmentEvents.ClickCancel);
               (later, SRAssignmentEvents.ClickConfirm answer)] st)
       = [].
Proof.
  intros myTeam later row engineer st answer answer' Hrow Hlater asked confirmed.
  assert (Hasked : asked = (SRAssignment.handleResetSR engineer st, [])).
  { unfold asked, SRAssignmentEvents.step.
    destruct myTeam as [| e0 team0]; [destruct row; discriminate |].
    now rewrite Hrow. }
  assert (Hconfirmed : confirmed
                       = SRAssignment.confirmResetSR answer engineer
                           (SRAssignment.handleResetSR engineer st)).
  { unfold confirmed. rewrite Hasked.
    destruct later as [| l0 later0]; [contradiction | reflexivity]. }
  assert (Hclosed : SRAssignment.isModalOpen (fst confirmed) = false)
    by (rewrite Hconfirmed; now destruct answer).
  repeat apply conj.
  - now rewrite Hasked.
  - now rewrite Hasked.
  - now rewrite Hasked.
  - now rewrite Hasked.
  - rewrite Hconfirmed. apply confirmResetSR_calls.
  - exact Hclosed.
  - cbn [SRAssignmentEvents.run]. fold asked. rewrite Hasked.
    destruct later as [| l0 later0]; [contradiction |].
    destruct answer; reflexivity.
  - cbn [SRAssignmentEvents.run]. fold asked. rewrite Hasked.
    destruct later as [| l0 later0]; [contradiction | reflexivity].
Qed.

Lemma reset_sr_needs_confirmation_witness :
  let e1 := Sample.engineer "e1" (Some 3) (Some 1) None in
  let e2 := Sample.engineer "e2" (Some 3) (Some 5) None in
  let asked :=
    SRAssignmentEvents.step [e1; e2] (SRAssignmentEvents.ClickReset 1)
                            SRAssignment.initial in
  SRAssignment.modalAction (fst asked) = Some (SRAssignment.ConfirmResetSR e2)
  /\ snd (SRAssignmentEvents.step [e2]
            (SRAssignmentEvents.ClickConfirm Store.Resolved) (fst asked))
     = [Store.UpdateDoc "e2" (Store.CurrentSrCount 0)].
Proof.
  intros e1 e2 asked.
  destruct (reset_sr_needs_confirmation [e1; e2] [e2] 1 e2 SRAssignment.initial
              Store.Resolved Store.Resolved eq_refl ltac:(discriminate))
    as (_ & _ & Haction & _ & Hcall & _).
  split; [exact Haction | exact Hcall].
Defined.

(** X2. Whatever the manager does on the SR dashboard, every call it
    issues is an [updateDoc] of [currentSrCount] on the document of an
    engineer who was in [myTeam] at some event of the session, and the
    value is 0 or that engineer's count plus one; it never writes
    another field or another document. *)
Theorem sr_dashboard_writes_only_team_counters :
  forall (session : list (list User.t * SRAssignmentEvents.event)),
    List.Forall
      (SRAssignmentEvents.writesCounterOf (map fst session))
      (snd (SRAssignmentEvents.run session SRAssignment.initial)).
Proof.
  intros session. apply sr_run_targets.
  - intros p Hp. now apply List.in_map.
  - intros a. discriminate.
Qed.

(** X3. Assign SR with a selection that no member of [myTeam] has as id
    (the engineer left the team after being selected) issues no write,
    forced or not, and opens no confirmation. *)
Theorem assign_unknown_selection_writes_nothing :
  forall (answer : Store.answer) (myTeam : list User.t) (st : SRAssignment.state),
    (forall e, In e myTeam -> User.id e <> SRAssignment.selectedEngineerId st) ->
    let outcome := SRAssignment.handleAssignSR answer myTeam st in
    snd outcome = []
    /\ SRAssignment.isModalOpen (fst outcome) = SRAssignment.isModalOpen st
    /\ SRAssignment.modalAction (fst outcome) = SRAssignment.modalAction st
    /\ (SRAssignment.selectedEngineerId st <> "" ->
          SRAssignment.message (fst outcome) = SRAssignment.NotFound).
Proof.
  intros answer myTeam st Hnone outcome. unfold outcome, SRAssignment.handleAssignSR.
  destruct (String.eqb_spec (SRAssignment.selectedEngineerId st) "") as [E | E].
  - repeat apply conj; try reflexivity. intros H. contradiction.
  - destruct (List.find _ myTeam) as [engineer |] eqn:Hfind.
    + apply List.find_some in Hfind as [Hin Heq].
      apply String.eqb_eq in Heq. exfalso. now apply (Hnone engineer).
    + repeat apply conj; reflexivity.
Qed.

Lemma assign_unknown_selection_writes_nothing_witness :
  snd (SRAssignment.handleAssignSR Store.Resolved
         [Sample.engineer "e1" (Some 5) (Some 2) None] (Sample.selecting "e7" true))
  = [].
Proof.
  refine (proj1 (assign_unknown_selection_writes_nothing Store.Resolved
                   [Sample.engineer "e1" (Some 5) (Some 2) None]
                   (Sample.selecting "e7" true) _)).
  intros e [<- | []]. discriminate.
Defined.

(** X4. When Assign SR issues a write and the store accepts it, the
    selection is cleared and the force box unchecked, so pressing Assign
    SR again straight away issues nothing.  When the store rejects it,
    selection and force box stay as they were and pressing again issues
    the same write. *)
Theorem assign_outcome_and_next_click :
  forall (myTeam : list User.t) (st : SRAssignment.state),
    snd (SRAssignment.handleAssignSR Store.Resolved myTeam st) <> [] ->
    (let accepted := SRAssignment.handleAssignSR Store.Resolved myTeam st in
     SRAssignment.selectedEngineerId (fst accepted) = ""
     /\ SRAssignment.isForceAssign (fst accepted) = false
     /\ forall answer' myTeam',
          snd (SRAssignment.handleAssignSR answer' myTeam' (fst accepted)) = [])
    /\ (forall err answer',
          let rejected := SRAssignment.handleAssignSR (Store.Rejected err) myTeam st in
          snd rejected = snd (SRAssignment.handleAssignSR Store.Resolved myTeam st)
          /\ SRAssignment.selectedEngineerId (fst rejected)
             = SRAssignment.selectedEngineerId st
          /\ SRAssignment.isForceAssign (fst rejected) = SRAssignment.isForceAssign st
          /\ snd (SRAssignment.handleAssignSR answer' myTeam (fst rejected))
             = snd rejected).
Proof.
  intros myTeam st. unfold SRAssignment.handleAssignSR.
  destruct (String.eqb (SRAssignment.selectedEngineerId st) "") eqn:Esel;
    [intros H; now contradiction H |].
  destruct (List.find _ myTeam) as [engineer |] eqn:Hfind;
    [| intros H; now contradiction H].
  destruct (negb (SRAssignment.isForceAssign st) && SRAssignment.reachedThreshold engineer)
    eqn:Etest; [intros H; now contradiction H |].
  intros _. split.
  - simpl. repeat apply conj; try reflexivity.
  - intros err answer'. simpl. rewrite Esel, Hfind, Etest.
    repeat apply conj; try reflexivity.
    now destruct answer'.
Qed.

Lemma assign_outcome_and_next_click_witness :
  let myTeam := [Sample.engineer "e1" (Some 5) (Some 2) None] in
  let accepted :=
    SRAssignment.handleAssignSR Store.Resolved myTeam (Sample.selecting "e1" false) in
  snd (SRAssignment.handleAssignSR Store.Resolved myTeam (fst accepted)) = [].
Proof.
  intros myTeam accepted.
  destruct (assign_outcome_and_next_click myTeam (Sample.selecting "e1" false))
    as [(_ & _ & Hnext) _].
  - vm_compute. discriminate.
  - apply Hnext.
Defined.

(** ** The Users cache and the application shell *)

Section CacheFacts.

Context {A : Type} (comparefn : A -> A -> Js.number).

(** Sorting a list that is already in order changes nothing. *)
Lemma sort_sorted_id (l : list A) :
  StronglySorted (Js.before comparefn) l -> Js.sort comparefn l = l.
Proof.
  induction 1 as [| x l Hs IH Hx]; simpl; [reflexivity |].
  rewrite IH. destruct l as [| y rest]; [reflexivity |]. simpl.
  apply Forall_cons_iff in Hx as [Hxy _]. unfold Js.before in Hxy.
  destruct (Z.gtb_spec (Js.sortCompare comparefn x y) 0); [lia | reflexivity].
Qed.

End CacheFacts.

(** X5. The cache never loses or duplicates a record: whatever the
    roles and names in the snapshot and whatever [localeCompare] answers,
    the cached list is a rearrangement of the snapshot; the loading flag
    is cleared and the error slot is left as it was. *)
Theorem users_cache_is_rearranged_snapshot :
  forall (localeCompare : string -> string -> Z)
         (snapshot : list User.t) (st : UseUsers.state),
    let st' := UseUsers.onSnapshot localeCompare snapshot st in
    Permutation (UseUsers.users st') snapshot
    /\ length (UseUsers.users st') = length snapshot
    /\ UseUsers.loading st' = false
    /\ UseUsers.error st' = UseUsers.error st.
Proof.
  intros localeCompare snapshot st st'.
  assert (Hperm : Permutation (UseUsers.users st') snapshot) by apply sort_Permutation.
  repeat apply conj; try reflexivity; [exact Hperm |].
  now apply Permutation_length.
Qed.

(** X6. A subscription error is never cleared: after the error callback,
    however many snapshots arrive, the error slot still holds the error,
    and once authentication is ready and the skills are loaded the
    application shows the error page, whoever the current user is. *)
Theorem users_error_is_never_cleared :
  forall (localeCompare : string -> string -> Z)
         (snapshots : list (list User.t)) (st : UseUsers.state)
         (currentUser : option User.t) (skills : list App.Skill)
         (skillsError : option string),
    let st' :=
      fold_left (fun acc snapshot => UseUsers.onSnapshot localeCompare snapshot acc)
                snapshots (UseUsers.onError st) in
    UseUsers.error st' = Some "Failed to load users."
    /\ UseUsers.loading st' = false
    /\ App.app true currentUser st' skills false skillsError
       = App.ErrorLoading "Failed to load users.".
Proof.
  intros localeCompare snapshots st currentUser skills skillsError.
  assert (H : forall s,
             UseUsers.error s = Some "Failed to load users." ->
             UseUsers.loading s = false ->
             let s' := fold_left
                         (fun acc snapshot => UseUsers.onSnapshot localeCompare snapshot acc)
                         snapshots s in
             UseUsers.error s' = Some "Failed to load users."
             /\ UseUsers.loading s' = false).
  { induction snapshots as [| snapshot rest IH]; intros s He Hl; simpl.
    - now split.
    - apply IH; [exact He | reflexivity]. }
  intros st'. destruct (H (UseUsers.onError st) eq_refl eq_refl) as [He Hl].
  fold st' in He, Hl. repeat apply conj; trivial.
  unfold App.app. now rewrite Hl, He.
Qed.

(** X7. A snapshot that arrives in the order the cache keeps is stored
    as it is: feeding the cached list back as a snapshot gives the same
    cached list (all roles in the enumeration, consistent
    [localeCompare]). *)
Theorem users_cache_resort_is_identity :
  forall (localeCompare : string -> string -> Z),
    UseUsers.consistentLocaleCompare localeCompare ->
    forall (snapshot : list User.t) (st st' : UseUsers.state),
      List.Forall User.roleInEnumeration snapshot ->
      let cache := UseUsers.users (UseUsers.onSnapshot localeCompare snapshot st) in
      UseUsers.users (UseUsers.onSnapshot localeCompare cache st') = cache.
Proof.
  intros localeCompare Hlc snapshot st st' Hroles cache.
  simpl. apply sort_sorted_id.
  apply (sort_StronglySorted User.roleInEnumeration); trivial.
  now apply compareUsers_consistent.
Qed.

Lemma users_cache_resort_is_identity_witness :
  let snapshot :=
    [Sample.user "u1" "zed" (Some "Viewer"); Sample.user "u2" "bob" (Some "Admin");
     Sample.user "u3" "al" (Some "Engineer")] in
  let cache :=
    UseUsers.users (UseUsers.onSnapshot Sample.codeUnitCompare snapshot UseUsers.initial) in
  UseUsers.users (UseUsers.onSnapshot Sample.codeUnitCompare cache UseUsers.initial)
  = cache.
Proof.
  intros snapshot cache.
  apply (users_cache_resort_is_identity Sample.codeUnitCompare
           codeUnitCompare_consistent snapshot UseUsers.initial UseUsers.initial).
  unfold snapshot, User.roleInEnumeration. repeat constructor; simpl; tauto.
Defined.

(** ** Session resolution, further cases *)



(** X9. The default profile is created once: after the first sign-in of
    an identity without a document has written the default profile, a
    second run of the observer for the same identity finds it, issues
    [getDoc] only, leaves the collection as it is and resolves to the
    same current user. *)
Theorem second_sign_in_finds_default_profile :
  forall (user : FirebaseContext.authUser) (db : Store.collection)
         (st : FirebaseContext.state) (setAnswer : Store.answer),
    db !! FirebaseContext.uid user = None ->
    let first :=
      FirebaseContext.onAuthStateChanged Store.Resolved Store.Resolved (Some user) db st in
    let db1 := Store.applyAll (snd first) db in
    let second :=
      FirebaseContext.onAuthStateChanged Store.Resolved setAnswer (Some user) db1
                                         (fst first) in
    snd second = [Store.GetDoc (FirebaseContext.uid user)]
    /\ Store.applyAll (snd second) db1 = db1
    /\ FirebaseContext.currentUser (fst second) = FirebaseContext.currentUser (fst first)
    /\ FirebaseContext.currentUser (fst second)
       = Some (FirebaseContext.defaultUser user).
Proof.
  intros user db st setAnswer Hnone first db1 second.
  assert (Hdb1 : db1 !! FirebaseContext.uid user = Some (FirebaseContext.defaultUser user)).
  { unfold db1, first, FirebaseContext.onAuthStateChanged. rewrite Hnone. simpl.
    apply lookup_insert_eq. }
  assert (Hfirst : FirebaseContext.currentUser (fst first)
                   = Some (FirebaseContext.defaultUser user)).
  { unfold first, FirebaseContext.onAuthStateChanged. now rewrite Hnone. }
  unfold second, FirebaseContext.onAuthStateChanged. rewrite Hdb1. simpl.
  repeat apply conj; try reflexivity.
  - now rewrite Hfirst.
Qed.

Lemma second_sign_in_finds_default_profile_witness :
  let user := FirebaseContext.mkAuthUser "abcdefgh" None in
  let first :=
    FirebaseContext.onAuthStateChanged Store.Resolved Store.Resolved (Some user) ∅
                                       FirebaseContext.initial in
  snd (FirebaseContext.onAuthStateChanged Store.Resolved Store.Resolved (Some user)
         (Store.applyAll (snd first) ∅) (fst first))
  = [Store.GetDoc "abcdefgh"].
Proof.
  intros user first.
  exact (proj1 (second_sign_in_finds_default_profile user ∅ FirebaseContext.initial
                  Store.Resolved (lookup_empty _))).
Defined.

(** X10. When the store rejects [getDoc], or rejects the [setDoc] of the
    default profile, the observer sets nothing: the current user and the
    readiness flag stay as they were.  If that run is the observer's
    first, the application keeps showing the loading spinner, whatever
    the caches hold; if an earlier run for a signed-out session had set
    readiness, the application stays on the no-session page. *)
Theorem rejected_session_lookup_sets_nothing :
  forall (user : FirebaseContext.authUser) (db : Store.collection)
         (st : FirebaseContext.state) (err : string) (answer : Store.answer),
    fst (FirebaseContext.onAuthStateChanged (Store.Rejected err) answer (Some user) db st)
    = st
    /\ (db !! FirebaseContext.uid user = None ->
          fst (FirebaseContext.onAuthStateChanged Store.Resolved (Store.Rejected err)
                 (Some user) db st)
          = st)
    /\ (forall usersState skills skillsLoading skillsError,
          let st' :=
            fst (FirebaseContext.onAuthStateChanged (Store.Rejected err) answer
                   (Some user) db FirebaseContext.initial) in
          App.app (FirebaseContext.isAuthReady st') (FirebaseContext.currentUser st')
                  usersState skills skillsLoading skillsError
          = App.LoadingSpinner)
    /\ (forall users skills,
          let signedOut :=
            fst (FirebaseContext.onAuthStateChanged answer answer None db
                   FirebaseContext.initial) in
          let st' :=
            fst (FirebaseContext.onAuthStateChanged (Store.Rejected err) answer
                   (Some user) db signedOut) in
          App.app (FirebaseContext.isAuthReady st') (FirebaseContext.currentUser st')
                  (UseUsers.mkState users false None) skills false None
          = App.NoSession).
Proof.
  intros user db st err answer. repeat apply conj.
  - reflexivity.
  - intros Hnone. unfold FirebaseContext.onAuthStateChanged. now rewrite Hnone.
  - intros usersState skills skillsLoading skillsError. reflexivity.
  - intros users skills. reflexivity.
Qed.

(** ** Who is listed where *)

Section Listings.

Lemma strictEq_spec (a : option string) (b : string) :
  Js.strictEq a (Some b) = true <-> a = Some b.
Proof.
  unfold Js.strictEq. destruct a as [x |].
  - rewrite String.eqb_eq. split; congruence.
  - split; discriminate.
Qed.

Lemma strictEq_false (a : option string) (b : string) :
  Js.strictEq a (Some b) = false <-> a <> Some b.
Proof.
  rewrite <- strictEq_spec. destruct (Js.strictEq a (Some b)); split; congruence.
Qed.

Lemma teamMembers_In (manager u : User.t) (users : list User.t) :
  In u (OverallRosterView.teamMembers manager users)
  <-> In u users
      /\ (User.role u = Some "Engineer" \/ User.role u = Some "Viewer")
      /\ User.managerId u = Some (User.id manager).
Proof.
  unfold OverallRosterView.teamMembers, OverallRosterView.engineersAndViewers.
  rewrite !List.filter_In, orb_true_iff, !roleIs_spec, strictEq_spec. tauto.
Qed.

Lemma otherUsers_In (u : User.t) (users : list User.t) :
  In u (OverallRosterView.otherUsers users)
  <-> In u users
      /\ (User.role u = Some "Admin"
          \/ (User.role u <> Some "Manager" /\ Js.falsyStr (User.managerId u) = true)).
Proof.
  unfold OverallRosterView.otherUsers.
  rewrite List.filter_In, orb_true_iff, andb_true_iff, negb_true_iff, roleIs_spec.
  unfold OverallRosterView.roleIs. rewrite strictEq_false. tauto.
Qed.

Lemma shownAsRow_render (u : User.t) (users : list User.t) :
  RosterPage.shownAsRow u (RosterPage.render users) ->
  In u (OverallRosterView.otherUsers users)
  \/ exists manager, In manager (OverallRosterView.managers users)
                     /\ In u (OverallRosterView.teamMembers manager users).
Proof.
  unfold RosterPage.render.
  destruct ((length (OverallRosterView.managers users) =? 0)%nat
            && (length (OverallRosterView.engineersAndViewers users) =? 0)%nat);
    simpl; [tauto |].
  intros [H | [section [Hin Hu]]]; [now left | right].
  apply List.in_map_iff in Hin as [manager [<- Hm]]. now exists manager.
Qed.

End Listings.

(** X11. The manager's dashboard lists exactly the engineers the roster
    lists under that manager: [myTeam] holds the records of the input
    with role Engineer and [managerId] equal to the manager's id, in the
    input's order, and it is the roster's team of that manager with the
    viewers left out. *)
Theorem manager_team_is_roster_team_without_viewers :
  forall (currentUser : User.t) (users : list User.t),
    (forall e, In e (ManagerView.myTeam currentUser users) <->
               In e users
               /\ User.role e = Some "Engineer"
               /\ User.managerId e = Some (User.id currentUser))
    /\ sublist (ManagerView.myTeam currentUser users) users
    /\ ManagerView.myTeam currentUser users
       = List.filter (OverallRosterView.roleIs "Engineer")
                     (OverallRosterView.teamMembers currentUser users).
Proof.
  intros currentUser users. repeat apply conj.
  - intros e. unfold ManagerView.myTeam.
    rewrite List.filter_In, andb_true_iff, !strictEq_spec. tauto.
  - apply filter_sublist.
  - unfold ManagerView.myTeam, OverallRosterView.teamMembers,
      OverallRosterView.engineersAndViewers, OverallRosterView.roleIs.
    induction users as [| u users IH]; [reflexivity |]. simpl.
    destruct (Js.strictEq (User.role u) (Some "Engineer")) eqn:Eeng; simpl.
    + destruct (Js.strictEq (User.managerId u) (Some (User.id currentUser))); simpl.
      * rewrite Eeng. now f_equal.
      * exact IH.
    + rewrite andb_false_r.
      destruct (Js.strictEq (User.role u) (Some "Viewer")); simpl; [| exact IH].
      destruct (Js.strictEq (User.managerId u) (Some (User.id currentUser))); simpl;
        [| exact IH].
      now rewrite Eeng.
Qed.

(** X12. An engineer or viewer with a non-empty [managerId]: when a
    Manager record of the input has that id, the roster lists the record
    in that manager's section; when no Manager record has it (a dangling
    reference), the roster lists the record nowhere. *)
Theorem roster_rows_follow_manager_reference :
  forall (users : list User.t) (u : User.t) (m : string),
    In u users ->
    User.role u = Some "Engineer" \/ User.role u = Some "Viewer" ->
    User.managerId u = Some m ->
    m <> "" ->
    (forall manager,
        In manager users -> User.role manager = Some "Manager" -> User.id manager = m ->
        exists teams others,
          RosterPage.render users = RosterPage.Sections teams others
          /\ In (manager, OverallRosterView.teamMembers manager users) teams
          /\ In u (OverallRosterView.teamMembers manager users))
    /\ ((forall manager,
            In manager users -> User.role manager = Some "Manager" ->
            User.id manager <> m) ->
        ~ RosterPage.shownAsRow u (RosterPage.render users)).
Proof.
  intros users u m Hin Hrole Hm Hne. split.
  - intros manager Hmin Hmrole Hmid.
    assert (Hmanagers : In manager (OverallRosterView.managers users)).
    { unfold OverallRosterView.managers. apply List.filter_In.
      split; [exact Hmin | now apply roleIs_spec]. }
    exists (map (fun x => (x, OverallRosterView.teamMembers x users))
                (OverallRosterView.managers users)),
           (OverallRosterView.otherUsers users).
    split; [| split].
    + unfold RosterPage.render.
      destruct (OverallRosterView.managers users) as [| m0 ms] eqn:Em;
        [contradiction | reflexivity].
    + apply List.in_map_iff. exists manager. now split.
    + apply teamMembers_In. subst m. tauto.
  - intros Hdangling Hshown.
    apply shownAsRow_render in Hshown as [Hother | [manager [Hmgr Hteam]]].
    + apply otherUsers_In in Hother as [_ [Hadmin | [_ Hfalsy]]].
      * destruct Hrole; congruence.
      * rewrite Hm in Hfalsy. simpl in Hfalsy. apply String.eqb_eq in Hfalsy.
        contradiction.
    + unfold OverallRosterView.managers in Hmgr.
      apply List.filter_In in Hmgr as [Hmin Hmrole]. apply roleIs_spec in Hmrole.
      apply teamMembers_In in Hteam as (_ & _ & Hid).
      apply (Hdangling manager Hmin Hmrole). congruence.
Qed.

Lemma roster_rows_follow_manager_reference_witness :
  let manager := Scenario.member "m1" "max" (Some "Manager") None in
  let engineer := Scenario.member "e1" "al" (Some "Engineer") (Some "m9") in
  ~ RosterPage.shownAsRow engineer (RosterPage.render [manager; engineer]).
Proof.
  intros manager engineer.
  refine (proj2 (roster_rows_follow_manager_reference [manager; engineer] engineer "m9"
                   _ _ eq_refl _) _).
  - right. now left.
  - now left.
  - discriminate.
  - intros x [<- | [<- | []]]; simpl; intros; discriminate.
Defined.

(** X13. When no record has role Manager, Engineer or Viewer, the roster
    shows the notice "No users configured yet", although every Admin
    record of the input belongs to the rows of "Other Users". *)
Theorem roster_of_admins_only_shows_notice :
  forall (users : list User.t),
    (forall u, In u users ->
               User.role u <> Some "Manager"
               /\ User.role u <> Some "Engineer"
               /\ User.role u <> Some "Viewer") ->
    RosterPage.render users = RosterPage.NoUsersConfigured
    /\ (forall u, In u users -> User.role u = Some "Admin" ->
                  In u (OverallRosterView.otherUsers users)
                  /\ ~ RosterPage.shownAsRow u (RosterPage.render users)).
Proof.
  intros users Hroles.
  assert (Hm : OverallRosterView.managers users = []).
  { unfold OverallRosterView.managers. induction users as [| u users IH]; [reflexivity |].
    simpl. destruct (OverallRosterView.roleIs "Manager" u) eqn:E.
    - apply roleIs_spec in E. destruct (Hroles u) as [H _]; [now left | contradiction].
    - apply IH. intros x Hx. apply Hroles. now right. }
  assert (He : OverallRosterView.engineersAndViewers users = []).
  { unfold OverallRosterView.engineersAndViewers.
    induction users as [| u users IH]; [reflexivity |]. simpl.
    destruct (OverallRosterView.roleIs "Engineer" u) eqn:E1.
    - apply roleIs_spec in E1. destruct (Hroles u) as (_ & H & _); [now left | contradiction].
    - destruct (OverallRosterView.roleIs "Viewer" u) eqn:E2.
      + apply roleIs_spec in E2.
        destruct (Hroles u) as (_ & _ & H); [now left | contradiction].
      + simpl. apply IH.
        * intros x Hx. apply Hroles. now right.
        * unfold OverallRosterView.managers in *. simpl in Hm. rewrite <- Hm.
          destruct (OverallRosterView.roleIs "Manager" u) eqn:E3; [| reflexivity].
          discriminate. }
  assert (Hrender : RosterPage.render users = RosterPage.NoUsersConfigured).
  { unfold RosterPage.render. now rewrite Hm, He. }
  split; [exact Hrender |].
  intros u Hin Hadmin. split.
  - apply otherUsers_In. tauto.
  - rewrite Hrender. simpl. tauto.
Qed.

Lemma roster_of_admins_only_shows_notice_witness :
  RosterPage.render [Sample.user "u1" "root" (Some "Admin")]
  = RosterPage.NoUsersConfigured.
Proof.
  refine (proj1 (roster_of_admins_only_shows_notice
                   [Sample.user "u1" "root" (Some "Admin")] _)).
  intros u [<- | []]. simpl. repeat split; discriminate.
Defined.

(** X14. A Manager record is never one of the roster's rows: it is not
    among "Other Users", with or without a [managerId], and in no
    manager's team; it can only head a section. *)
Theorem roster_never_lists_a_manager_as_row :
  forall (users : list User.t) (u : User.t),
    User.role u = Some "Manager" ->
    ~ RosterPage.shownAsRow u (RosterPage.render users).
Proof.
  intros users u Hrole Hshown.
  apply shownAsRow_render in Hshown as [Hother | [manager [_ Hteam]]].
  - apply otherUsers_In in Hother as [_ [H | [H _]]]; congruence.
  - apply teamMembers_In in Hteam as (_ & [H | H] & _); congruence.
Qed.

Lemma roster_never_lists_a_manager_as_row_witness :
  let manager := Scenario.member "m1" "max" (Some "Manager") None in
  ~ RosterPage.shownAsRow manager
      (RosterPage.render [manager; Scenario.member "e1" "al" (Some "Engineer") None]).
Proof.
  intros manager.
  apply (roster_never_lists_a_manager_as_row _ manager). reflexivity.
Defined.

(** ** Cells that resolve references *)

Section CellFacts.





End CellFacts.


(** X16. A [managerId] that is the id of no record (a dangling
    reference): the user table shows "N/A" in the manager cell, while
    the engineer's own dashboard resolves no manager and shows "None". *)
Theorem dangling_manager_reference_in_cells :
  forall (user : User.t) (users : list User.t) (m : string),
    User.managerId user = Some m ->
    m <> "" ->
    (forall x, In x users -> User.id x <> m) ->
    Cells.managerCell user users = "N/A"
    /\ Cells.myManager user users = None
    /\ Cells.myManagerLine user users = "None".
Proof.
  intros user users m Hm Hne Hdangling.
  assert (Hfind : List.find (fun x => String.eqb (User.id x) m) users = None).
  { destruct (List.find _ users) as [x |] eqn:E; [| reflexivity].
    apply List.find_some in E as [Hin Heq]. apply String.eqb_eq in Heq.
    exfalso. now apply (Hdangling x). }
  unfold Cells.myManagerLine, Cells.myManager, Cells.managerCell. rewrite Hm.
  destruct (String.eqb_spec m ""); [contradiction |].
  now rewrite Hfind.
Qed.

Lemma dangling_manager_reference_in_cells_witness :
  let engineer := Scenario.member "e1" "al" (Some "Engineer") (Some "m9") in
  Cells.managerCell engineer [engineer] = "N/A"
  /\ Cells.myManagerLine engineer [engineer] = "None".
Proof.
  intros engineer.
  destruct (dangling_manager_reference_in_cells engineer [engineer] "m9" eq_refl)
    as (H1 & _ & H3).
  - discriminate.
  - intros x [<- | []]. discriminate.
  - now split.
Defined.

(** ** Vacation writes, further properties *)

Section DatesTargetsFacts.

Lemma engineer_step_targets (records : list User.t) (cu : User.t)
    (ev : EngineerView.event) (st : EngineerView.state) :
  In cu records ->
  (forall a, EngineerView.modalAction st = Some a ->
             In (DatesTargets.engineerRecord a) records) ->
  (forall a, EngineerView.modalAction (fst (EngineerView.step cu ev st)) = Some a ->
             In (DatesTargets.engineerRecord a) records)
  /\ List.Forall (DatesTargets.writesDatesOf records)
                 (snd (EngineerView.step cu ev st)).
Proof.
  intros Hcu Hst. destruct ev as [d | | idx | answer |]; simpl.
  - split; [exact Hst | constructor].
  - split; [| constructor]. unfold EngineerView.handleAddVacationRequest.
    destruct (String.eqb (EngineerView.newVacationDate st) ""); [exact Hst |].
    destruct (Js.includes _ _); intros a; simpl; [discriminate |].
    now intros [= <-].
  - destruct (nth_error _ idx) as [date |]; simpl; [| split; [exact Hst | constructor]].
    split; [| constructor]. intros a. simpl. now intros [= <-].
  - destruct (EngineerView.isModalOpen st); [| split; [exact Hst | constructor]].
    split.
    + intros a. rewrite engineer_confirm_keeps_action. apply Hst.
    + unfold EngineerView.clickConfirm.
      destruct (EngineerView.modalAction st) as [[u d | u d] |] eqn:Ha;
        [| | constructor].
      * pose proof (Hst _ eq_refl) as Hu.
        pose proof (engineer_confirm_add_calls answer u d st) as Hcalls.
        destruct (EngineerView.confirmAddVacationRequest answer u d st) as [st' issued].
        simpl in *. subst issued. constructor; [| constructor]. now exists u.
      * pose proof (Hst _ eq_refl) as Hu.
        pose proof (engineer_confirm_remove_calls answer u d st) as Hcalls.
        destruct (EngineerView.confirmRemoveVacationRequest answer u d st)
          as [st' issued].
        simpl in *. subst issued. constructor; [| constructor]. now exists u.
  - split; [exact Hst | constructor].
Qed.

Lemma engineer_run_targets (records : list User.t)
    (session : list (User.t * EngineerView.event)) (st : EngineerView.state) :
  (forall p, In p session -> In (fst p) records) ->
  (forall a, EngineerView.modalAction st = Some a ->
             In (DatesTargets.engineerRecord a) records) ->
  List.Forall (DatesTargets.writesDatesOf records) (snd (EngineerView.run session st)).
Proof.
  revert st. induction session as [| [cu ev] rest IH]; intros st Hs Hst; simpl.
  - constructor.
  - destruct (engineer_step_targets records cu ev st) as [Hst1 Hc1];
      [apply (Hs (cu, ev)); now left | exact Hst |].
    destruct (EngineerView.step cu ev st) as [st1 issued1]. simpl in *.
    assert (IH' : List.Forall (DatesTargets.writesDatesOf records)
                    (snd (EngineerView.run rest st1)))
      by (apply IH; [intros p Hp; apply Hs; now right | exact Hst1]).
    destruct (EngineerView.run rest st1) as [st2 issued2]. simpl in *.
    apply Forall_app. now split.
Qed.

Lemma manager_step_targets (records : list User.t) (myTeam : list User.t)
    (ev : ManagerVacationManagement.event) (st : ManagerVacationManagement.state) :
  (forall e, In e myTeam -> In e records) ->
  (forall a, ManagerVacationManagement.modalAction st = Some a ->
             In (DatesTargets.managerRecord a) records) ->
  (forall a,
      ManagerVacationManagement.modalAction
        (fst (ManagerVacationManagement.step myTeam ev st)) = Some a ->
      In (DatesTargets.managerRecord a) records)
  /\ List.Forall (DatesTargets.writesDatesOf records)
                 (snd (ManagerVacationManagement.step myTeam ev st)).
Proof.
  intros Hteam Hst. destruct ev as [i | d | | row idx | answer |]; simpl.
  - split; [exact Hst | constructor].
  - split; [exact Hst | constructor].
  - split; [| constructor]. unfold ManagerVacationManagement.handleAddVacation.
    destruct (String.eqb (ManagerVacationManagement.selectedEngineerId st) ""
              || String.eqb (ManagerVacationManagement.newVacationDate st) "");
      [intros a; discriminate |].
    destruct (List.find _ myTeam) as [engineer |] eqn:Hfind; [| exact Hst].
    apply List.find_some in Hfind as [Hin _].
    destruct (Js.includes _ _); intros a; simpl; [discriminate |].
    intros [= <-]. simpl. now apply Hteam.
  - destruct (nth_error myTeam row) as [engineer |] eqn:Hrow;
      [| split; [exact Hst | constructor]].
    destruct (nth_error _ idx) as [date |]; simpl; [| split; [exact Hst | constructor]].
    split; [| constructor]. intros a. simpl. intros [= <-]. simpl.
    apply Hteam. eapply List.nth_error_In; eauto.
  - destruct (ManagerVacationManagement.isModalOpen st);
      [| split; [exact Hst | constructor]].
    split.
    + intros a. destruct (manager_confirm_action answer st) as [-> | ->];
        [apply Hst | discriminate].
    + unfold ManagerVacationManagement.clickConfirm.
      destruct (ManagerVacationManagement.modalAction st) as [[u d | u d] |] eqn:Ha;
        [| | constructor].
      * pose proof (Hst _ eq_refl) as Hu.
        rewrite manager_confirm_add_calls. constructor; [| constructor]. now exists u.
      * pose proof (Hst _ eq_refl) as Hu.
        rewrite manager_confirm_remove_calls. constructor; [| constructor].
        now exists u.
  - split; [exact Hst | constructor].
Qed.

Lemma manager_run_targets (records : list User.t)
    (session : list (list User.t * ManagerVacationManagement.event))
    (st : ManagerVacationManagement.state) :
  (forall p e, In p session -> In e (fst p) -> In e records) ->
  (forall a, ManagerVacationManagement.modalAction st = Some a ->
             In (DatesTargets.managerRecord a) records) ->
  List.Forall (DatesTargets.writesDatesOf records)
              (snd (ManagerVacationManagement.run session st)).
Proof.
  revert st. induction session as [| [team ev] rest IH]; intros st Hs Hst; simpl.
  - constructor.
  - destruct (manager_step_targets records team ev st) as [Hst1 Hc1];
      [intros e He; apply (Hs (team, ev)); [now left | exact He] | exact Hst |].
    destruct (ManagerVacationManagement.step team ev st) as [st1 issued1]. simpl in *.
    assert (IH' : List.Forall (DatesTargets.writesDatesOf records)
                    (snd (ManagerVacationManagement.run rest st1)))
      by (apply IH; [intros p e Hp; apply Hs; now right | exact Hst1]).
    destruct (ManagerVacationManagement.run rest st1) as [st2 issued2]. simpl in *.
    apply Forall_app. now split.
Qed.

Lemma filter_out_nth (l : list string) (idx : nat) (d : string) :
  List.NoDup l -> nth_error l idx = Some d ->
  List.filter (fun date => negb (String.eqb date d)) l
  = firstn idx l ++ skipn (S idx) l.
Proof.
  revert idx. induction l as [| x l IH]; intros idx Hnd Hidx.
  - destruct idx; discriminate.
  - apply List.NoDup_cons_iff in Hnd as [Hx Hnd]. destruct idx as [| idx]; simpl in *.
    + injection Hidx as ->. rewrite String.eqb_refl. simpl.
      now apply filter_out_absent.
    + destruct (String.eqb_spec x d) as [-> | _]; simpl.
      * exfalso. apply Hx. eapply List.nth_error_In; eauto.
      * f_equal. now apply IH.
Qed.

End DatesTargetsFacts.

(** X17. Whatever the engineer does on the dashboard, every call it
    issues is an [updateDoc] of [vacationDates] on the document of the
    current user (as it was at some event of the session): it never
    writes an SR counter and never another user's document. *)
Theorem engineer_dashboard_writes_only_own_dates :
  forall (session : list (User.t * EngineerView.event)),
    List.Forall (DatesTargets.writesDatesOf (map fst session))
                (snd (EngineerView.run session EngineerView.initial)).
Proof.
  intros session. apply engineer_run_targets.
  - intros p Hp. now apply List.in_map.
  - intros a. discriminate.
Qed.

(** X18. Whatever the manager does on the vacation component, every call
    it issues is an [updateDoc] of [vacationDates] on the document of an
    engineer who was in [myTeam] at some event of the session. *)
Theorem manager_component_writes_only_team_dates :
  forall (session : list (list User.t * ManagerVacationManagement.event)),
    List.Forall
      (DatesTargets.writesDatesOf (concat (map fst session)))
      (snd (ManagerVacationManagement.run session ManagerVacationManagement.initial)).
Proof.
  intros session. apply manager_run_targets.
  - intros p e Hp He. apply List.in_concat. exists (fst p).
    split; [now apply List.in_map | exact He].
  - intros a. discriminate.
Qed.

(** X19. The remove button of row [idx] on the engineer's dashboard,
    once confirmed, writes the listed dates with exactly that row taken
    out, when the dates are pairwise different; a row that does not
    exist has no button, and with the modal closed nothing is issued. *)
Theorem engineer_remove_takes_out_the_row :
  forall (cu : User.t) (idx : nat) (answer : Store.answer) (st : EngineerView.state),
    let dates := Js.orNil (User.vacationDates cu) in
    List.NoDup dates ->
    ((idx < length dates)%nat ->
       snd (EngineerView.run (Sample.removeVacation cu idx answer) st)
       = [Store.UpdateDoc (User.id cu)
            (Store.VacationDates (firstn idx dates ++ skipn (S idx) dates))])
    /\ ((length dates <= idx)%nat -> EngineerView.isModalOpen st = false ->
          snd (EngineerView.run (Sample.removeVacation cu idx answer) st) = []).
Proof.
  intros cu idx answer st dates Hnd. split.
  - intros Hlt.
    destruct (nth_error dates idx) as [d |] eqn:Hidx;
      [| apply List.nth_error_None in Hidx; lia].
    unfold Sample.removeVacation. cbn [EngineerView.run EngineerView.step].
    fold dates. rewrite Hidx. simpl.
    unfold EngineerView.clickConfirm. simpl.
    pose proof (engineer_confirm_remove_calls answer cu d) as Hcalls.
    match goal with
    | |- context [EngineerView.confirmRemoveVacationRequest answer cu d ?s] =>
        specialize (Hcalls s);
        destruct (EngineerView.confirmRemoveVacationRequest answer cu d s)
          as [s1 issued]
    end.
    simpl in *. subst issued. fold dates.
    now rewrite (filter_out_nth dates idx d Hnd Hidx).
  - intros Hge Hclosed.
    assert (Hidx : nth_error dates idx = None) by now apply List.nth_error_None.
    unfold Sample.removeVacation. cbn [EngineerView.run EngineerView.step].
    fold dates. rewrite Hidx, Hclosed. reflexivity.
Qed.

Lemma engineer_remove_takes_out_the_row_witness :
  let cu :=
    Sample.engineer "e1" None None (Some ["2024-01-01"; "2024-03-01"; "2024-05-10"]) in
  snd (EngineerView.run (Sample.removeVacation cu 1 Store.Resolved) EngineerView.initial)
  = [Store.UpdateDoc "e1" (Store.VacationDates ["2024-01-01"; "2024-05-10"])].
Proof.
  intros cu.
  refine (proj1 (engineer_remove_takes_out_the_row cu 1 Store.Resolved
                   EngineerView.initial _) _).
  - repeat (constructor; [simpl; intuition discriminate |]); constructor.
  - simpl. lia.
Defined.

(** X20. The engineer's add never loses a date: for a picked date the
    record does not hold, the confirmed request writes a rearrangement
    of the listed dates and the new date, whether or not the listed
    dates were in order or pairwise different. *)
Theorem engineer_add_keeps_every_date :
  forall (cu : User.t) (d : string) (answer : Store.answer) (st : EngineerView.state),
    d <> "" ->
    ~ In d (Js.orNil (User.vacationDates cu)) ->
    exists written,
      snd (EngineerView.run (Sample.requestVacation cu d answer) st)
      = [Store.UpdateDoc (User.id cu) (Store.VacationDates written)]
      /\ Permutation written (d :: Js.orNil (User.vacationDates cu))
      /\ StronglySorted Js.strLe written.
Proof.
  intros cu d answer st Hd Hfresh.
  exists (Js.sortDefault (Js.orNil (User.vacationDates cu) ++ [d])).
  repeat apply conj.
  - unfold Sample.requestVacation. cbn [EngineerView.run EngineerView.step].
    unfold EngineerView.handleAddVacationRequest. simpl.
    destruct (String.eqb_spec d ""); [contradiction |].
    apply includes_not_In in Hfresh. rewrite Hfresh. simpl.
    unfold EngineerView.clickConfirm. simpl.
    pose proof (engineer_confirm_add_calls answer cu d) as Hcalls.
    match goal with
    | |- context [EngineerView.confirmAddVacationRequest answer cu d ?s] =>
        specialize (Hcalls s);
        destruct (EngineerView.confirmAddVacationRequest answer cu d s)
          as [s1 issued]
    end.
    simpl in *. now subst issued.
  - rewrite sortDefault_Permutation. symmetry. apply Permutation_cons_append.
  - apply sortDefault_StronglySorted.
Qed.

Lemma engineer_add_keeps_every_date_witness :
  exists written,
    snd (EngineerView.run
           (Sample.requestVacation
              (Sample.engineer "e1" None None (Some ["2024-05-10"; "2024-03-01"]))
              "2024-04-01" Store.Resolved)
           EngineerView.initial)
    = [Store.UpdateDoc "e1" (Store.VacationDates written)]
    /\ Permutation written ["2024-04-01"; "2024-05-10"; "2024-03-01"].
Proof.
  destruct (engineer_add_keeps_every_date
              (Sample.engineer "e1" None None (Some ["2024-05-10"; "2024-03-01"]))
              "2024-04-01" Store.Resolved EngineerView.initial)
    as (written & Hcalls & Hperm & _).
  - discriminate.
  - simpl. intuition discriminate.
  - exists written. now split.
Defined.

(** X21. A rejected vacation write, an addition or a removal, is not
    retried by the modal.  On the manager's component the Confirm whose
    write the store rejects issues that one call; the modal then shows
    the error with no action, selection and picked date stay, and
    Confirm or Close issue nothing.  On the engineer's dashboard the
    Confirm issues that one call and the modal closes with the error as
    message; the picked date stays and Confirm or Cancel issue nothing. *)
Theorem rejected_vacation_write_is_not_retried :
  forall (err : string) (answer : Store.answer),
    (forall (a : ManagerVacationManagement.action)
            (myTeam1 myTeam2 myTeam3 myTeam4 : list User.t)
            (st : ManagerVacationManagement.state),
        ManagerVacationManagement.isModalOpen st = true ->
        ManagerVacationManagement.modalAction st = Some a ->
        let rejected :=
          ManagerVacationManagement.step myTeam1
            (ManagerVacationManagement.ClickConfirm (Store.Rejected err)) st in
        (exists dates,
            snd rejected
            = [Store.UpdateDoc (User.id (DatesTargets.managerRecord a))
                 (Store.VacationDates dates)])
        /\ ManagerVacationManagement.isModalOpen (fst rejected) = true
        /\ ManagerVacationManagement.modalAction (fst rejected) = None
        /\ ManagerVacationManagement.modalMessage (fst rejected)
           = match a with
             | ManagerVacationManagement.ConfirmAddVacation _ _ =>
                 ManagerVacationManagement.ErrorAdding err
             | ManagerVacationManagement.ConfirmRemoveVacation _ _ =>
                 ManagerVacationManagement.ErrorRemoving err
             end
        /\ ManagerVacationManagement.newVacationDate (fst rejected)
           = ManagerVacationManagement.newVacationDate st
        /\ ManagerVacationManagement.selectedEngineerId (fst rejected)
           = ManagerVacationManagement.selectedEngineerId st
        /\ snd (ManagerVacationManagement.run
                  [(myTeam2, ManagerVacationManagement.ClickConfirm answer);
                   (myTeam3, ManagerVacationManagement.ClickClose);
                   (myTeam4, ManagerVacationManagement.ClickConfirm answer)]
                  (fst rejected))
           = [])
    /\ (forall (a : EngineerView.action) (cu1 cu2 cu3 cu4 : User.t)
               (st : EngineerView.state),
          EngineerView.isModalOpen st = true ->
          EngineerView.modalAction st = Some a ->
          let rejected :=
            EngineerView.step cu1 (EngineerView.ClickConfirm (Store.Rejected err)) st in
          (exists dates,
              snd rejected
              = [Store.UpdateDoc (User.id (DatesTargets.engineerRecord a))
                   (Store.VacationDates dates)])
          /\ EngineerView.isModalOpen (fst rejected) = false
          /\ EngineerView.message (fst rejected)
             = match a with
               | EngineerView.ConfirmAddVacationRequest _ _ =>
                   EngineerView.ErrorSubmitting err
               | EngineerView.ConfirmRemoveVacationRequest _ _ =>
                   EngineerView.ErrorRemoving err
               end
          /\ EngineerView.newVacationDate (fst rejected) = EngineerView.newVacationDate st
          /\ snd (EngineerView.run
                    [(cu2, EngineerView.ClickConfirm answer);
                     (cu3, EngineerView.ClickCancel);
                     (cu4, EngineerView.ClickConfirm answer)]
                    (fst rejected))
             = []).
Proof.
  intros err answer. split.
  - intros a myTeam1 myTeam2 myTeam3 myTeam4 st Hopen Haction rejected.
    unfold rejected, ManagerVacationManagement.step,
      ManagerVacationManagement.clickConfirm.
    rewrite Hopen, Haction.
    destruct a as [engineer d | engineer d]; simpl;
      (split; [eexists; reflexivity |]); repeat apply conj; reflexivity.
  - intros a cu1 cu2 cu3 cu4 st Hopen Haction rejected.
    unfold rejected, EngineerView.step, EngineerView.clickConfirm.
    rewrite Hopen, Haction.
    destruct a as [cu d | cu d]; simpl;
      (split; [eexists; reflexivity |]); repeat apply conj; reflexivity.
Qed.

(** A manager removes a date, the store rejects the write, and the
    manager presses whatever the modal still offers: the one rejected
    call is all that is issued.  The same on the engineer's dashboard. *)
Lemma rejected_vacation_write_is_not_retried_witness :
  let e := Sample.engineer "e1" None None (Some ["2024-03-01"; "2024-05-10"]) in
  snd (ManagerVacationManagement.run
         [([e], ManagerVacationManagement.ClickConfirm Store.Resolved);
          ([e], ManagerVacationManagement.ClickClose);
          ([e], ManagerVacationManagement.ClickConfirm Store.Resolved)]
         (fst (ManagerVacationManagement.step [e]
                 (ManagerVacationManagement.ClickConfirm (Store.Rejected "unavailable"))
                 (ManagerVacationManagement.handleRemoveVacation e "2024-03-01"
                    ManagerVacationManagement.initial))))
  = []
  /\ snd (EngineerView.run
            [(e, EngineerView.ClickConfirm Store.Resolved);
             (e, EngineerView.ClickCancel);
             (e, EngineerView.ClickConfirm Store.Resolved)]
            (fst (EngineerView.step e
                    (EngineerView.ClickConfirm (Store.Rejected "unavailable"))
                    (EngineerView.handleRemoveVacationRequest e "2024-03-01"
                       EngineerView.initial))))
     = [].
Proof.
  intros e.
  destruct (rejected_vacation_write_is_not_retried "unavailable" Store.Resolved)
    as [Hmanager Hengineer].
  split.
  - apply (Hmanager (ManagerVacationManagement.ConfirmRemoveVacation e "2024-03-01")
             [e] [e] [e] [e]); reflexivity.
  - apply (Hengineer (EngineerView.ConfirmRemoveVacationRequest e "2024-03-01")
             e e e e); reflexivity.
Defined.

(** ** The admin form's dates *)

Section FormDates.

Import AddEditUserModal.

(** The dates after [handleAddVacationDate], as a function of the dates
    before. *)
Let added (d : string) (l : list string) : list string :=
  if negb (String.eqb d "") && negb (Js.includes l d)
  then Js.sortDefault (l ++ [d])
  else l.

Lemma sorted_dates_unique (l1 l2 : list string) :
  StronglySorted Js.strLe l1 -> StronglySorted Js.strLe l2 ->
  Permutation l1 l2 -> l1 = l2.
Proof.
  assert (Ht : Transitive Js.strLe) by (intros x y z; apply strLe_trans).
  assert (Ha : AntiSymm (=) Js.strLe) by (intros x y; apply strLe_antisym).
  apply (StronglySorted_unique Js.strLe).
Qed.

Lemma setVacationDates_same (fd : formData) :
  setVacationDates (vacationDates fd) fd = fd.
Proof. now destruct fd. Qed.

Lemma handleAddVacationDate_form (d : string) (fd : formData) :
  fst (handleAddVacationDate d fd) = setVacationDates (added d (vacationDates fd)) fd.
Proof.
  unfold handleAddVacationDate, added.
  destruct (negb (String.eqb d "") && negb (Js.includes (vacationDates fd) d));
    simpl; [reflexivity | now rewrite setVacationDates_same].
Qed.

Lemma added_In (x d : string) (l : list string) :
  In x (added d l) -> In x l \/ x = d.
Proof.
  unfold added.
  destruct (negb (String.eqb d "") && negb (Js.includes l d)); [| tauto].
  intros H. apply (Permutation_in _ (sortDefault_Permutation _)) in H.
  apply List.in_app_or in H as [H | [H | []]]; auto.
Qed.

Lemma In_added (x d : string) (l : list string) : In x l -> In x (added d l).
Proof.
  unfold added.
  destruct (negb (String.eqb d "") && negb (Js.includes l d)); [| tauto].
  intros H. apply (Permutation_in (l := l ++ [d])).
  - symmetry. apply sortDefault_Permutation.
  - apply List.in_or_app. now left.
Qed.

Lemma added_comm (d1 d2 : string) (l : list string) :
  added d2 (added d1 l) = added d1 (added d2 l).
Proof.
  assert (Hstale : forall a b, negb (String.eqb a "") && negb (Js.includes l a) = false ->
                               added a (added b l) = added b l).
  { intros a b Ha. unfold added at 1.
    destruct (String.eqb a ""); [reflexivity |]. simpl in *.
    apply negb_false_iff in Ha. apply includes_In in Ha.
    apply (In_added a b) in Ha. apply includes_In in Ha. now rewrite Ha. }
  destruct (negb (String.eqb d1 "") && negb (Js.includes l d1)) eqn:E1.
  2:{ rewrite (Hstale d1 d2 E1). unfold added at 2. now rewrite E1. }
  destruct (negb (String.eqb d2 "") && negb (Js.includes l d2)) eqn:E2.
  2:{ rewrite (Hstale d2 d1 E2). unfold added at 3. now rewrite E2. }
  destruct (String.eqb_spec d1 d2) as [-> | Hne]; [reflexivity |].
  apply andb_true_iff in E1 as [N1 I1], E2 as [N2 I2].
  apply negb_true_iff in I1, I2.
  assert (F2 : Js.includes (added d1 l) d2 = false).
  { apply includes_not_In. intros H. apply added_In in H as [H | H].
    - apply includes_not_In in I2. contradiction.
    - congruence. }
  assert (F1 : Js.includes (added d2 l) d1 = false).
  { apply includes_not_In. intros H. apply added_In in H as [H | H].
    - apply includes_not_In in I1. contradiction.
    - congruence. }
  unfold added at 1 3. rewrite N1, N2, F1, F2. simpl.
  apply sorted_dates_unique;
    try apply sortDefault_StronglySorted.
  rewrite !sortDefault_Permutation. unfold added. rewrite N1, N2, I1, I2. simpl.
  rewrite !sortDefault_Permutation, <- !app_assoc. simpl.
  apply Permutation_app_head, perm_swap.
Qed.

Lemma Permutation_filter_out (l : list string) (d : string) :
  List.NoDup l -> In d l ->
  Permutation (List.filter (fun date => negb (String.eqb date d)) l ++ [d]) l.
Proof.
  induction l as [| x l IH]; intros Hnd Hin; [contradiction |].
  apply List.NoDup_cons_iff in Hnd as [Hx Hnd]. simpl.
  destruct (String.eqb_spec x d) as [-> | Hne]; simpl.
  - rewrite (filter_out_absent l d Hx). symmetry. apply Permutation_cons_append.
  - constructor. apply IH; [exact Hnd |]. destruct Hin; [contradiction | trivial].
Qed.

Lemma form_step_invariant (ev : AddEditUserModalEvents.event) (fd : formData) :
  User.datesInvariant (vacationDates fd) ->
  User.datesInvariant (vacationDates (AddEditUserModalEvents.step ev fd)).
Proof.
  intros Hfd. destruct ev as [d | d]; simpl.
  - unfold handleAddVacationDate.
    destruct (String.eqb d ""); simpl; [exact Hfd |].
    destruct (Js.includes _ _) eqn:Hinc; simpl; [exact Hfd |].
    apply add_keeps_invariant; [exact Hfd |]. now apply includes_not_In.
  - now apply remove_keeps_invariant.
Qed.

Lemma form_run_invariant (events : list AddEditUserModalEvents.event) (fd : formData) :
  User.datesInvariant (vacationDates fd) ->
  User.datesInvariant (vacationDates (AddEditUserModalEvents.run events fd)).
Proof.
  revert fd. induction events as [| ev rest IH]; intros fd Hfd; simpl; [exact Hfd |].
  apply IH. now apply form_step_invariant.
Qed.

End FormDates.

(** X22. On the admin form the order of two additions does not matter:
    adding one date and then another leaves the same form as adding them
    the other way round, whatever the form's dates are and whether or not
    either date is empty or already listed. *)
Theorem form_additions_commute :
  forall (fd : AddEditUserModal.formData) (d1 d2 : string),
    AddEditUserModalEvents.run
      [AddEditUserModalEvents.AddDate d1; AddEditUserModalEvents.AddDate d2] fd
    = AddEditUserModalEvents.run
        [AddEditUserModalEvents.AddDate d2; AddEditUserModalEvents.AddDate d1] fd.
Proof.
  intros fd d1 d2. simpl.
  rewrite !handleAddVacationDate_form. destruct fd.
  unfold AddEditUserModal.setVacationDates. simpl.
  f_equal. apply added_comm.
Qed.

(** X23. Removing a listed date from the admin form and adding it back
    gives the form back, when the form's dates satisfy the invariant. *)
Theorem form_remove_then_add_round_trip :
  forall (fd : AddEditUserModal.formData) (d : string),
    d <> "" ->
    User.datesInvariant (AddEditUserModal.vacationDates fd) ->
    In d (AddEditUserModal.vacationDates fd) ->
    AddEditUserModalEvents.run
      [AddEditUserModalEvents.RemoveDate d; AddEditUserModalEvents.AddDate d] fd
    = fd.
Proof.
  intros fd d Hd [Hnd Hsorted] Hin. simpl.
  unfold AddEditUserModal.handleAddVacationDate, AddEditUserModal.handleRemoveVacationDate.
  simpl. destruct (String.eqb_spec d ""); [contradiction |].
  set (rest := List.filter (fun date => negb (String.eqb date d))
                           (AddEditUserModal.vacationDates fd)).
  assert (Hfresh : Js.includes rest d = false).
  { apply includes_not_In. unfold rest. intros H. apply List.filter_In in H as [_ H].
    now rewrite String.eqb_refl in H. }
  rewrite Hfresh. simpl.
  assert (Hback : Js.sortDefault (rest ++ [d]) = AddEditUserModal.vacationDates fd).
  { apply sorted_dates_unique.
    - apply sortDefault_StronglySorted.
    - exact Hsorted.
    - rewrite sortDefault_Permutation. now apply Permutation_filter_out. }
  rewrite Hback. now destruct fd.
Qed.

Lemma form_remove_then_add_round_trip_witness :
  let fd :=
    AddEditUserModal.load
      (Some (Sample.engineer "e1" None None (Some ["2024-03-01"; "2024-05-10"]))) in
  AddEditUserModalEvents.run
    [AddEditUserModalEvents.RemoveDate "2024-03-01";
     AddEditUserModalEvents.AddDate "2024-03-01"] fd
  = fd.
Proof.
  intros fd. apply form_remove_then_add_round_trip.
  - discriminate.
  - exact sample_dates_invariant.
  - simpl. tauto.
Defined.

(** ** Saving and deleting users *)

(** X24. The dates a save writes satisfy the invariant.  A user created
    through the form (no user being edited) is saved by exactly one
    [addDoc] whose dates satisfy the invariant, whatever dates were added
    and removed on the form; a user being edited is saved by exactly one
    [updateDoc] addressed to that user, whose dates satisfy the invariant
    when the user's did. *)
Theorem saved_dates_satisfy_invariant :
  forall (events : list AddEditUserModalEvents.event) (answer : Store.answer)
         (st : UserManagement.state),
    let submitted := AddEditUserModalEvents.run events (UserManagement.formOf st) in
    (UserManagement.editingUser st = None ->
       snd (UserManagement.handleSaveUser answer submitted st)
       = [UserManagement.AddUser submitted]
       /\ User.datesInvariant (AddEditUserModal.vacationDates submitted))
    /\ (forall u,
          UserManagement.editingUser st = Some u ->
          User.datesInvariant (Js.orNil (User.vacationDates u)) ->
          snd (UserManagement.handleSaveUser answer submitted st)
          = [UserManagement.UpdateUser (User.id u) submitted]
          /\ User.datesInvariant (AddEditUserModal.vacationDates submitted)).
Proof.
  intros events answer st submitted. split.
  - intros Hnone. split.
    + unfold UserManagement.handleSaveUser. rewrite Hnone. now destruct answer.
    + unfold submitted, UserManagement.formOf. rewrite Hnone.
      apply form_run_invariant. simpl. split; constructor.
  - intros u Hu Hinv. split.
    + unfold UserManagement.handleSaveUser. rewrite Hu. now destruct answer.
    + unfold submitted, UserManagement.formOf. rewrite Hu.
      now apply form_run_invariant.
Qed.

(** X25. What a save leaves behind.  A resolved save closes the modal
    and leaves no user being edited, so the form shown next is the blank
    form and a following save adds a document; a rejected save leaves the
    modal and the edited user as they were, so saving again issues the
    same call. *)
Theorem save_outcome_and_next_save :
  forall (userData userData' : AddEditUserModal.formData)
         (st : UserManagement.state) (err : string) (answer : Store.answer),
    (let saved := fst (UserManagement.handleSaveUser Store.Resolved userData st) in
     UserManagement.showAddEditModal saved = false
     /\ UserManagement.editingUser saved = None
     /\ UserManagement.formOf saved = AddEditUserModal.blank
     /\ snd (UserManagement.handleSaveUser answer userData' saved)
        = [UserManagement.AddUser userData'])
    /\ (let failed :=
          fst (UserManagement.handleSaveUser (Store.Rejected err) userData st) in
        UserManagement.showAddEditModal failed = UserManagement.showAddEditModal st
        /\ UserManagement.editingUser failed = UserManagement.editingUser st
        /\ UserManagement.message failed = UserManagement.ErrorSaving err
        /\ snd (UserManagement.handleSaveUser answer userData failed)
           = snd (UserManagement.handleSaveUser (Store.Rejected err) userData st)).
Proof.
  intros userData userData' st err answer.
  destruct st as [shown [u |] deleting pending msg]; destruct answer;
    repeat apply conj; reflexivity.
Qed.

(** X26. Deleting a user takes two steps.  The Delete button issues
    nothing and leaves the user pending; Confirm issues exactly one
    [deleteDoc] for that user.  After a resolved delete, or after Cancel,
    nothing is pending and a Confirm issues nothing; after a rejected
    delete the modal and the pending user stay and Confirm issues the
    same call again. *)
Theorem delete_user_is_confirmed_first :
  forall (u : User.t) (st : UserManagement.state) (err : string)
         (answer answer' : Store.answer),
    let asked := UserManagement.handleDeleteClick u st in
    UserManagement.isDeleteModalOpen asked = true
    /\ UserManagement.userToDelete asked = Some u
    /\ snd (UserManagement.confirmDeleteUser answer asked)
       = [UserManagement.DeleteUser (User.id u)]
    /\ snd (UserManagement.confirmDeleteUser answer'
              (fst (UserManagement.confirmDeleteUser Store.Resolved asked)))
       = []
    /\ snd (UserManagement.confirmDeleteUser answer' (UserManagement.cancelDelete asked))
       = []
    /\ (let failed :=
          fst (UserManagement.confirmDeleteUser (Store.Rejected err) asked) in
        UserManagement.isDeleteModalOpen failed = true
        /\ UserManagement.userToDelete failed = Some u
        /\ snd (UserManagement.confirmDeleteUser answer' failed)
           = [UserManagement.DeleteUser (User.id u)])
    /\ snd (UserManagement.confirmDeleteUser answer UserManagement.initial) = [].
Proof.
  intros u st err answer answer' asked.
  repeat apply conj; try reflexivity.
  - simpl. now destruct answer.
  - simpl. now destruct answer'.
Qed.

(** ** Skills *)

(** X27. Submitting the skill form never writes an empty name.  Whatever
    [trim] does, a submit issues at most one call; when the trimmed input
    is empty it issues none and says that the name cannot be empty;
    otherwise the one call carries the trimmed input, which is not empty,
    and is an update of the skill being edited when there is one and an
    addition when there is none. *)
Theorem skill_submit_never_writes_empty_name :
  forall (trim : string -> string) (answer : Store.answer)
         (st : SkillManagement.state),
    let outcome := SkillManagement.submit trim answer st in
    let name := trim (SkillManagement.newSkillName st) in
    (name = "" ->
       snd outcome = []
       /\ SkillManagement.message (fst outcome) = SkillManagement.NameCannotBeEmpty
       /\ SkillManagement.newSkillName (fst outcome) = SkillManagement.newSkillName st)
    /\ (name <> "" ->
          snd outcome
          = match SkillManagement.editingSkill st with
            | Some skill => [SkillManagement.UpdateSkill (App.skillId skill) name]
            | None => [SkillManagement.AddSkill name]
            end)
    /\ (length (snd outcome) <= 1)%nat
    /\ List.Forall
         (fun c =>
            match c with
            | SkillManagement.AddSkill n => n = name /\ n <> ""
            | SkillManagement.UpdateSkill _ n => n = name /\ n <> ""
            | SkillManagement.DeleteSkill _ => False
            end)
         (snd outcome).
Proof.
  intros trim answer st outcome name.
  unfold outcome, SkillManagement.submit, SkillManagement.handleUpdateSkill,
    SkillManagement.handleAddSkill.
  fold name.
  destruct (SkillManagement.editingSkill st) as [skill |];
    destruct (String.eqb_spec name "") as [E | E];
    destruct answer; simpl;
    repeat apply conj; try reflexivity; try (intros; congruence);
    try lia; try constructor; try tauto; constructor.
Qed.

(** X28. Editing a skill.  After Edit on a skill and typing a name whose
    trimmed form is not empty, a submit updates that skill's document
    with the trimmed name.  After a resolved update, or after Cancel
    Edit, the form is back in add mode and the next submit adds a
    document; after a rejected update the form still edits the same skill
    and the next submit issues the same update. *)
Theorem skill_edit_addresses_the_clicked_skill :
  forall (trim : string -> string) (skill : App.Skill) (v v' err : string)
         (st : SkillManagement.state) (answer answer' : Store.answer),
    trim v <> "" ->
    trim v' <> "" ->
    let editing := SkillManagement.typeName v (SkillManagement.handleEditClick skill st) in
    snd (SkillManagement.submit trim answer editing)
    = [SkillManagement.UpdateSkill (App.skillId skill) (trim v)]
    /\ snd (SkillManagement.submit trim answer'
              (SkillManagement.typeName v'
                 (fst (SkillManagement.submit trim Store.Resolved editing))))
       = [SkillManagement.AddSkill (trim v')]
    /\ snd (SkillManagement.submit trim answer'
              (SkillManagement.typeName v' (SkillManagement.cancelEdit editing)))
       = [SkillManagement.AddSkill (trim v')]
    /\ snd (SkillManagement.submit trim answer'
              (fst (SkillManagement.submit trim (Store.Rejected err) editing)))
       = [SkillManagement.UpdateSkill (App.skillId skill) (trim v)].
Proof.
  intros trim skill v v' err st answer answer' Hv Hv' editing.
  apply String.eqb_neq in Hv, Hv'.
  unfold editing, SkillManagement.submit, SkillManagement.handleUpdateSkill,
    SkillManagement.handleAddSkill.
  simpl. rewrite Hv. simpl. rewrite Hv', Hv.
  destruct answer, answer'; repeat apply conj; reflexivity.
Qed.

Lemma skill_edit_addresses_the_clicked_skill_witness :
  let skill := App.mkSkill "s1" (Some "React") in
  let editing :=
    SkillManagement.typeName " React Native "
      (SkillManagement.handleEditClick skill SkillManagement.initial) in
  snd (SkillManagement.submit Scenario.trimSpaces Store.Resolved editing)
  = [SkillManagement.UpdateSkill "s1" "React Native"]
  /\ snd (SkillManagement.submit Scenario.trimSpaces Store.Resolved
            (SkillManagement.typeName "Go "
               (fst (SkillManagement.submit Scenario.trimSpaces Store.Resolved editing))))
     = [SkillManagement.AddSkill "Go"]
  /\ snd (SkillManagement.submit Scenario.trimSpaces Store.Resolved
            (SkillManagement.typeName "Go " (SkillManagement.cancelEdit editing)))
     = [SkillManagement.AddSkill "Go"]
  /\ snd (SkillManagement.submit Scenario.trimSpaces Store.Resolved
            (fst (SkillManagement.submit Scenario.trimSpaces
                    (Store.Rejected "unavailable") editing)))
     = [SkillManagement.UpdateSkill "s1" "React Native"].
Proof.
  intros skill editing.
  apply (skill_edit_addresses_the_clicked_skill
           Scenario.trimSpaces skill " React Native " "Go " "unavailable"
           SkillManagement.initial Store.Resolved Store.Resolved);
    discriminate.
Defined.

(** X29. Deleting the skill that is being edited does not leave edit
    mode.  Confirm issues one [deleteDoc] for the skill and closes the
    modal whatever the store answers, but the form still edits the
    deleted skill: the next submit issues an [updateDoc] addressed to the
    deleted skill's id. *)
Theorem deleting_edited_skill_keeps_edit_mode :
  forall (trim : string -> string) (skill : App.Skill) (v : string)
         (st : SkillManagement.state) (answer answer' : Store.answer),
    trim v <> "" ->
    let editing := SkillManagement.typeName v (SkillManagement.handleEditClick skill st) in
    let confirmed :=
      SkillManagement.confirmDeleteSkill answer
        (SkillManagement.handleDeleteClick skill editing) in
    snd confirmed = [SkillManagement.DeleteSkill (App.skillId skill)]
    /\ SkillManagement.isDeleteModalOpen (fst confirmed) = false
    /\ SkillManagement.editingSkill (fst confirmed) = Some skill
    /\ snd (SkillManagement.submit trim answer' (fst confirmed))
       = [SkillManagement.UpdateSkill (App.skillId skill) (trim v)].
Proof.
  intros trim skill v st answer answer' Hv editing confirmed.
  apply String.eqb_neq in Hv.
  unfold confirmed, editing, SkillManagement.submit, SkillManagement.handleUpdateSkill.
  destruct answer; simpl; rewrite Hv; destruct answer';
    repeat apply conj; reflexivity.
Qed.

Lemma deleting_edited_skill_keeps_edit_mode_witness :
  let skill := App.mkSkill "s1" (Some "React") in
  let editing :=
    SkillManagement.typeName "React"
      (SkillManagement.handleEditClick skill SkillManagement.initial) in
  let confirmed :=
    SkillManagement.confirmDeleteSkill Store.Resolved
      (SkillManagement.handleDeleteClick skill editing) in
  snd confirmed = [SkillManagement.DeleteSkill "s1"]
  /\ SkillManagement.isDeleteModalOpen (fst confirmed) = false
  /\ SkillManagement.editingSkill (fst confirmed) = Some skill
  /\ snd (SkillManagement.submit Scenario.trimSpaces Store.Resolved (fst confirmed))
     = [SkillManagement.UpdateSkill "s1" "React"].
Proof.
  intros skill editing confirmed.
  apply (deleting_edited_skill_keeps_edit_mode
           Scenario.trimSpaces skill "React" SkillManagement.initial
           Store.Resolved Store.Resolved).
  discriminate.
Defined.
